(** * neural-vol-hedging: the snapshot acquisition and canonicalization pipeline

    A shallow embedding of [src/data/deribit_rest_30m.py],
    [src/data/normalize.py] and [src/data/cleaning.py], and the properties
    of the scheduler, the instrument parser, the normalizer, the
    quality-control steps and their limits, the cleaning pipeline, the
    aggregator, the listing of a snapshot and the retrying fetcher. The
    definitions come first, module by module in the order of the data
    flow; the theorems follow.

    Conventions of the embedding.
    - A Python call that can raise returns a [result]: [Ok v] or [Raise e].
    - A Python [float] (and a float64 cell of a frame) is an IEEE 754
      binary64 value, [spec_float] with [prec = 53] and [emax = 1024];
      arithmetic is the correctly rounded arithmetic of [SpecFloat].
    - A [datetime] is the number of microseconds since
      0001-01-01T00:00:00 UTC (all times of the program are UTC);
      [timedelta] arithmetic is unbounded.
    - A [str] is a [string] of characters with code points below 256.
    - A [DataFrame] is its ordered column labels and its records in index
      order, the index being the position.
    - Library functions the embedding does not compute are the fields of
      a class: the logarithm of the C library on a positive finite float
      ([Libm]), the text parsers of pandas ([PandasText]), and [float]
      and [int] on an arbitrary text ([Builtins], [IntText]).
    - What the process reads of its host, the environment variables and
      the text of the configuration files, is a record of functions
      ([Limits.Host]).
    - The workers of a batch are interleaved by a step relation: one
      step runs one worker from a suspension point to the next. *)

From Stdlib Require Import ZArith List String Ascii Bool Lia Arith.
From Stdlib Require Import DecimalString.
From Stdlib Require Import Floats.SpecFloat.
From Stdlib Require Import Permutation.
Import ListNotations.

Local Open Scope string_scope.
Local Open Scope list_scope.
Local Open Scope Z_scope.

(* ================================================================== *)
(** * Python results and exceptions *)
(* ================================================================== *)

Module Py.

Inductive exn : Type :=
| KeyError (key : string)
| ValueError (msg : string)
| TypeError
| AttributeError
| IndexError
| OverflowError
| ZeroDivisionError
| RuntimeError (msg : string).

Inductive result (A : Type) : Type :=
| Ok (v : A)
| Raise (e : exn).

Arguments Ok {A} v.
Arguments Raise {A} e.

Definition bind {A B : Type} (m : result A) (k : A -> result B) : result B :=
  match m with
  | Ok v => k v
  | Raise e => Raise e
  end.

Definition is_ok {A : Type} (m : result A) : bool :=
  match m with Ok _ => true | Raise _ => false end.

Fixpoint mapM {A B : Type} (f : A -> result B) (l : list A) : result (list B) :=
  match l with
  | [] => Ok []
  | x :: l' =>
      bind (f x) (fun y => bind (mapM f l') (fun ys => Ok (y :: ys)))
  end.

End Py.

Import Py.

Notation "x <- m ;; k" := (Py.bind m (fun x => k))
  (at level 61, m at next level, right associativity).

(* ================================================================== *)
(** * binary64 floats *)
(* ================================================================== *)

Module F64.

Definition prec : Z := 53.
Definition emax : Z := 1024.

Definition float : Type := spec_float.

Definition nan : float := S754_nan.
Definition pos_inf : float := S754_infinity false.
Definition neg_inf : float := S754_infinity true.

(** The float nearest to an integer ([float(n)], an int argument of a float
    operation). *)
Definition of_Z (z : Z) : float := binary_normalize prec emax z 0 false.

Definition add : float -> float -> float := SFadd prec emax.
Definition sub : float -> float -> float := SFsub prec emax.
Definition mul : float -> float -> float := SFmul prec emax.
Definition div : float -> float -> float := SFdiv prec emax.

(** [a <= b], [a < b], [a >= b], [a > b]: false when an operand is NaN. *)
Definition leb : float -> float -> bool := SFleb.
Definition ltb : float -> float -> bool := SFltb.
Definition geb (a b : float) : bool := SFleb b a.
Definition gtb (a b : float) : bool := SFltb b a.
Definition eqb : float -> float -> bool := SFeqb.

Definition is_nan (x : float) : bool :=
  match x with S754_nan => true | _ => false end.

Definition is_inf (x : float) : bool :=
  match x with S754_infinity _ => true | _ => false end.

Definition is_zero (x : float) : bool :=
  match x with S754_zero _ => true | _ => false end.

(** The correctly rounded quotient of two positive integers: the value of
    a decimal literal [n / 10^k]. *)
Definition of_ratio (n d : positive) : float :=
  let '(mz, ez, lz) := SFdiv_core_binary prec emax (Zpos n) 0 (Zpos d) 0 in
  binary_round_aux prec emax false mz ez lz.

(** [int(x)]: truncation toward zero. *)
Definition to_Z (x : float) : result Z :=
  match x with
  | S754_zero _ => Ok 0
  | S754_nan => Raise (ValueError "cannot convert float NaN to integer")
  | S754_infinity _ => Raise OverflowError
  | S754_finite s m e =>
      let a := match e with
               | Z0 => Zpos m
               | Zpos p => Zpos m * 2 ^ Zpos p
               | Zneg p => Zpos m / 2 ^ Zpos p
               end in
      Ok (if s then - a else a)
  end.

End F64.

(* ================================================================== *)
(** * The scheduler: [align_next_slot] (deribit_rest_30m.py) *)
(* ================================================================== *)

Module Scheduler.

Definition datetime : Type := Z.

Definition us_per_minute : Z := 60000000.

(** [dt.minute] *)
Definition minute (t : datetime) : Z := (t / us_per_minute) mod 60.

(** [dt.replace(second=0, microsecond=0)] *)
Definition replace_second0_microsecond0 (t : datetime) : datetime :=
  t - t mod us_per_minute.

(** [dt.replace(minute=0)] *)
Definition replace_minute0 (t : datetime) : datetime :=
  t - minute t * us_per_minute.

(** [timedelta(minutes=k)] *)
Definition timedelta_minutes (k : Z) : Z := k * us_per_minute.

(** Python's [//] on ints: floor division, an error on a zero divisor. *)
Definition floordiv (a b : Z) : result Z :=
  if b =? 0 then Raise ZeroDivisionError else Ok (a / b).

Definition align_next_slot (start : datetime) (minutes : Z) : result datetime :=
  let base := replace_second0_microsecond0 start in
  let step := minutes in
  q <- floordiv (minute base) step ;;
  let k := (q + 1) * step in
  let target := replace_minute0 base + timedelta_minutes k in
  if target <=? start
  then Ok (target + timedelta_minutes step)
  else Ok target.


End Scheduler.

(* ================================================================== *)
(** * Text: the [str] methods the program uses *)
(* ================================================================== *)

Module Text.

Definition chars (s : string) : list ascii := list_ascii_of_string s.
Definition text (l : list ascii) : string := string_of_list_ascii l.

Definition code (c : ascii) : nat := nat_of_ascii c.

Definition is_digit (c : ascii) : bool :=
  ((48 <=? code c) && (code c <=? 57))%nat.

Definition is_upper (c : ascii) : bool :=
  ((65 <=? code c) && (code c <=? 90))%nat.

Definition is_lower (c : ascii) : bool :=
  ((97 <=? code c) && (code c <=? 122))%nat.

Definition is_char (a c : ascii) : bool := Ascii.eqb a c.

(** [c.upper()] on the ASCII letters; the other characters below 256 have
    no ASCII upper case. *)
Definition upper_char (c : ascii) : ascii :=
  if is_lower c then ascii_of_nat (code c - 32) else c.

Definition upper (s : string) : string := text (map upper_char (chars s)).

(** The white space [str.strip()] removes, among the code points below 256. *)
Definition is_space (c : ascii) : bool :=
  let n := code c in
  (((9 <=? n) && (n <=? 13)) || ((28 <=? n) && (n <=? 32))
   || (n =? 133) || (n =? 160))%nat.

Fixpoint lstrip (l : list ascii) : list ascii :=
  match l with
  | c :: l' => if is_space c then lstrip l' else l
  | [] => []
  end.

Definition strip (s : string) : string :=
  text (rev (lstrip (rev (lstrip (chars s))))).

(** [s.split(sep)] for a one-character separator. *)
Fixpoint split_chars (sep : ascii) (cur : list ascii) (l : list ascii)
  : list string :=
  match l with
  | [] => [text (rev cur)]
  | c :: l' =>
      if Ascii.eqb c sep
      then text (rev cur) :: split_chars sep [] l'
      else split_chars sep (c :: cur) l'
  end.

Definition split (sep : ascii) (s : string) : list string :=
  split_chars sep [] (chars s).

Definition digit_value (c : ascii) : Z := Z.of_nat (code c - 48).

(** [int(s)] for a text of decimal digits; any other text is refused (the
    program only converts groups matched by [\d]). *)
Definition int (s : string) : result Z :=
  match chars s with
  | [] => Raise (ValueError "invalid literal for int()")
  | l =>
      if forallb is_digit l
      then Ok (fold_left (fun acc c => 10 * acc + digit_value c) l 0)
      else Raise (ValueError "invalid literal for int()")
  end.

(** [f"{n:0{width}d}"] for [0 <= n]. *)
Definition zero_pad (width : nat) (n : Z) : string :=
  let digits := chars (DecimalString.NilZero.string_of_uint (N.to_uint (Z.to_N n))) in
  text (repeat "0"%char (width - List.length digits) ++ digits).

(** [d[key]] and [d.get(key)] on a dict with text keys. *)
Fixpoint get {A : Type} (d : list (string * A)) (key : string) : option A :=
  match d with
  | [] => None
  | (k, v) :: d' => if String.eqb k key then Some v else get d' key
  end.

Definition getitem {A : Type} (d : list (string * A)) (key : string) : result A :=
  match get d key with
  | Some v => Ok v
  | None => Raise (KeyError key)
  end.

End Text.

(* ================================================================== *)
(** * Regular expressions: the backtracking matcher of [re] *)
(* ================================================================== *)

Module Regex.

Inductive re : Type :=
| Eps
| Class (p : ascii -> bool)       (* one character of a class *)
| Seq (a b : re)
| Alt (a b : re)
| Star (a : re)                    (* greedy [a*] *)
| Group (name : string) (a : re)   (* [(?P<name>a)], or a numbered group *)
| Eos.                             (* [$] *)

Definition Chr (c : ascii) : re := Class (Text.is_char c).
Definition Plus (a : re) : re := Seq a (Star a).
Definition Opt (a : re) : re := Alt a Eps.

Definition captures : Type := list (string * string).

(** What was consumed between [s] and its suffix [s']. *)
Definition taken (s s' : list ascii) : string :=
  Text.text (firstn (List.length s - List.length s') s).

Fixpoint run (r : re) (s : list ascii) (caps : captures)
  (k : list ascii -> captures -> option captures) {struct r}
  : option captures :=
  match r with
  | Eps => k s caps
  | Class p =>
      match s with
      | c :: s' => if p c then k s' caps else None
      | [] => None
      end
  | Seq a b => run a s caps (fun s' caps' => run b s' caps' k)
  | Alt a b =>
      match run a s caps k with
      | Some c => Some c
      | None => run b s caps k
      end
  | Star a =>
      (fix loop (fuel : nat) (s : list ascii) (caps : captures)
         : option captures :=
         match fuel with
         | O => k s caps
         | S fuel' =>
             match run a s caps
                     (fun s' caps' =>
                        if (List.length s' <? List.length s)%nat
                        then loop fuel' s' caps' else None) with
             | Some c => Some c
             | None => k s caps
             end
         end) (List.length s) s caps
  | Group name a =>
      run a s caps (fun s' caps' => k s' ((name, taken s s') :: caps'))
  | Eos =>
      (* the end of the text, or just before a newline that ends it *)
      match s with
      | [] => k s caps
      | [c] => if Text.is_char "010"%char c then k s caps else None
      | _ => None
      end
  end.

(** [pattern.match(s)]: the pattern matched from the start of [s]. *)
Definition re_match (r : re) (s : string) : option captures :=
  run r (Text.chars s) [] (fun _ caps => Some caps).

(** [re.fullmatch(pattern, s)]: the pattern matched on all of [s]. *)
Definition fullmatch (r : re) (s : string) : option captures :=
  run r (Text.chars s) []
      (fun rest caps => match rest with [] => Some caps | _ => None end).

Definition digit : re := Class Text.is_digit.
Definition upper_letter : re := Class Text.is_upper.
Definition upper_or_digit : re :=
  Class (fun c => Text.is_upper c || Text.is_digit c).

End Regex.

(* ================================================================== *)
(** * Instrument names: [parse_instrument_name] (normalize.py) *)
(* ================================================================== *)

Module Instrument.
Import Regex.

(** The common prefix of the two patterns:
    "(?P<underlying>[A-Z0-9]+)-(?P<day>\d{1,2})(?P<mon>[A-Z]{3})(?P<year>\d{2})" *)
Definition underlying_and_expiry : re :=
  Seq (Group "underlying" (Plus upper_or_digit))
 (Seq (Chr "-"%char)
 (Seq (Group "day" (Seq digit (Opt digit)))
 (Seq (Group "mon" (Seq upper_letter (Seq upper_letter upper_letter)))
      (Group "year" (Seq digit digit))))).

(** "^<prefix>-<strike>-(?P<opt>[CP])$", where <strike> is the group named
    strike around "\d+(?:\.\d+)*" *)
Definition _DERIBIT_OPT : re :=
  Seq underlying_and_expiry
 (Seq (Chr "-"%char)
 (Seq (Group "strike" (Seq (Plus digit) (Star (Seq (Chr "."%char) (Plus digit)))))
 (Seq (Chr "-"%char)
 (Seq (Group "opt" (Class (fun c => Text.is_char "C"%char c || Text.is_char "P"%char c)))
      Eos)))).

(** "^<prefix>$" *)
Definition _DERIBIT_FUT : re := Seq underlying_and_expiry Eos.

Definition _MON_MAP : list (string * Z) :=
  [("JAN", 1); ("FEB", 2); ("MAR", 3); ("APR", 4); ("MAY", 5); ("JUN", 6);
   ("JUL", 7); ("AUG", 8); ("SEP", 9); ("OCT", 10); ("NOV", 11); ("DEC", 12)].

Record ParsedInstrument : Type := {
  kind : string;                    (* 'option' | 'future' | 'unknown' *)
  underlying : string;
  maturity : string;                (* ISO date yyyy-mm-dd *)
  option_type : option string;      (* 'C' | 'P' | None *)
  strike : option F64.float
}.

(** [float(s)] for the text of the strike group, digits and dots: one
    number with at most one dot is the nearest float, more dots are not a
    number. *)
Definition float_of_strike (s : string) : result F64.float :=
  match Text.split "."%char s with
  | [whole] =>
      n <- Text.int whole ;; Ok (F64.of_Z n)
  | [whole; frac] =>
      n <- Text.int (whole ++ frac)%string ;;
      match n with
      | Zpos p =>
          Ok (F64.of_ratio p (Z.to_pos (10 ^ Z.of_nat (String.length frac))))
      | _ => Ok (S754_zero false)
      end
  | _ => Raise (ValueError "could not convert string to float")
  end.

(** [f"{year:04d}-{mon:02d}-{day:02d}"] *)
Definition iso_date (year mon day : Z) : string :=
  (Text.zero_pad 4 year ++ "-" ++ Text.zero_pad 2 mon ++ "-"
   ++ Text.zero_pad 2 day)%string.

Definition unknown_instrument : ParsedInstrument :=
  {| kind := "unknown"; underlying := ""; maturity := "";
     option_type := None; strike := None |}.

Definition parse_instrument_name (name : string) : result ParsedInstrument :=
  match re_match _DERIBIT_OPT name with
  | Some d =>
      day_s <- Text.getitem d "day" ;;
      day <- Text.int day_s ;;
      mon_s <- Text.getitem d "mon" ;;
      mon <- Text.getitem _MON_MAP (Text.upper mon_s) ;;
      year_s <- Text.getitem d "year" ;;
      yy <- Text.int year_s ;;
      let year := 2000 + yy in
      let mat := iso_date year mon day in
      und <- Text.getitem d "underlying" ;;
      opt <- Text.getitem d "opt" ;;
      strike_s <- Text.getitem d "strike" ;;
      k <- float_of_strike strike_s ;;
      Ok {| kind := "option"; underlying := und; maturity := mat;
            option_type := Some opt; strike := Some k |}
  | None =>
      match re_match _DERIBIT_FUT name with
      | Some d =>
          day_s <- Text.getitem d "day" ;;
          day <- Text.int day_s ;;
          mon_s <- Text.getitem d "mon" ;;
          mon <- Text.getitem _MON_MAP (Text.upper mon_s) ;;
          year_s <- Text.getitem d "year" ;;
          yy <- Text.int year_s ;;
          let year := 2000 + yy in
          let mat := iso_date year mon day in
          und <- Text.getitem d "underlying" ;;
          Ok {| kind := "future"; underlying := und; maturity := mat;
                option_type := None; strike := None |}
      | None =>
          (* Fallback: unknown format *)
          Ok unknown_instrument
      end
  end.

End Instrument.

(* ================================================================== *)
(** * Frames: the part of [pandas.DataFrame] the program uses *)
(* ================================================================== *)

Module Frame.

(** A Python object: a cell of a frame, or a value of a JSON response. A
    float64 column holds [VNum] cells and its null is NaN; an object
    column may hold [VNone] and text; JSON and Python ints are [VInt]; a
    datetime is [VTime]; a JSON object is a [VDict]. *)
#[warnings="-register-all"]
Inductive value : Type :=
| VNone
| VNum (x : F64.float)
| VInt (z : Z)
| VStr (s : string)
| VBool (b : bool)
| VTime (t : Z)
| VDict (items : list (string * value)).

(** One record of the frame: the cells by column label. *)
Definition Row : Type := list (string * value).

Definition Series : Type := list value.

(** The ordered column labels and the records, in index order. The index
    is the position. *)
Record DataFrame : Type := {
  columns : list string;
  rows : list Row
}.

(** [pd.isna(v)] *)
Definition isna (v : value) : bool :=
  match v with
  | VNone => true
  | VNum x => F64.is_nan x
  | _ => false
  end.

(** [c in df.columns] *)
Definition has_column (df : DataFrame) (c : string) : bool :=
  existsb (String.eqb c) (columns df).

(** [{a, b}.issubset(df.columns)] *)
Definition issubset (labels : list string) (df : DataFrame) : bool :=
  forallb (has_column df) labels.

(** The cell of a record; a label the record lacks reads as NaN, as in
    [pd.DataFrame(list_of_dicts)]. *)
Definition cell (c : string) (r : Row) : value :=
  match Text.get r c with
  | Some v => v
  | None => VNum F64.nan
  end.

(** [df[c]] *)
Definition getitem (df : DataFrame) (c : string) : result Series :=
  if has_column df c
  then Ok (map (cell c) (rows df))
  else Raise (KeyError c).

Fixpoint set_cell (c : string) (v : value) (r : Row) : Row :=
  match r with
  | [] => [(c, v)]
  | (k, x) :: r' =>
      if String.eqb k c then (k, v) :: r' else (k, x) :: set_cell c v r'
  end.

Fixpoint set_cells (c : string) (s : Series) (rs : list Row)
  : result (list Row) :=
  match s, rs with
  | [], [] => Ok []
  | v :: s', r :: rs' =>
      rest <- set_cells c s' rs' ;; Ok (set_cell c v r :: rest)
  | _, _ => Raise (ValueError "Length of values does not match length of index")
  end.

(** [df[c] = s]: an existing column is replaced in place, a new one is
    added last. *)
Definition setitem (df : DataFrame) (c : string) (s : Series)
  : result DataFrame :=
  rs <- set_cells c s (rows df) ;;
  Ok {| columns := if has_column df c then columns df else columns df ++ [c];
        rows := rs |}.

(** [df[mask]] for a boolean mask: the records where it is true. *)
Fixpoint select (mask : list bool) (rs : list Row) : list Row :=
  match mask, rs with
  | b :: mask', r :: rs' => if b then r :: select mask' rs' else select mask' rs'
  | _, _ => []
  end.

Definition getitem_mask (df : DataFrame) (mask : list bool) : DataFrame :=
  {| columns := columns df; rows := select mask (rows df) |}.

(** [df.empty]: an axis of length 0. *)
Definition empty (df : DataFrame) : bool :=
  match columns df, rows df with
  | _ :: _, _ :: _ => false
  | _, _ => true
  end.

(** The number a cell stands for in float arithmetic and comparisons:
    floats, ints and bools are numbers; [None], text and datetimes are not
    (the operation raises [TypeError]). *)
Definition as_float (v : value) : result F64.float :=
  match v with
  | VNum x => Ok x
  | VInt z => Ok (F64.of_Z z)
  | VBool b => Ok (F64.of_Z (if b then 1 else 0))
  | VNone | VStr _ | VTime _ | VDict _ => Raise TypeError
  end.

(** Element-wise operations of two Series of the same frame. *)
Fixpoint map2 {A : Type} (f : value -> value -> result A) (a b : Series)
  : result (list A) :=
  match a, b with
  | [], [] => Ok []
  | x :: a', y :: b' =>
      z <- f x y ;; rest <- map2 f a' b' ;; Ok (z :: rest)
  | _, _ => Raise (ValueError "Series lengths must match")
  end.

Definition arith (op : F64.float -> F64.float -> F64.float) (x y : value)
  : result value :=
  a <- as_float x ;; b <- as_float y ;; Ok (VNum (op a b)).

Definition compare (op : F64.float -> F64.float -> bool) (x y : value)
  : result bool :=
  a <- as_float x ;; b <- as_float y ;; Ok (op a b).

(** [a - b], [a / b] *)
Definition sub (a b : Series) : result Series := map2 (arith F64.sub) a b.
Definition div (a b : Series) : result Series := map2 (arith F64.div) a b.

(** [a >= b] *)
Definition ge (a b : Series) : result (list bool) := map2 (compare F64.geb) a b.

(** [a >= x], [a > x], [a <= x] for a scalar [x] *)
Definition ge_scalar (a : Series) (x : F64.float) : result (list bool) :=
  mapM (fun v => compare F64.geb v (VNum x)) a.
Definition gt_scalar (a : Series) (x : F64.float) : result (list bool) :=
  mapM (fun v => compare F64.gtb v (VNum x)) a.
Definition le_scalar (a : Series) (x : F64.float) : result (list bool) :=
  mapM (fun v => compare F64.leb v (VNum x)) a.

(** [m1 & m2], [~m] *)
Fixpoint mask_and (m1 m2 : list bool) : list bool :=
  match m1, m2 with
  | b1 :: m1', b2 :: m2' => (b1 && b2) :: mask_and m1' m2'
  | _, _ => []
  end.
Definition mask_not (m : list bool) : list bool := map negb m.

(** [s.between(left, right, inclusive="both")]: [(s >= left) & (s <= right)] *)
Definition between (s : Series) (left right : F64.float) : result (list bool) :=
  lo <- ge_scalar s left ;;
  hi <- le_scalar s right ;;
  Ok (mask_and lo hi).

(** The column is float64: every cell is a float (its null is NaN). *)
Definition float64_cell (v : value) : bool :=
  match v with VNum _ => true | _ => false end.

Definition is_float64 (df : DataFrame) (c : string) : bool :=
  has_column df c && forallb (fun r => float64_cell (cell c r)) (rows df).

(** The float of a float64 cell. *)
Definition num (c : string) (r : Row) : F64.float :=
  match cell c r with
  | VNum x => x
  | _ => F64.nan
  end.

(** The order of [sort_values]: nulls last; text by code points, datetimes
    and numbers by value; text against a number or a datetime is a
    [TypeError]. *)
Definition value_compare (a b : value) : result comparison :=
  match isna a, isna b with
  | true, true => Ok Eq
  | true, false => Ok Gt
  | false, true => Ok Lt
  | false, false =>
      match a, b with
      | VStr s, VStr t => Ok (String.compare s t)
      | VTime s, VTime t => Ok (Z.compare s t)
      | (VNum _ | VInt _ | VBool _), (VNum _ | VInt _ | VBool _) =>
          x <- as_float a ;; y <- as_float b ;;
          match SFcompare x y with
          | Some c => Ok c
          | None => Ok Eq
          end
      | _, _ => Raise TypeError
      end
  end.

Fixpoint key_compare (a b : list value) : result comparison :=
  match a, b with
  | x :: a', y :: b' =>
      c <- value_compare x y ;;
      match c with
      | Eq => key_compare a' b'
      | _ => Ok c
      end
  | _, _ => Ok Eq
  end.

Definition key (cols : list string) (r : Row) : list value :=
  map (fun c => cell c r) cols.

(** A stable sort by insertion, from the last row to the first. *)
Fixpoint insert_sorted (cols : list string) (r : Row) (sorted : list Row)
  : result (list Row) :=
  match sorted with
  | [] => Ok [r]
  | r' :: rest =>
      c <- key_compare (key cols r) (key cols r') ;;
      match c with
      | Gt => rest' <- insert_sorted cols r rest ;; Ok (r' :: rest')
      | _ => Ok (r :: sorted)
      end
  end.

Fixpoint sort_rows (cols : list string) (rs : list Row) : result (list Row) :=
  match rs with
  | [] => Ok []
  | r :: rs' => sorted <- sort_rows cols rs' ;; insert_sorted cols r sorted
  end.

(** Two cells are the same key: nulls are one key; ints, bools, text and
    datetimes are compared exactly, a float with a number by value. *)
Definition same_value (a b : value) : bool :=
  match isna a, isna b with
  | true, true => true
  | false, false =>
      match a, b with
      | VStr s, VStr t => String.eqb s t
      | VTime s, VTime t => Z.eqb s t
      | VInt x, VInt y => Z.eqb x y
      | VBool x, VBool y => Bool.eqb x y
      | VNum _, (VNum _ | VInt _ | VBool _)
      | (VInt _ | VBool _), VNum _
      | VInt _, VBool _ | VBool _, VInt _ =>
          match as_float a, as_float b with
          | Ok x, Ok y => F64.eqb x y
          | _, _ => false
          end
      | _, _ => false
      end
  | _, _ => false
  end.

Fixpoint same_key (a b : list value) : bool :=
  match a, b with
  | [], [] => true
  | x :: a', y :: b' => same_value x y && same_key a' b'
  | _, _ => false
  end.

(** Two frames agree on a column: both have it or not, with the same
    cells. *)
Definition same_column (c : string) (df1 df2 : DataFrame) : Prop :=
  has_column df1 c = has_column df2 c
  /\ map (cell c) (rows df1) = map (cell c) (rows df2).

End Frame.

(* ================================================================== *)
(** * numpy: [np.log] *)
(* ================================================================== *)

(** The C library's logarithm on a positive finite double [m * 2^e]; its
    rounding is the library's own. *)
Class Libm : Type := {
  log_finite : positive -> Z -> F64.float
}.

Module Numpy.

(** [np.log(x)] under [np.errstate(divide="ignore", invalid="ignore")]:
    the IEEE special cases, and the library on a positive finite [x]. *)
Definition log `{Libm} (x : F64.float) : F64.float :=
  match x with
  | S754_nan => F64.nan
  | S754_zero _ => F64.neg_inf
  | S754_infinity false => F64.pos_inf
  | S754_infinity true => F64.nan
  | S754_finite true _ _ => F64.nan
  | S754_finite false m e => log_finite m e
  end.

Definition log_series `{Libm} (s : Frame.Series) : result Frame.Series :=
  mapM (fun v => x <- Frame.as_float v ;; Ok (Frame.VNum (log x))) s.

End Numpy.

(* ================================================================== *)
(** * Quality control: cleaning.py *)
(* ================================================================== *)

Module Cleaning.
Import Frame.

Record QCLimits : Type := {
  iv_min : F64.float;
  iv_max : F64.float
}.

(** The defaults of the dataclass: [iv_min = 0.01], [iv_max = 5.0]. *)
Definition default_limits : QCLimits :=
  {| iv_min := F64.of_ratio 1 100; iv_max := F64.of_Z 5 |}.

Definition compute_mid_and_spread (df : DataFrame) : result DataFrame :=
  let out := df in
  if issubset ["bid"; "ask"] out then
    ask <- getitem out "ask" ;;
    bid <- getitem out "bid" ;;
    d <- sub ask bid ;;
    mid <- getitem out "mid" ;;
    q <- div d mid ;;
    setitem out "spread_rel" q
  else Ok out.

Definition enforce_bid_ask_rules (df : DataFrame) : result DataFrame :=
  let out := df in
  if issubset ["bid"; "ask"] out then
    bid <- getitem out "bid" ;;
    m1 <- ge_scalar bid (F64.of_Z 0) ;;
    ask <- getitem out "ask" ;;
    m2 <- gt_scalar ask (F64.of_Z 0) ;;
    ask' <- getitem out "ask" ;;
    bid' <- getitem out "bid" ;;
    m3 <- ge ask' bid' ;;
    Ok (getitem_mask out (mask_and (mask_and m1 m2) m3))
  else Ok out.

Definition add_moneyness `{Libm} (df : DataFrame) : result DataFrame :=
  let out := df in
  if issubset ["strike"; "index_price"] out then
    strike <- getitem out "strike" ;;
    price <- getitem out "underlying_price" ;;
    q <- div strike price ;;
    l <- Numpy.log_series q ;;
    setitem out "moneyness" l
  else Ok out.

Definition flag_iv_outliers (df : DataFrame) (limits : QCLimits)
  : result DataFrame :=
  let out := df in
  if has_column out "iv" then
    iv <- getitem out "iv" ;;
    inside <- between iv (iv_min limits) (iv_max limits) ;;
    setitem out "iv_flag_outlier" (map VBool (mask_not inside))
  else Ok out.

Definition ONLY_AND_RENAMED : list (string * string) :=
  [("slot_time_utc", "timestamp");
   ("underlying", "underlying");
   ("instrument_name", "instrument_name");
   ("expiry_utc", "expiry");
   ("strike", "strike");
   ("option_type", "option_type");
   ("bid", "bid");
   ("ask", "ask");
   ("mid", "mid");
   ("iv", "iv");
   ("delta", "delta");
   ("gamma", "gamma");
   ("vega", "vega");
   ("theta", "theta");
   ("rho", "rho");
   ("F", "F");
   ("S", "S");
   ("spread_rel", "spread");
   ("moneyness", "moneyness");
   ("iv_flag_outlier", "iv_flag_outlier")].

(** [pd.DataFrame(columns=labels, index=df.index)]: all cells NaN. *)
Definition blank_row (labels : list string) : Row :=
  map (fun c => (c, VNum F64.nan)) labels.

Definition blank_frame (labels : list string) (df : DataFrame) : DataFrame :=
  {| columns := labels; rows := map (fun _ => blank_row labels) (rows df) |}.

(** The cells of a record under new labels: for each (source, target) of
    [items], the cell of [source] under the label [target]. *)
Definition renamed_row (items : list (string * string)) (r : Row) : Row :=
  map (fun kv => (snd kv, cell (fst kv) r)) items.

(** The loop [for k, v in ONLY_AND_RENAMED.items()] *)
Fixpoint rename_loop (items : list (string * string)) (df out : DataFrame)
  : result DataFrame :=
  match items with
  | [] => Ok out
  | (k, v) :: items' =>
      if negb (has_column df k)
      then Raise (ValueError ("Column " ++ k ++ " not found in dataframe"))
      else
        s <- getitem df k ;;
        out' <- setitem out v s ;;
        rename_loop items' df out'
  end.

Definition filter_rename_columns (df : DataFrame) : result DataFrame :=
  let out := blank_frame (map snd ONLY_AND_RENAMED) df in
  rename_loop ONLY_AND_RENAMED df out.

End Cleaning.

(* ================================================================== *)
(** * pandas: the conversions of text *)
(* ================================================================== *)

(** What pandas reads in a text cell: [pd.to_datetime(s, utc=True).value],
    the nanoseconds since 1970-01-01 ([None] when the text is refused), and
    the number [pd.to_numeric] finds in it ([None] when there is none). *)
Class PandasText : Type := {
  to_datetime_text : string -> option Z;
  to_numeric_text : string -> option F64.float
}.

(* ================================================================== *)
(** * Normalization: normalize.py *)
(* ================================================================== *)

Module Normalize.
Import Frame.

(** 1970-01-01T00:00:00 in microseconds since 0001-01-01. *)
Definition unix_epoch : Z := 62135596800000000.

(** [to_utc_ms(ts)] *)
Definition to_utc_ms `{PandasText} (ts : value) : result value :=
  match ts with
  | VNone => Raise (ValueError "timestamp is None/NaN")
  | VNum x =>
      if F64.is_nan x then Raise (ValueError "timestamp is None/NaN")
      else
        n <- F64.to_Z (if F64.gtb x (F64.of_Z (10 ^ 12)) then x
                       else F64.mul x (F64.of_Z 1000)) ;;
        Ok (VInt n)
  | VInt z => Ok (VInt (if z >? 10 ^ 12 then z else z * 1000))
  | VBool _ => Raise TypeError
  | VStr s =>
      match to_datetime_text s with
      | Some ns => Ok (VInt (ns / 10 ^ 6))
      | None => Raise (ValueError "Unknown datetime string format")
      end
  | VTime t => Ok (VInt (((t - unix_epoch) * 1000) / 10 ^ 6))
  | VDict _ => Raise (ValueError "to assemble mappings requires year, month, day")
  end.

Definition ALIASES : list (string * list string) :=
  [("slot_time_utc", ["slot_time_utc"]);
   ("timestamp", ["timestamp_utc"]);
   ("instrument_name", ["instrument_name"; "symbol"; "inst"]);
   ("bid", ["best_bid_price"; "bid_price"; "bid"]);
   ("ask", ["best_ask_price"; "ask_price"; "ask"]);
   ("mark_price", ["mark_price"; "mark"; "last_price"]);
   ("iv", ["mark_iv"; "iv"; "implied_volatility"]);
   ("delta", ["delta"]);
   ("gamma", ["gamma"]);
   ("vega", ["vega"]);
   ("theta", ["theta"]);
   ("F", ["underlying_price"]);
   ("S", ["index_price"]);
   ("volume", ["volume"; "volume_24h"]);
   ("open_interest", ["open_interest"; "oi"]);
   ("maturity", ["maturity"; "expiry_utc"; "expiration"; "expiration_date";
                 "expiration_timestamp"]);
   ("strike", ["strike"; "k"; "strike_price"]);
   ("option_type", ["option_type"; "is_call"; "call_put"; "right"]);
   ("kind", ["kind"; "instrument_type"; "type"])].

(** The keys of [NUMERIC_TARGETS], in order (every target type is float). *)
Definition NUMERIC_TARGETS : list string :=
  ["bid"; "ask"; "mark_price"; "iv"; "delta"; "gamma"; "vega"; "theta";
   "underlying_price"; "strike"; "volume"; "open_interest"; "S"; "F"].

(** [out[target] = f(out[source])], cell by cell. *)
Definition assign_map (out : DataFrame) (target source : string)
  (f : value -> result value) : result DataFrame :=
  s <- getitem out source ;;
  s' <- mapM f s ;;
  setitem out target s'.

(** One turn of the loop over [ALIASES.items()]. *)
Definition coalesce_alias (out : DataFrame) (item : string * list string)
  : result DataFrame :=
  let '(target, candidates) := item in
  if has_column out target then Ok out
  else
    match find (has_column out) candidates with
    | Some c => assign_map out target c (fun v => Ok v)
    | None => Ok out
    end.

Fixpoint foldM {A B : Type} (f : B -> A -> result B) (l : list A) (b : B)
  : result B :=
  match l with
  | [] => Ok b
  | x :: l' => b' <- f b x ;; foldM f l' b'
  end.

(** [str(x)] of a cell that can spell one of the tokens of [_norm_opt];
    the text of a float or of a datetime never does. *)
Definition py_str (x : value) : option string :=
  match x with
  | VStr s => Some s
  | VInt z =>
      Some (match z with
            | Zneg _ => "-" ++ Text.zero_pad 0 (- z)
            | _ => Text.zero_pad 0 z
            end)%string
  | VBool b => Some (if b then "True" else "False")
  | VNone | VNum _ | VTime _ | VDict _ => None
  end.

Definition mem (s : string) (l : list string) : bool :=
  existsb (String.eqb s) l.

Definition _norm_opt (x : value) : value :=
  if isna x then VNone
  else
    match py_str x with
    | Some t =>
        let s := Text.strip (Text.upper t) in
        if mem s ["C"; "CALL"; "1"; "TRUE"] then VStr "C"
        else if mem s ["P"; "PUT"; "0"; "FALSE"] then VStr "P"
        else VNone
    | None => VNone
    end.

(** [pd.to_numeric(x, errors="coerce")] on one cell; the result is read as
    a float64 cell. *)
Definition to_numeric `{PandasText} (x : value) : F64.float :=
  match x with
  | VNum x => x
  | VInt z => F64.of_Z z
  | VBool b => F64.of_Z (if b then 1 else 0)
  | VStr s =>
      match to_numeric_text s with
      | Some x => x
      | None => F64.nan
      end
  | VNone | VDict _ => F64.nan
  | VTime t => F64.of_Z ((t - unix_epoch) * 1000)
  end.

(** One turn of the loop over [NUMERIC_TARGETS.items()]. *)
Definition numeric_cast `{PandasText} (out : DataFrame) (col : string)
  : result DataFrame :=
  if has_column out col then
    out1 <- assign_map out col col (fun v => Ok (VNum (to_numeric v))) ;;
    if String.eqb col "iv"
    then assign_map out1 col col (fun v => arith F64.div v (VNum (F64.of_Z 100)))
    else Ok out1
  else Ok out.

Definition coalesce_columns `{PandasText} (df : DataFrame) : result DataFrame :=
  let out := df in
  out <- foldM coalesce_alias ALIASES out ;;
  out <- (if has_column out "timestamp"
          then assign_map out "timestamp" "timestamp" to_utc_ms
          else Ok out) ;;
  out <- (if has_column out "option_type"
          then assign_map out "option_type" "option_type"
                 (fun v => Ok (_norm_opt v))
          else Ok out) ;;
  foldM numeric_cast NUMERIC_TARGETS out.

(** [str(cell)] then [parse_instrument_name]: only a text cell can match
    the patterns (the text of a number, a bool, [None] or a datetime does
    not start with the letters-and-digits field followed by a dash, a day
    and a month). *)
Definition parse_cell (v : value) : result Instrument.ParsedInstrument :=
  match v with
  | VStr s => Instrument.parse_instrument_name s
  | _ => Ok Instrument.unknown_instrument
  end.

Definition of_option {A : Type} (f : A -> value) (o : option A) : value :=
  match o with Some a => f a | None => VNone end.

(** [s.fillna(filler)]: a null cell takes the filler's cell, unless that
    one is null too. *)
Fixpoint fillna (s filler : Series) : Series :=
  match s, filler with
  | v :: s', w :: filler' =>
      (if isna v && negb (isna w) then w else v) :: fillna s' filler'
  | _, _ => s
  end.

(** [out.get(c, pd.Series([None] * len(out)))] *)
Definition get_or_none (out : DataFrame) (c : string) : Series :=
  if has_column out c then map (cell c) (rows out)
  else map (fun _ => VNone) (rows out).

Definition fill_from (parsed : list Instrument.ParsedInstrument)
  (out : DataFrame) (field : string * (Instrument.ParsedInstrument -> value))
  : result DataFrame :=
  let '(c, f) := field in
  setitem out c (fillna (get_or_none out c) (map f parsed)).

Definition add_parsed_columns (df : DataFrame) (instrument_col : string)
  : result DataFrame :=
  let out := df in
  if negb (has_column out instrument_col) then Ok out
  else
    names <- getitem out instrument_col ;;
    parsed <- mapM parse_cell names ;;
    foldM (fill_from parsed)
      [("kind", fun p => VStr (Instrument.kind p));
       ("maturity", fun p => VStr (Instrument.maturity p));
       ("option_type", fun p => of_option VStr (Instrument.option_type p));
       ("strike", fun p => of_option VNum (Instrument.strike p));
       ("underlying", fun p => VStr (Instrument.underlying p))]
      out.

(** [df.sort_values(cols)] *)
Definition sort_values (df : DataFrame) (cols : list string)
  : result DataFrame :=
  rs <- sort_rows cols (rows df) ;;
  Ok {| columns := columns df; rows := rs |}.

(** [df.drop_duplicates(cols, keep="last")]: a row is dropped when a later
    row has its key. *)
Fixpoint drop_duplicate_rows (cols : list string) (rs : list Row) : list Row :=
  match rs with
  | [] => []
  | r :: rs' =>
      if existsb (fun r' => same_key (key cols r) (key cols r')) rs'
      then drop_duplicate_rows cols rs'
      else r :: drop_duplicate_rows cols rs'
  end.

Definition drop_duplicates (df : DataFrame) (cols : list string) : DataFrame :=
  {| columns := columns df; rows := drop_duplicate_rows cols (rows df) |}.

Definition standardize `{PandasText} (df : DataFrame) (instrument_col : string)
  : result DataFrame :=
  out <- coalesce_columns df ;;
  out <- add_parsed_columns out instrument_col ;;
  let sort_cols :=
    filter (has_column out) ["instrument_name"; "slot_time_utc"] in
  match sort_cols with
  | [] => Ok out
  | _ =>
      sorted <- sort_values out sort_cols ;;
      Ok (drop_duplicates sorted sort_cols)
  end.

(** The column [coalesce_columns] reads the implied volatility from: [iv]
    itself when the frame has it, else the first alias present. *)
Definition iv_source (df : DataFrame) : option string :=
  if has_column df "iv" then Some "iv"
  else find (has_column df) ["mark_iv"; "iv"; "implied_volatility"].

End Normalize.

(* ================================================================== *)
(** * Python builtins the embedding does not compute *)
(* ================================================================== *)

(** [float(s)] on an arbitrary text: the float it spells, [None] when
    [float] raises [ValueError]. *)
Class Builtins : Type := {
  float_text : string -> option F64.float
}.

(* ================================================================== *)
(** * The snapshot: deribit_rest_30m.py *)
(* ================================================================== *)

Module Snapshot.
Import Frame Regex.

(** ** Dates: [datetime(year, month, day, hour, 0, 0, tzinfo=utc)] *)

Definition is_leap (year : Z) : bool :=
  (year mod 4 =? 0) && (negb (year mod 100 =? 0) || (year mod 400 =? 0)).

Definition days_in_month (year month : Z) : Z :=
  if (month =? 2) && is_leap year then 29
  else nth (Z.to_nat month) [0; 31; 28; 31; 30; 31; 30; 31; 31; 30; 31; 30; 31] 0.

Definition days_before_year (year : Z) : Z :=
  let y := year - 1 in y * 365 + y / 4 - y / 100 + y / 400.

Definition days_before_month (year month : Z) : Z :=
  nth (Z.to_nat month) [0; 0; 31; 59; 90; 120; 151; 181; 212; 243; 273; 304; 334] 0
  + (if (2 <? month) && is_leap year then 1 else 0).

Definition datetime (year month day hour : Z) : result Z :=
  if negb ((1 <=? year) && (year <=? 9999)) then
    Raise (ValueError "year is out of range")
  else if negb ((1 <=? month) && (month <=? 12)) then
    Raise (ValueError "month must be in 1..12")
  else if negb ((1 <=? day) && (day <=? days_in_month year month)) then
    Raise (ValueError "day is out of range for month")
  else
    let ordinal := days_before_year year + days_before_month year month + day in
    Ok (((ordinal - 1) * 86400 + hour * 3600) * 1000000).

Definition MONTHS : list (string * Z) :=
  [("JAN", 1); ("FEB", 2); ("MAR", 3); ("APR", 4); ("MAY", 5); ("JUN", 6);
   ("JUL", 7); ("AUG", 8); ("SEP", 9); ("OCT", 10); ("NOV", 11); ("DEC", 12)].

(** "(\d{1,2})([A-Z]{3})(\d{2})" *)
Definition expiry_code : re :=
  Seq (Group "1" (Seq digit (Opt digit)))
 (Seq (Group "2" (Seq upper_letter (Seq upper_letter upper_letter)))
      (Group "3" (Seq digit digit))).

(** '27OCT25' -> 2025-10-27 08:00:00Z *)
Definition parse_expiry_code (code : string) : result value :=
  match fullmatch expiry_code code with
  | None => Ok VNone
  | Some m =>
      g1 <- Text.getitem m "1" ;;
      day <- Text.int g1 ;;
      g2 <- Text.getitem m "2" ;;
      let mon := Text.get MONTHS (Text.upper g2) in
      g3 <- Text.getitem m "3" ;;
      yy <- Text.int g3 ;;
      let year := 2000 + yy in
      match mon with
      | None => Ok VNone
      | Some mon => t <- datetime year mon day 8 ;; Ok (VTime t)
      end
  end.

(** ** Row construction *)

(** [a + b] and [x / 2.0] on the values of a response: ints add exactly,
    the other numbers as floats; text or a dict ends in [TypeError]. *)
Definition py_add (a b : value) : result value :=
  match a, b with
  | VInt x, VInt y => Ok (VInt (x + y))
  | VStr s, VStr t => Ok (VStr (s ++ t))
  | _, _ => arith F64.add a b
  end.

Definition py_truediv (a : value) (d : F64.float) : result value :=
  arith F64.div a (VNum d).

Definition is_none (v : value) : bool :=
  match v with VNone => true | _ => false end.

(** [d.get(key)] *)
Definition dict_get (d : list (string * value)) (key : string) : value :=
  match Text.get d key with Some v => v | None => VNone end.

(** [greeks.get(key)] for the value of [ob.get("greeks")], not [None]. *)
Definition greek (greeks : value) (key : string) : result value :=
  match greeks with
  | VDict g => Ok (dict_get g key)
  | _ => Raise AttributeError
  end.

Definition make_row `{Builtins} (slot_time : Z) (underlying instrument : string)
  (ob : list (string * value)) (now : Z) : result Row :=
  best_bid <- Text.getitem ob "best_bid_price" ;;
  best_ask <- Text.getitem ob "best_ask_price" ;;
  mid <- (if negb (is_none best_bid) && negb (is_none best_ask)
          then s <- py_add best_bid best_ask ;; py_truediv s (F64.of_Z 2)
          else Ok VNone) ;;
  let iv := dict_get ob "mark_iv" in
  let parts := Text.split "-"%char instrument in
  parsed <- (match parts with
             | _ :: p1 :: p2 :: p3 :: _ =>
                 expiry_dt <- parse_expiry_code p1 ;;
                 let strike := match float_text p2 with
                               | Some x => VNum x
                               | None => VNone  (* except Exception *)
                               end in
                 Ok (expiry_dt, strike, VStr p3)
             | _ => Ok (VNone, VNone, VNone)
             end) ;;
  let '(expiry_dt, strike, opt_type) := parsed in
  let greeks := dict_get ob "greeks" in
  gs <- (if is_none greeks then Ok [VNone; VNone; VNone; VNone; VNone]
         else mapM (greek greeks) ["delta"; "gamma"; "vega"; "theta"; "rho"]) ;;
  Ok ([("slot_time_utc", VTime slot_time);
       ("timestamp_utc", VTime now);
       ("underlying", VStr underlying);
       ("instrument_name", VStr instrument);
       ("expiry_utc", expiry_dt);
       ("strike", strike);
       ("option_type", opt_type);
       ("bid", best_bid);
       ("ask", best_ask);
       ("mid", mid)]
      ++ [("iv", iv)]
      ++ combine ["delta"; "gamma"; "vega"; "theta"; "rho"] gs
      ++ [("index_price", dict_get ob "index_price");
          ("underlying_price", dict_get ob "underlying_price")]).

(** ** The fetch of one batch: [gather_order_books] *)

Record Config : Type := {
  max_concurrency : Z;
  per_request_delay_ms : Z;
  max_retries : Z;
  retry_delay_ms : Z
}.

(** What the batch meets: the outcome of [fetch_order_book] for the
    worker of instrument number [i] at its attempt [retry_count] (a
    response or an exception), and the clock read when its row is made. *)
Record World : Type := {
  fetch_order_book : nat -> Z -> result (list (string * value));
  utc_now : nat -> Z -> Z
}.

(** A worker is waiting for the semaphore, inside it at the head of its
    loop with some [retry_count], or finished. *)
Inductive task : Type :=
| Waiting
| Running (retry_count : Z)
| Finished.

(** The semaphore, the workers and the shared list [rows]; each row is
    kept with the number of the worker that appended it. *)
Record state : Type := {
  sem_value : Z;
  tasks : list task;
  rows : list (nat * Row)
}.

Fixpoint set_task (i : nat) (t : task) (ts : list task) : list task :=
  match ts, i with
  | [], _ => []
  | _ :: ts', O => t :: ts'
  | x :: ts', S i' => x :: set_task i' t ts'
  end.

Section Batch.
Context `{Builtins}.
Variable cfg : Config.
Variable world : World.
Variable slot_time : Z.
Variable instruments : list (string * string).

(** The body of [try]: the fetch, then the row. *)
Definition attempt (i : nat) (retry_count : Z) : result Row :=
  match nth_error instruments i with
  | Some (under, inst) =>
      ob <- fetch_order_book world i retry_count ;;
      make_row slot_time under inst ob (utc_now world i retry_count)
  | None => Raise (RuntimeError "no such worker")
  end.

(** One turn of worker [i], from one suspension point to the next; [None]
    when the worker cannot move. *)
Definition step_task (i : nat) (st : state) : option state :=
  match nth_error (tasks st) i with
  | Some Waiting =>
      (* async with sem: *)
      if 0 <? sem_value st
      then Some {| sem_value := sem_value st - 1;
                   tasks := set_task i (Running 0) (tasks st);
                   rows := rows st |}
      else None
  | Some (Running retry_count) =>
      if retry_count <? max_retries cfg then
        match attempt i retry_count with
        | Ok row =>
            (* rows.append(row); break; the semaphore is released *)
            Some {| sem_value := sem_value st + 1;
                    tasks := set_task i Finished (tasks st);
                    rows := rows st ++ [(i, row)] |}
        | Raise _ =>
            (* log.warning; retry_count += 1; sleep *)
            Some {| sem_value := sem_value st;
                    tasks := set_task i (Running (retry_count + 1)) (tasks st);
                    rows := rows st |}
        end
      else
        Some {| sem_value := sem_value st + 1;
                tasks := set_task i Finished (tasks st);
                rows := rows st |}
  | Some Finished | None => None
  end.

Definition init : state :=
  {| sem_value := max_concurrency cfg;
     tasks := map (fun _ => Waiting) instruments;
     rows := [] |}.

(** The event loop runs some worker that can move. *)
Inductive step : state -> state -> Prop :=
| step_worker (i : nat) (st st' : state) :
    step_task i st = Some st' -> step st st'.

Inductive reachable : state -> Prop :=
| reachable_init : reachable init
| reachable_step (st st' : state) :
    reachable st -> step st st' -> reachable st'.

Definition is_finished (t : task) : bool :=
  match t with Finished => true | _ => false end.

(** [asyncio.gather] over the tasks has returned. *)
Definition gathered (st : state) : bool := forallb is_finished (tasks st).

(** The number of rows of worker [i] in [rows]. *)
Definition rows_of (i : nat) (st : state) : nat :=
  List.length (filter (fun r => Nat.eqb (fst r) i) (rows st)).

(** The batch under a schedule, the list of the workers the loop resumes
    in turn (a worker that cannot move is passed over). *)
Definition run (schedule : list nat) (st : state) : state :=
  fold_left (fun st i => match step_task i st with
                         | Some st' => st'
                         | None => st
                         end) schedule st.

(** *** The invariant of a batch *)

Definition failed (i : nat) (retry_count : Z) : Prop :=
  exists e, attempt i retry_count = Raise e.

(** What holds of worker [i] in state [t]: no row before it finishes;
    the attempts below its [retry_count] have failed; once finished, either
    its first successful attempt came within [max_retries] and appended
    its one row, or all [max_retries] attempts failed and it has no row. *)
Definition worker_invariant (rs : list (nat * Row)) (i : nat) (t : task) : Prop :=
  let n := List.length (filter (fun r => Nat.eqb (fst r) i) rs) in
  match t with
  | Waiting => n = O
  | Running rc => 0 <= rc /\ n = O /\ forall j, 0 <= j < rc -> failed i j
  | Finished =>
      (exists rc row,
          0 <= rc < max_retries cfg
          /\ (forall j, 0 <= j < rc -> failed i j)
          /\ attempt i rc = Ok row
          /\ n = 1%nat /\ In (i, row) rs)
      \/ (n = O /\ forall j, 0 <= j < max_retries cfg -> failed i j)
  end.

Definition is_running (t : task) : bool :=
  match t with Running _ => true | _ => false end.

(** The workers inside the semaphore. *)
Definition running (ts : list task) : Z :=
  Z.of_nat (List.length (filter is_running ts)).

Definition invariant (st : state) : Prop :=
  (forall i t, nth_error (tasks st) i = Some t ->
               worker_invariant (rows st) i t)
  /\ List.length (tasks st) = List.length instruments
  /\ sem_value st + running (tasks st) = max_concurrency cfg.

(** The turns a worker still has at most. *)
Definition weight (t : task) : nat :=
  match t with
  | Waiting => Z.to_nat (max_retries cfg) + 2
  | Running rc => Z.to_nat (max_retries cfg - rc) + 1
  | Finished => 0
  end.

Definition measure (st : state) : nat := list_sum (map weight (tasks st)).

End Batch.

(** [gather_order_books(cfg, client, instruments)] under a schedule:
    [None] while workers are still pending. *)
Definition gather_order_books `{Builtins} (cfg : Config) (world : World)
  (now : Z) (instruments : list (string * string)) (schedule : list nat)
  : option (result (list Row)) :=
  if max_concurrency cfg <? 0
  then Some (Raise (ValueError "Semaphore initial value must be >= 0"))
  else
    let slot_time := Scheduler.replace_second0_microsecond0 now in
    let st := run cfg world slot_time instruments schedule (init cfg instruments) in
    if gathered st then Some (Ok (map snd (rows st))) else None.

(** The workers one after the other, each to its end. *)
Definition sequential (cfg : Config) (n : nat) : list nat :=
  flat_map (fun i => repeat i (S (S (Z.to_nat (max_retries cfg))))) (seq 0 n).

End Snapshot.

(* ================================================================== *)
(** * The aggregator: [build_smiles] (deribit_rest_30m.py) *)
(* ================================================================== *)

Module Aggregator.
Import Frame.

(** [df.groupby(["underlying", "expiry_utc", "option_type", "strike"],
    dropna=False)] *)
Definition group_keys : list string :=
  ["underlying"; "expiry_utc"; "option_type"; "strike"].

(** The named aggregations of [gb.agg]: (output label, source column),
    each with "mean". *)
Definition aggregations : list (string * string) :=
  [("bid", "bid"); ("ask", "ask"); ("mid", "mid"); ("iv", "iv");
   ("delta", "delta"); ("gamma", "gamma"); ("vega", "vega");
   ("theta", "theta"); ("rho", "rho");
   ("S", "index_price"); ("F", "underlying_price")].

(** One turn of pandas' [group_mean] on a value that is not null: the
    running sum and its compensation (Kahan summation; a compensation
    that is NaN is reset). *)
Definition sum_step (acc : F64.float * F64.float) (val : F64.float)
  : F64.float * F64.float :=
  let '(sumx, compensation) := acc in
  let y := F64.sub val compensation in
  let t := F64.add sumx y in
  let c := F64.sub (F64.sub t sumx) y in
  (t, if F64.is_nan c then F64.of_Z 0 else c).

(** "mean": the sum of the values that are not null over their number;
    null when there is none. *)
Definition mean (values : list F64.float) : F64.float :=
  match filter (fun x => negb (F64.is_nan x)) values with
  | [] => F64.nan
  | vals =>
      F64.div (fst (fold_left sum_step vals (F64.of_Z 0, F64.of_Z 0)))
              (F64.of_Z (Z.of_nat (List.length vals)))
  end.

Definition group_key (r : Row) : list value := key group_keys r.

(** The first row of each key, in the order of the frame. *)
Definition first_of_each_key (rs : list Row) : list Row :=
  fold_left (fun reps r =>
               if existsb (fun rep => same_key (group_key rep) (group_key r)) reps
               then reps else reps ++ [r])
            rs [].

(** The rows of the group of [rep]. *)
Definition group_of (rep : Row) (rs : list Row) : list Row :=
  filter (fun r => same_key (group_key rep) (group_key r)) rs.

(** The mean of one source column over a group; an object column is
    refused. *)
Definition aggregate_column (group : list Row) (a : string * string)
  : result (string * value) :=
  xs <- mapM (fun r => as_float (cell (snd a) r)) group ;;
  Ok (fst a, VNum (mean xs)).

(** The output record of one group: its key, then the means. *)
Definition aggregate (rs : list Row) (rep : Row) : result Row :=
  cells <- mapM (aggregate_column (group_of rep rs)) aggregations ;;
  Ok (combine group_keys (group_key rep) ++ cells).

Definition build_smiles (df : DataFrame) : result DataFrame :=
  if empty df then Ok df
  else
    _ <- mapM (getitem df) group_keys ;;
    _ <- mapM (fun a => getitem df (snd a)) aggregations ;;
    reps <- sort_rows group_keys (first_of_each_key (rows df)) ;;
    agg <- mapM (aggregate (rows df)) reps ;;
    slot <- getitem df "slot_time_utc" ;;
    match slot with
    | [] => Raise IndexError
    | slot0 :: _ =>
        (* agg.insert(0, "slot_time_utc", df["slot_time_utc"].iloc[0]) *)
        Ok {| columns := "slot_time_utc" :: group_keys ++ map fst aggregations;
              rows := map (fun r => ("slot_time_utc", slot0) :: r) agg |}
    end.


End Aggregator.

(* ================================================================== *)
(** * The listing of a snapshot: [snapshot_once] (deribit_rest_30m.py) *)
(* ================================================================== *)

Module Listing.
Import Frame.

(** [l[:n]]: the first [n] items, or all but the last [-n] for a negative
    [n]. *)
Definition slice_to {A : Type} (n : Z) (l : list A) : list A :=
  if 0 <=? n then firstn (Z.to_nat n) l
  else firstn (List.length l - Z.to_nat (- n)) l.

(** The first loop of [snapshot_once]: for each currency the listing is
    fetched ([fetch cur] is the outcome of [fetch_instruments] for it, the
    records or an exception), an exception is logged and the listing
    taken as empty, and the names of its first [max_instruments] records
    are appended with the currency. *)
Definition snapshot_instruments
  (fetch : string -> result (list (list (string * value))))
  (currencies : list string) (max_instruments : Z)
  : result (list (string * value)) :=
  Normalize.foldM
    (fun instruments cur =>
       let res := match fetch cur with
                  | Ok res => res
                  | Raise _ => []   (* except Exception: res = [] *)
                  end in
       names <- mapM (fun r => Text.getitem r "instrument_name")
                     (slice_to max_instruments res) ;;
       Ok (instruments ++ map (fun name => (cur, name)) names))
    currencies [].

End Listing.

(* ================================================================== *)
(** * The limits of the quality control: cleaning.py *)
(* ================================================================== *)

(** [int(s)] on an arbitrary text: the int it spells, [None] when [int]
    raises [ValueError]. *)
Class IntText : Type := {
  int_text : string -> option Z
}.

Module Limits.
Import Frame Cleaning.

(** What the process sees of its host: [os.getenv(name)], and the text of
    the file at a path, [None] when [Path(path).exists()] is false. *)
Record Host : Type := {
  getenv : string -> option string;
  read_text : string -> option string
}.

Definition _ENV_MAP : list (string * string) :=
  [("spread_rel_max", "QC_SPREAD_REL_MAX");
   ("volume_min", "QC_VOLUME_MIN");
   ("iv_min", "QC_IV_MIN");
   ("iv_max", "QC_IV_MAX")].

(** [d[key] = v] on a dict: the value of a key the dict has is replaced
    in place, a new key is added last. *)
Fixpoint dict_set {A : Type} (d : list (string * A)) (key : string) (v : A)
  : list (string * A) :=
  match d with
  | [] => [(key, v)]
  | (k, x) :: d' =>
      if String.eqb k key then (k, v) :: d' else (k, x) :: dict_set d' key v
  end.

(** ** Lines of a text *)

(** The line boundaries of [str.splitlines()] among the code points below
    256. *)
Definition is_linebreak (c : ascii) : bool :=
  let n := Text.code c in
  (((10 <=? n) && (n <=? 13)) || ((28 <=? n) && (n <=? 30)) || (n =? 133))%nat.

(** [s.splitlines()]: a carriage return followed by a line feed is one
    boundary, and a text that ends with a boundary has no empty last
    line. *)
Fixpoint splitlines_chars (cur : list ascii) (l : list ascii) : list string :=
  match l with
  | [] => match cur with
          | [] => []
          | _ => [Text.text (rev cur)]
          end
  | c :: l' =>
      if is_linebreak c then
        Text.text (rev cur)
        :: match l' with
           | c' :: l'' =>
               if Text.is_char "013"%char c && Text.is_char "010"%char c'
               then splitlines_chars [] l''
               else splitlines_chars [] l'
           | [] => splitlines_chars [] l'
           end
      else splitlines_chars (c :: cur) l'
  end.

Definition splitlines (s : string) : list string :=
  splitlines_chars [] (Text.chars s).

(** [s.rstrip(c)] for one character [c] *)
Fixpoint lstrip_char (c : ascii) (l : list ascii) : list ascii :=
  match l with
  | x :: l' => if Ascii.eqb x c then lstrip_char c l' else l
  | [] => []
  end.

Definition rstrip_char (c : ascii) (s : string) : string :=
  Text.text (rev (lstrip_char c (rev (Text.chars s)))).

(** [s.startswith(c)] and [c in s] for one character [c] *)
Definition startswith (c : ascii) (s : string) : bool :=
  match Text.chars s with
  | x :: _ => Ascii.eqb x c
  | [] => false
  end.

Definition contains (c : ascii) (s : string) : bool :=
  existsb (Ascii.eqb c) (Text.chars s).

(** [s.split(c, 1)] for a text that contains [c]: what is before the
    first [c], and what is after it. *)
Fixpoint partition_chars (c : ascii) (before l : list ascii)
  : string * string :=
  match l with
  | [] => (Text.text (rev before), "")
  | x :: l' =>
      if Ascii.eqb x c then (Text.text (rev before), Text.text l')
      else partition_chars c (x :: before) l'
  end.

Definition split1 (c : ascii) (s : string) : string * string :=
  partition_chars c [] (Text.chars s).

(** ** The configuration file *)

(** The value of an entry: [int], then [float], then the text itself. *)
Definition parse_scalar `{Builtins} `{IntText} (v_str : string) : value :=
  if String.eqb v_str "" then VStr ""
  else
    let first :=
      if contains "."%char v_str || contains "e"%char v_str
         || contains "E"%char v_str   (* "e" in v_str.lower() *)
      then option_map VNum (float_text v_str)
      else option_map VInt (int_text v_str) in
    match first with
    | Some val => val
    | None =>
        (* except ValueError *)
        match float_text v_str with
        | Some x => VNum x
        | None => VStr v_str
        end
    end.

(** The state of the loop over the lines: the sections read so far, and
    the key of the active one ([current] is the dict stored under it). *)
Definition sections : Type := list (string * list (string * value)).

Definition load_line `{Builtins} `{IntText}
  (st : sections * option string) (raw : string) : sections * option string :=
  let '(data, current) := st in
  let line := rstrip_char "010"%char raw in
  let stripped := Text.strip line in
  if String.eqb stripped "" || startswith "#"%char stripped then st
  else if negb (startswith " "%char line) then
    if contains ":"%char line then
      let top_key := Text.strip (fst (split1 ":"%char line)) in
      (dict_set data top_key [], Some top_key)
    else (data, None)
  else
    match current with
    | Some top_key =>
        if contains ":"%char stripped then
          let '(k_part, v_part) := split1 ":"%char stripped in
          let k := Text.strip k_part in
          let v_str := Text.strip v_part in
          let sect := match Text.get data top_key with
                      | Some sect => sect
                      | None => []
                      end in
          (dict_set data top_key (dict_set sect k (parse_scalar v_str)), current)
        else st
    | None => st
    end.

(** [_load_yaml_dict(path)] on the text of the file. *)
Definition _load_yaml_dict `{Builtins} `{IntText} (text : string) : sections :=
  fst (fold_left load_line (splitlines text) ([], None)).

(** ** The limits *)

(** [float(v)], [None] when it raises: a text that is no number, an int
    too large for a float, or an object that is no number. *)
Definition float_of `{Builtins} (v : value) : option F64.float :=
  match v with
  | VNum x => Some x
  | VInt z => let x := F64.of_Z z in if F64.is_inf x then None else Some x
  | VBool b => Some (F64.of_Z (if b then 1 else 0))
  | VStr s => float_text s
  | VNone | VTime _ | VDict _ => None
  end.

(** [dataclasses.replace(base, **{field: x})]: [QCLimits] has the fields
    [iv_min] and [iv_max]; any other name is an unexpected argument of
    its constructor, a [TypeError]. *)
Definition replace (base : QCLimits) (field : string) (x : F64.float)
  : result QCLimits :=
  if String.eqb field "iv_min" then Ok {| iv_min := x; iv_max := iv_max base |}
  else if String.eqb field "iv_max" then Ok {| iv_min := iv_min base; iv_max := x |}
  else Raise TypeError.

(** One turn of the loop of [_limits_from_mapping]: whatever the [try]
    raises is passed over. *)
Definition limit_from_mapping `{Builtins} (m : list (string * value))
  (base : QCLimits) (field : string) : QCLimits :=
  match Text.get m field with
  | Some v =>
      if Snapshot.is_none v then base
      else
        match float_of v with
        | Some x => match replace base field x with
                    | Ok lim => lim
                    | Raise _ => base
                    end
        | None => base
        end
  | None => base
  end.

Definition _limits_from_mapping `{Builtins} (m : list (string * value))
  : QCLimits :=
  fold_left (limit_from_mapping m) (map fst _ENV_MAP) default_limits.

(** One turn of the loop of [_apply_env_overrides]. *)
Definition apply_env_override `{Builtins} (host : Host) (res : QCLimits)
  (item : string * string) : QCLimits :=
  let '(field, env_name) := item in
  match getenv host env_name with
  | Some val =>
      if String.eqb val "" then res
      else
        match float_text val with
        | Some x => match replace res field x with
                    | Ok lim => lim
                    | Raise _ => res
                    end
        | None => res
        end
  | None => res
  end.

Definition _apply_env_overrides `{Builtins} (host : Host) (lim : QCLimits)
  : QCLimits :=
  fold_left (apply_env_override host) _ENV_MAP lim.

(** The paths [get_qc_limits] tries, in order. *)
Definition candidates (host : Host) (config_path : option string)
  : list string :=
  (match config_path with
   | Some p => if String.eqb p "" then [] else [p]
   | None => []
   end)
  ++ (match getenv host "QC_CONFIG" with
      | Some p => if String.eqb p "" then [] else [p]
      | None => []
      end)
  ++ ["qc.yml"; "qc.yaml"].

Definition get_qc_limits `{Builtins} `{IntText} (host : Host)
  (config_path : option string) : QCLimits :=
  let lim :=
    match find (fun p => match read_text host p with
                         | Some _ => true
                         | None => false
                         end) (candidates host config_path) with
    | Some p =>
        match read_text host p with
        | Some text =>
            let d := _load_yaml_dict text in
            _limits_from_mapping (match Text.get d "qc" with
                                  | Some m => m
                                  | None => []
                                  end)
        | None => default_limits
        end
    | None => default_limits
    end in
  _apply_env_overrides host lim.

End Limits.

(* ================================================================== *)
(** * The cleaning of a snapshot: [clean_snapshot] (cleaning.py) *)
(* ================================================================== *)

Module Pipeline.
Import Frame.


End Pipeline.

(* ================================================================== *)
(** * Theorems *)
(* ================================================================== *)

Section SchedulerFacts.
Import Scheduler.





End SchedulerFacts.






(** Outside the valid intervals the grid is lost: with a 45 minute interval
    the slot after 10:50 is 11:30, and 30 is not a multiple of 45. *)
Example align_next_slot_45_minutes :
  Scheduler.align_next_slot (Scheduler.timedelta_minutes (10 * 60 + 50)) 45
  = Ok (Scheduler.timedelta_minutes (11 * 60 + 30)).
Proof. reflexivity. Qed.

(* ------------------------------------------------------------------ *)
(** ** Instrument names *)
(* ------------------------------------------------------------------ *)

(** The option of the documentation: kind, underlying, expiry date, call
    and the strike 65000.0. *)
Example parse_instrument_name_option :
  Instrument.parse_instrument_name "BTC-27OCT25-65000-C"
  = Ok {| Instrument.kind := "option"; Instrument.underlying := "BTC";
          Instrument.maturity := "2025-10-27";
          Instrument.option_type := Some "C";
          Instrument.strike := Some (F64.of_Z 65000) |}.
Proof. vm_compute. reflexivity. Qed.

Example parse_instrument_name_future :
  Instrument.parse_instrument_name "BTC-27OCT25"
  = Ok {| Instrument.kind := "future"; Instrument.underlying := "BTC";
          Instrument.maturity := "2025-10-27";
          Instrument.option_type := None; Instrument.strike := None |}.
Proof. vm_compute. reflexivity. Qed.

(** A name that matches neither pattern is the unknown instrument, all
    other fields empty. *)
Lemma parse_instrument_name_unmatched (name : string) :
  Regex.re_match Instrument._DERIBIT_OPT name = None ->
  Regex.re_match Instrument._DERIBIT_FUT name = None ->
  Instrument.parse_instrument_name name = Ok Instrument.unknown_instrument.
Proof.
  intros Hopt Hfut. unfold Instrument.parse_instrument_name.
  now rewrite Hopt, Hfut.
Qed.

Example parse_instrument_name_garbage :
  Instrument.parse_instrument_name "garbage" = Ok Instrument.unknown_instrument.
Proof. apply parse_instrument_name_unmatched; vm_compute; reflexivity. Qed.

(** C3. [parse_instrument_name] is not total: a name in the shape of an
    option whose three letters are no month is looked up in [_MON_MAP]
    with [d[...]] and raises [KeyError]; so does the same name in the shape
    of a future, and a strike with two dots makes [float] raise
    [ValueError]. The documented option is parsed as stated. *)
Theorem parse_instrument_name_raises :
  Instrument.parse_instrument_name "BTC-27XXX25-65000-C" = Raise (KeyError "XXX")
  /\ Instrument.parse_instrument_name "BTC-27XXX25" = Raise (KeyError "XXX")
  /\ Instrument.parse_instrument_name "BTC-27OCT25-1.2.3-C"
     = Raise (ValueError "could not convert string to float")
  /\ Py.is_ok (Instrument.parse_instrument_name "BTC-27OCT25-65000-C") = true.
Proof. repeat split; vm_compute; reflexivity. Qed.

(* ------------------------------------------------------------------ *)
(** ** Frames *)
(* ------------------------------------------------------------------ *)

Section FrameFacts.
Import Frame.

Lemma mapM_map {A B : Type} (f : A -> result B) (g : A -> B) (l : list A) :
  (forall x, In x l -> f x = Ok (g x)) ->
  Py.mapM f l = Ok (map g l).
Proof.
  induction l as [|x l IH]; intros Hf; cbn; [reflexivity|].
  rewrite (Hf x (or_introl eq_refl)). cbn.
  rewrite IH by (intros y Hy; apply Hf; now right). reflexivity.
Qed.

Lemma map2_map {A : Type} (f : value -> value -> result A)
  (g h : Row -> value) (k : Row -> A) (rs : list Row) :
  (forall r, In r rs -> f (g r) (h r) = Ok (k r)) ->
  map2 f (map g rs) (map h rs) = Ok (map k rs).
Proof.
  induction rs as [|r rs IH]; intros Hf; cbn; [reflexivity|].
  rewrite (Hf r (or_introl eq_refl)). cbn.
  rewrite IH by (intros y Hy; apply Hf; now right). reflexivity.
Qed.

Lemma set_cells_map (c : string) (h : Row -> value) (rs : list Row) :
  set_cells c (map h rs) rs = Ok (map (fun r => set_cell c (h r) r) rs).
Proof.
  induction rs as [|r rs IH]; cbn; [reflexivity|]. now rewrite IH.
Qed.

Lemma setitem_map (df : DataFrame) (c : string) (h : Row -> value) :
  setitem df c (map h (rows df))
  = Ok {| columns := if has_column df c then columns df else columns df ++ [c];
          rows := map (fun r => set_cell c (h r) r) (rows df) |}.
Proof. unfold setitem. now rewrite set_cells_map. Qed.

Lemma getitem_present (df : DataFrame) (c : string) :
  has_column df c = true -> getitem df c = Ok (map (cell c) (rows df)).
Proof. intros H. unfold getitem. now rewrite H. Qed.

Lemma get_set_cell_same (c : string) (v : value) (r : Row) :
  Text.get (set_cell c v r) c = Some v.
Proof.
  induction r as [|[k x] r IH]; cbn.
  - now rewrite String.eqb_refl.
  - destruct (String.eqb k c) eqn:E; cbn; rewrite E; [reflexivity|exact IH].
Qed.

Lemma get_set_cell_other (c c' : string) (v : value) (r : Row) :
  c <> c' -> Text.get (set_cell c v r) c' = Text.get r c'.
Proof.
  intros Hne. induction r as [|[k x] r IH]; cbn.
  - destruct (String.eqb_spec c c'); [contradiction|reflexivity].
  - destruct (String.eqb_spec k c) as [->|Hk]; cbn.
    + destruct (String.eqb_spec c c'); [contradiction|reflexivity].
    + destruct (String.eqb k c'); [reflexivity|exact IH].
Qed.

Lemma cell_set_cell_same (c : string) (v : value) (r : Row) :
  cell c (set_cell c v r) = v.
Proof. unfold cell. now rewrite get_set_cell_same. Qed.

Lemma cell_set_cell_other (c c' : string) (v : value) (r : Row) :
  c <> c' -> cell c' (set_cell c v r) = cell c' r.
Proof. intros H. unfold cell. now rewrite get_set_cell_other. Qed.

Lemma mask_and_map (p q : Row -> bool) (rs : list Row) :
  mask_and (map p rs) (map q rs) = map (fun r => p r && q r) rs.
Proof. induction rs as [|r rs IH]; cbn; [reflexivity|now rewrite IH]. Qed.

Lemma select_map (p : Row -> bool) (rs : list Row) :
  select (map p rs) rs = filter p rs.
Proof.
  induction rs as [|r rs IH]; cbn; [reflexivity|].
  destruct (p r); now rewrite IH.
Qed.

Lemma is_float64_has (df : DataFrame) (c : string) :
  is_float64 df c = true -> has_column df c = true.
Proof. unfold is_float64. intros H. now apply andb_true_iff in H. Qed.

Lemma is_float64_cell (df : DataFrame) (c : string) (r : Row) :
  is_float64 df c = true -> In r (rows df) -> cell c r = VNum (num c r).
Proof.
  unfold is_float64. intros H Hr. apply andb_true_iff in H as [_ H].
  rewrite forallb_forall in H. specialize (H r Hr).
  unfold num. destruct (cell c r); try discriminate. reflexivity.
Qed.

End FrameFacts.

(* ------------------------------------------------------------------ *)
(** ** The order of floats *)
(* ------------------------------------------------------------------ *)

Lemma SFcompare_antisym (a b : spec_float) (c : comparison) :
  SFcompare a b = Some c -> SFcompare b a = Some (CompOpp c).
Proof.
  destruct a as [sa|sa| |sa ma ea], b as [sb|sb| |sb mb eb]; cbn;
    try discriminate;
    try (intros E; injection E as <-;
         repeat match goal with s : bool |- _ => destruct s end; reflexivity).
  intros E; injection E as <-. f_equal.
  pose proof (Pos.compare_cont_antisym ma mb Eq) as P. cbn in P.
  destruct sa, sb; cbn; try reflexivity;
    rewrite (Z.compare_antisym ea eb);
    destruct (ea ?= eb); cbn; try reflexivity;
    rewrite <- P; now rewrite ?CompOpp_involutive.
Qed.

(** [a < b] excludes [a >= b]. *)
Lemma ltb_not_geb (a b : F64.float) :
  F64.ltb a b = true -> F64.geb a b = false.
Proof.
  unfold F64.ltb, F64.geb, SFltb, SFleb.
  destruct (SFcompare a b) as [[| |]|] eqn:E; try discriminate.
  intros _. now rewrite (SFcompare_antisym _ _ _ E).
Qed.

(** [a <= b] excludes [a > b]. *)
Lemma leb_not_gtb (a b : F64.float) :
  F64.leb a b = true -> F64.gtb a b = false.
Proof.
  unfold F64.leb, F64.gtb, SFltb, SFleb.
  destruct (SFcompare a b) as [[| |]|] eqn:E; try discriminate;
    intros _; now rewrite (SFcompare_antisym _ _ _ E).
Qed.

(** A comparison with NaN is false. *)
Lemma geb_nan_l (b : F64.float) : F64.geb F64.nan b = false.
Proof. unfold F64.geb, SFleb. now destruct b. Qed.

Lemma leb_nan_l (b : F64.float) : F64.leb F64.nan b = false.
Proof. reflexivity. Qed.

(* ------------------------------------------------------------------ *)
(** ** Quality control *)
(* ------------------------------------------------------------------ *)

Section CleaningFacts.
Import Frame Cleaning.

Lemma mapM_map_rows {A : Type} (f : value -> result A) (g : Row -> value)
  (k : Row -> A) (rs : list Row) :
  (forall r, In r rs -> f (g r) = Ok (k r)) ->
  Py.mapM f (map g rs) = Ok (map k rs).
Proof.
  induction rs as [|r rs IH]; intros Hf; cbn; [reflexivity|].
  rewrite (Hf r (or_introl eq_refl)). cbn.
  rewrite IH by (intros y Hy; apply Hf; now right). reflexivity.
Qed.

(** C4. On a frame whose [iv] column is float64, [flag_iv_outliers] sets
    the flag of every row to NOT (iv_min <= iv <= iv_max), both bounds
    included, and leaves [iv] as it is; a row whose [iv] is null (NaN) is
    flagged true. *)
Theorem flag_iv_outliers_flags (df : DataFrame) (limits : QCLimits) :
  is_float64 df "iv" = true ->
  exists out,
    flag_iv_outliers df limits = Ok out
    /\ rows out
       = map (fun r =>
                set_cell "iv_flag_outlier"
                  (VBool (negb (F64.leb (iv_min limits) (num "iv" r)
                                && F64.leb (num "iv" r) (iv_max limits)))) r)
             (rows df)
    /\ forall r', In r' (rows out) ->
         cell "iv_flag_outlier" r'
         = VBool (negb (F64.leb (iv_min limits) (num "iv" r')
                        && F64.leb (num "iv" r') (iv_max limits)))
         /\ (isna (cell "iv" r') = true ->
             cell "iv_flag_outlier" r' = VBool true).
Proof.
  intros Hiv.
  pose proof (is_float64_has _ _ Hiv) as Hcol.
  unfold flag_iv_outliers. rewrite Hcol, (getitem_present _ _ Hcol).
  cbn [Py.bind]. unfold between, ge_scalar, le_scalar.
  rewrite (mapM_map_rows _ (cell "iv")
             (fun r => F64.geb (num "iv" r) (iv_min limits))).
  2:{ intros r Hr. now rewrite (is_float64_cell _ _ _ Hiv Hr). }
  cbn [Py.bind].
  rewrite (mapM_map_rows _ (cell "iv")
             (fun r => F64.leb (num "iv" r) (iv_max limits))).
  2:{ intros r Hr. now rewrite (is_float64_cell _ _ _ Hiv Hr). }
  cbn [Py.bind]. rewrite mask_and_map. unfold mask_not.
  rewrite !map_map, setitem_map.
  eexists. split; [reflexivity|]. cbn [rows]. split; [reflexivity|].
  intros r' Hr'. apply in_map_iff in Hr' as (r & <- & Hr).
  assert (Hnum : num "iv" (set_cell "iv_flag_outlier"
                   (VBool (negb (F64.geb (num "iv" r) (iv_min limits)
                                 && F64.leb (num "iv" r) (iv_max limits)))) r)
                 = num "iv" r).
  { unfold num. now rewrite cell_set_cell_other by discriminate. }
  rewrite cell_set_cell_same, Hnum. split; [reflexivity|].
  rewrite cell_set_cell_other by discriminate.
  rewrite (is_float64_cell _ _ _ Hiv Hr). cbn [isna].
  destruct (num "iv" r); cbn; try discriminate.
  intros _. now rewrite andb_false_r.
Qed.

(** The three readings of the specification under the default limits
    [iv_min = 0.01] and [iv_max = 5.0]: 0.005 is flagged, 1.0 is not, a
    null reading is flagged. *)
Lemma flag_iv_outliers_flags_witness :
  let df := {| columns := ["iv"];
               rows := [[("iv", VNum (F64.of_ratio 5 1000))];
                        [("iv", VNum (F64.of_Z 1))];
                        [("iv", VNum F64.nan)]] |} in
  is_float64 df "iv" = true
  /\ exists out,
       flag_iv_outliers df default_limits = Ok out
       /\ map (cell "iv_flag_outlier") (rows out)
          = [VBool true; VBool false; VBool true].
Proof.
  cbv zeta. split; [reflexivity|].
  destruct (flag_iv_outliers_flags
              {| columns := ["iv"];
                 rows := [[("iv", VNum (F64.of_ratio 5 1000))];
                          [("iv", VNum (F64.of_Z 1))];
                          [("iv", VNum F64.nan)]] |}
              default_limits eq_refl) as (out & E & Hrows & _).
  exists out. split; [exact E|]. rewrite Hrows. reflexivity.
Defined.

(** C5. On a frame whose [bid] and [ask] columns are float64,
    [enforce_bid_ask_rules] returns exactly the rows with [bid >= 0],
    [ask > 0] and [ask >= bid], unchanged and in their order: a row with
    [ask < bid], [bid < 0] or [ask <= 0] is absent, a row meeting the three
    conditions is kept. *)
Theorem enforce_bid_ask_rules_filters (df : DataFrame) :
  is_float64 df "bid" = true ->
  is_float64 df "ask" = true ->
  let keep r := F64.geb (num "bid" r) (F64.of_Z 0)
                && F64.gtb (num "ask" r) (F64.of_Z 0)
                && F64.geb (num "ask" r) (num "bid" r) in
  exists out,
    enforce_bid_ask_rules df = Ok out
    /\ columns out = columns df
    /\ rows out = filter keep (rows df)
    /\ (forall r, In r (rows out) <-> In r (rows df) /\ keep r = true)
    /\ (forall r,
          F64.ltb (num "ask" r) (num "bid" r) = true
          \/ F64.ltb (num "bid" r) (F64.of_Z 0) = true
          \/ F64.leb (num "ask" r) (F64.of_Z 0) = true ->
          ~ In r (rows out)).
Proof.
  intros Hbid Hask keep.
  pose proof (is_float64_has _ _ Hbid) as Hb.
  pose proof (is_float64_has _ _ Hask) as Ha.
  unfold enforce_bid_ask_rules, issubset. cbn [forallb].
  rewrite Hb, Ha. cbn [andb].
  rewrite (getitem_present _ _ Hb), (getitem_present _ _ Ha).
  cbn [Py.bind]. unfold ge_scalar, gt_scalar, ge.
  rewrite (mapM_map_rows _ (cell "bid")
             (fun r => F64.geb (num "bid" r) (F64.of_Z 0))).
  2:{ intros r Hr. now rewrite (is_float64_cell _ _ _ Hbid Hr). }
  cbn [Py.bind].
  rewrite (mapM_map_rows _ (cell "ask")
             (fun r => F64.gtb (num "ask" r) (F64.of_Z 0))).
  2:{ intros r Hr. now rewrite (is_float64_cell _ _ _ Hask Hr). }
  cbn [Py.bind].
  rewrite (map2_map _ (cell "ask") (cell "bid")
             (fun r => F64.geb (num "ask" r) (num "bid" r))).
  2:{ intros r Hr. now rewrite (is_float64_cell _ _ _ Hask Hr),
                              (is_float64_cell _ _ _ Hbid Hr). }
  cbn [Py.bind]. rewrite !mask_and_map.
  unfold getitem_mask. rewrite select_map.
  eexists. split; [reflexivity|]. cbn [columns rows].
  split; [reflexivity|]. split; [reflexivity|]. split.
  - intros r. apply filter_In.
  - intros r Hbad Hin. apply filter_In in Hin as [_ Hkeep].
    unfold keep in Hkeep.
    apply andb_true_iff in Hkeep as [Hkeep H3].
    apply andb_true_iff in Hkeep as [H1 H2].
    destruct Hbad as [B|[B|B]].
    + apply ltb_not_geb in B. congruence.
    + apply ltb_not_geb in B. congruence.
    + apply leb_not_gtb in B. congruence.
Qed.

(** The rows of the specification: [ask < bid] and [bid = -1] are dropped,
    a regular quote is kept. *)
Lemma enforce_bid_ask_rules_filters_witness :
  let good := [("bid", VNum (F64.of_Z 10)); ("ask", VNum (F64.of_Z 12))] in
  let crossed := [("bid", VNum (F64.of_Z 12)); ("ask", VNum (F64.of_Z 10))] in
  let negative := [("bid", VNum (F64.of_Z (-1))); ("ask", VNum (F64.of_Z 12))] in
  let df := {| columns := ["bid"; "ask"]; rows := [crossed; good; negative] |} in
  is_float64 df "bid" = true /\ is_float64 df "ask" = true
  /\ exists out, enforce_bid_ask_rules df = Ok out /\ rows out = [good].
Proof.
  cbv zeta. split; [reflexivity|]. split; [reflexivity|].
  destruct (enforce_bid_ask_rules_filters
              {| columns := ["bid"; "ask"];
                 rows := [[("bid", VNum (F64.of_Z 12)); ("ask", VNum (F64.of_Z 10))];
                          [("bid", VNum (F64.of_Z 10)); ("ask", VNum (F64.of_Z 12))];
                          [("bid", VNum (F64.of_Z (-1))); ("ask", VNum (F64.of_Z 12))]] |}
              eq_refl eq_refl) as (out & E & _ & Hrows & _).
  exists out. split; [exact E|]. rewrite Hrows. reflexivity.
Defined.

(** Division by a null or by a zero value. *)
Lemma div_nan_r (x : F64.float) : F64.div x F64.nan = F64.nan.
Proof. now destruct x. Qed.

Lemma div_nan_l (y : F64.float) : F64.div F64.nan y = F64.nan.
Proof. reflexivity. Qed.

Lemma div_zero_r (x y : F64.float) :
  F64.is_zero y = true ->
  F64.is_nan (F64.div x y) = F64.is_nan x || F64.is_zero x
  /\ (F64.is_nan (F64.div x y) = false -> F64.is_inf (F64.div x y) = true).
Proof. destruct y; try discriminate. intros _. now destruct x. Qed.

(** C7 (amended). On a frame whose [bid], [ask] and [mid] columns are
    float64, [compute_mid_and_spread] does not raise and sets the relative
    spread of every row to [(ask - bid) / mid] in float arithmetic. The
    result is null whenever [mid] is null. When [mid] is zero the result is
    null only if [ask - bid] is zero or null; otherwise it is an infinity,
    which is not null. *)
Theorem compute_mid_and_spread_relative_spread (df : DataFrame) :
  is_float64 df "bid" = true ->
  is_float64 df "ask" = true ->
  is_float64 df "mid" = true ->
  let spread r :=
    F64.div (F64.sub (num "ask" r) (num "bid" r)) (num "mid" r) in
  exists out,
    compute_mid_and_spread df = Ok out
    /\ rows out
       = map (fun r => set_cell "spread_rel" (VNum (spread r)) r) (rows df)
    /\ forall r', In r' (rows out) ->
         cell "spread_rel" r' = VNum (spread r')
         /\ (isna (cell "mid" r') = true ->
             isna (cell "spread_rel" r') = true)
         /\ (F64.is_zero (num "mid" r') = true ->
             isna (cell "spread_rel" r')
             = F64.is_nan (F64.sub (num "ask" r') (num "bid" r'))
               || F64.is_zero (F64.sub (num "ask" r') (num "bid" r'))
             /\ (isna (cell "spread_rel" r') = false ->
                 F64.is_inf (spread r') = true)).
Proof.
  intros Hbid Hask Hmid spread.
  pose proof (is_float64_has _ _ Hbid) as Hb.
  pose proof (is_float64_has _ _ Hask) as Ha.
  pose proof (is_float64_has _ _ Hmid) as Hm.
  unfold compute_mid_and_spread, issubset. cbn [forallb].
  rewrite Hb, Ha. cbn [andb].
  rewrite (getitem_present _ _ Hb), (getitem_present _ _ Ha),
    (getitem_present _ _ Hm).
  cbn [Py.bind]. unfold sub.
  rewrite (map2_map _ (cell "ask") (cell "bid")
             (fun r => VNum (F64.sub (num "ask" r) (num "bid" r)))).
  2:{ intros r Hr. now rewrite (is_float64_cell _ _ _ Hask Hr),
                              (is_float64_cell _ _ _ Hbid Hr). }
  cbn [Py.bind]. unfold div.
  rewrite (map2_map _ (fun r => VNum (F64.sub (num "ask" r) (num "bid" r)))
             (cell "mid") (fun r => VNum (spread r))).
  2:{ intros r Hr. now rewrite (is_float64_cell _ _ _ Hmid Hr). }
  cbn [Py.bind]. rewrite setitem_map.
  eexists. split; [reflexivity|]. cbn [rows]. split; [reflexivity|].
  intros r' Hr'. apply in_map_iff in Hr' as (r & <- & Hr).
  assert (Hsame : forall c, c <> "spread_rel" ->
            num c (set_cell "spread_rel" (VNum (spread r)) r) = num c r).
  { intros c Hc. unfold num. rewrite cell_set_cell_other; [reflexivity|].
    intros E. now apply Hc. }
  assert (Hspread : spread (set_cell "spread_rel" (VNum (spread r)) r)
                    = spread r).
  { unfold spread. now rewrite !Hsame by discriminate. }
  rewrite cell_set_cell_same, Hspread, !Hsame by discriminate.
  rewrite cell_set_cell_other by discriminate.
  rewrite (is_float64_cell _ _ _ Hmid Hr). cbn [isna].
  split; [reflexivity|]. split.
  - unfold spread. destruct (num "mid" r); try discriminate.
    intros _. apply (f_equal F64.is_nan (div_nan_r _)).
  - intros Hz. unfold spread. now apply div_zero_r.
Qed.

Lemma compute_mid_and_spread_relative_spread_witness :
  let df := {| columns := ["bid"; "ask"; "mid"];
               rows := [[("bid", VNum (F64.of_Z 10)); ("ask", VNum (F64.of_Z 12));
                         ("mid", VNum (F64.of_Z 11))];
                        [("bid", VNum (F64.of_Z 10)); ("ask", VNum (F64.of_Z 12));
                         ("mid", VNum F64.nan)]] |} in
  is_float64 df "bid" = true /\ is_float64 df "ask" = true
  /\ is_float64 df "mid" = true
  /\ exists out,
       compute_mid_and_spread df = Ok out
       /\ map (cell "spread_rel") (rows out)
          = [VNum (F64.div (F64.of_Z 2) (F64.of_Z 11)); VNum F64.nan].
Proof.
  cbv zeta. repeat (split; [reflexivity|]).
  destruct (compute_mid_and_spread_relative_spread
              {| columns := ["bid"; "ask"; "mid"];
                 rows := [[("bid", VNum (F64.of_Z 10)); ("ask", VNum (F64.of_Z 12));
                           ("mid", VNum (F64.of_Z 11))];
                          [("bid", VNum (F64.of_Z 10)); ("ask", VNum (F64.of_Z 12));
                           ("mid", VNum F64.nan)]] |}
              eq_refl eq_refl eq_refl) as (out & E & Hrows & _).
  exists out. split; [exact E|]. rewrite Hrows. reflexivity.
Defined.

(** The property as first stated fails at [mid = 0]: for [bid = 1], [ask = 2] and
    [mid = 0] the relative spread is [+inf], which is not null. *)
Lemma compute_mid_and_spread_zero_mid_counterexample :
  compute_mid_and_spread
    {| columns := ["bid"; "ask"; "mid"];
       rows := [[("bid", VNum (F64.of_Z 1)); ("ask", VNum (F64.of_Z 2));
                 ("mid", VNum (F64.of_Z 0))]] |}
  = Ok {| columns := ["bid"; "ask"; "mid"; "spread_rel"];
          rows := [[("bid", VNum (F64.of_Z 1)); ("ask", VNum (F64.of_Z 2));
                    ("mid", VNum (F64.of_Z 0));
                    ("spread_rel", VNum F64.pos_inf)]] |}
  /\ isna (VNum F64.pos_inf) = false.
Proof. split; reflexivity. Qed.

End CleaningFacts.

Section MoneynessFacts.
Import Frame Cleaning.
Context {L : Libm}.

(** [np.log] of a null, of a negative value, of a zero and of [+inf]. *)
Lemma log_nan : Numpy.log F64.nan = F64.nan.
Proof. reflexivity. Qed.

Lemma log_negative (x : F64.float) :
  F64.ltb x (F64.of_Z 0) = true -> Numpy.log x = F64.nan.
Proof. destruct x as [s|[|]| |[|] m e]; cbn; try discriminate; reflexivity. Qed.

Lemma log_zero (x : F64.float) :
  F64.is_zero x = true -> Numpy.log x = F64.neg_inf.
Proof. destruct x; try discriminate. reflexivity. Qed.

(** C8 (amended). On a frame that has the [strike], [index_price] and
    [underlying_price] columns, [strike] and [underlying_price] float64,
    [add_moneyness] does not raise and sets the moneyness of every row to
    [log(strike / underlying_price)] in float arithmetic. The result is
    null whenever the strike or the price is null, and whenever their
    quotient is null or negative. A non-positive operand alone does not
    make it null: when the quotient is a zero (a zero strike over a
    non-zero price) the result is [-inf], and when the quotient is [+inf]
    (a positive strike over a zero price) the result is [+inf]. *)
Theorem add_moneyness_log_ratio (df : DataFrame) :
  has_column df "index_price" = true ->
  is_float64 df "strike" = true ->
  is_float64 df "underlying_price" = true ->
  let ratio r := F64.div (num "strike" r) (num "underlying_price" r) in
  exists out,
    add_moneyness df = Ok out
    /\ rows out
       = map (fun r => set_cell "moneyness" (VNum (Numpy.log (ratio r))) r)
             (rows df)
    /\ forall r', In r' (rows out) ->
         cell "moneyness" r' = VNum (Numpy.log (ratio r'))
         /\ (isna (cell "strike" r') = true
             \/ isna (cell "underlying_price" r') = true ->
             isna (cell "moneyness" r') = true)
         /\ (F64.is_nan (ratio r') = true
             \/ F64.ltb (ratio r') (F64.of_Z 0) = true ->
             isna (cell "moneyness" r') = true)
         /\ (F64.is_zero (ratio r') = true ->
             cell "moneyness" r' = VNum F64.neg_inf)
         /\ (F64.is_zero (num "strike" r') = true ->
             F64.is_zero (num "underlying_price" r') = false ->
             F64.is_nan (num "underlying_price" r') = false ->
             cell "moneyness" r' = VNum F64.neg_inf)
         /\ (ratio r' = F64.pos_inf ->
             cell "moneyness" r' = VNum F64.pos_inf).
Proof.
  intros Hidx Hstrike Hprice ratio.
  pose proof (is_float64_has _ _ Hstrike) as Hs.
  pose proof (is_float64_has _ _ Hprice) as Hp.
  unfold add_moneyness, issubset. cbn [forallb].
  rewrite Hs, Hidx. cbn [andb].
  rewrite (getitem_present _ _ Hs), (getitem_present _ _ Hp).
  cbn [Py.bind]. unfold div.
  rewrite (map2_map _ (cell "strike") (cell "underlying_price")
             (fun r => VNum (ratio r))).
  2:{ intros r Hr. now rewrite (is_float64_cell _ _ _ Hstrike Hr),
                              (is_float64_cell _ _ _ Hprice Hr). }
  cbn [Py.bind]. unfold Numpy.log_series.
  rewrite (mapM_map_rows _ (fun r => VNum (ratio r))
             (fun r => VNum (Numpy.log (ratio r)))).
  2:{ intros r Hr. reflexivity. }
  cbn [Py.bind]. rewrite setitem_map.
  eexists. split; [reflexivity|]. cbn [rows]. split; [reflexivity|].
  intros r' Hr'. apply in_map_iff in Hr' as (r & <- & Hr).
  assert (Hsame : forall c, c <> "moneyness" ->
            num c (set_cell "moneyness" (VNum (Numpy.log (ratio r))) r)
            = num c r).
  { intros c Hc. unfold num. rewrite cell_set_cell_other; [reflexivity|].
    intros E. now apply Hc. }
  assert (Hratio : ratio (set_cell "moneyness" (VNum (Numpy.log (ratio r))) r)
                   = ratio r).
  { unfold ratio. now rewrite !Hsame by discriminate. }
  rewrite cell_set_cell_same, Hratio, !Hsame by discriminate.
  rewrite !cell_set_cell_other by discriminate.
  rewrite (is_float64_cell _ _ _ Hstrike Hr), (is_float64_cell _ _ _ Hprice Hr).
  cbn [isna]. unfold ratio.
  split; [reflexivity|]. split; [|split; [|split; [|split]]].
  - intros [H|H].
    + destruct (num "strike" r); try discriminate. reflexivity.
    + destruct (num "underlying_price" r); try discriminate.
      now rewrite div_nan_r.
  - intros [H|H].
    + destruct (F64.div _ _); try discriminate. reflexivity.
    + now rewrite (log_negative _ H).
  - intros H. now rewrite (log_zero _ H).
  - intros Hz Hnz Hnn. rewrite log_zero; [reflexivity|].
    destruct (num "strike" r); try discriminate.
    destruct (num "underlying_price" r); try discriminate; reflexivity.
  - intros ->. reflexivity.
Qed.

End MoneynessFacts.

(** A library used to run the definitions on concrete frames: it answers
    [0.0], the logarithm of [1.0]. *)
Lemma add_moneyness_log_ratio_witness :
  let lib := {| log_finite := fun _ _ => S754_zero false |} in
  let df := {| Frame.columns := ["strike"; "index_price"; "underlying_price"];
               Frame.rows :=
                 [[("strike", Frame.VNum (F64.of_Z 65000));
                   ("index_price", Frame.VNum (F64.of_Z 65000));
                   ("underlying_price", Frame.VNum (F64.of_Z 65000))];
                  [("strike", Frame.VNum F64.nan);
                   ("index_price", Frame.VNum (F64.of_Z 65000));
                   ("underlying_price", Frame.VNum (F64.of_Z 65000))];
                  [("strike", Frame.VNum (F64.of_Z 65000));
                   ("index_price", Frame.VNum (F64.of_Z 65000));
                   ("underlying_price", Frame.VNum (F64.of_Z (-65000)))]] |} in
  Frame.has_column df "index_price" = true
  /\ Frame.is_float64 df "strike" = true
  /\ Frame.is_float64 df "underlying_price" = true
  /\ exists out,
       @Cleaning.add_moneyness lib df = Ok out
       /\ map (Frame.cell "moneyness") (Frame.rows out)
          = [Frame.VNum (S754_zero false); Frame.VNum F64.nan;
             Frame.VNum F64.nan].
Proof.
  cbv zeta. repeat (split; [reflexivity|]).
  destruct (@add_moneyness_log_ratio
              {| log_finite := fun _ _ => S754_zero false |}
              {| Frame.columns := ["strike"; "index_price"; "underlying_price"];
                 Frame.rows :=
                   [[("strike", Frame.VNum (F64.of_Z 65000));
                     ("index_price", Frame.VNum (F64.of_Z 65000));
                     ("underlying_price", Frame.VNum (F64.of_Z 65000))];
                    [("strike", Frame.VNum F64.nan);
                     ("index_price", Frame.VNum (F64.of_Z 65000));
                     ("underlying_price", Frame.VNum (F64.of_Z 65000))];
                    [("strike", Frame.VNum (F64.of_Z 65000));
                     ("index_price", Frame.VNum (F64.of_Z 65000));
                     ("underlying_price", Frame.VNum (F64.of_Z (-65000)))]] |}
              eq_refl eq_refl eq_refl) as (out & E & Hrows & _).
  exists out. split; [exact E|]. rewrite Hrows. reflexivity.
Defined.

(** The property as first stated fails at a non-positive operand: whatever the
    library, a zero strike over the price 1.0 gives [-inf], and the strike
    1.0 over a zero price gives [+inf]; neither is null. *)
Lemma add_moneyness_non_positive_counterexample :
  (forall L : Libm,
     @Cleaning.add_moneyness L
       {| Frame.columns := ["strike"; "index_price"; "underlying_price"];
          Frame.rows :=
            [[("strike", Frame.VNum (F64.of_Z 0));
              ("index_price", Frame.VNum (F64.of_Z 1));
              ("underlying_price", Frame.VNum (F64.of_Z 1))];
             [("strike", Frame.VNum (F64.of_Z 1));
              ("index_price", Frame.VNum (F64.of_Z 0));
              ("underlying_price", Frame.VNum (F64.of_Z 0))]] |}
     = Ok {| Frame.columns :=
               ["strike"; "index_price"; "underlying_price"; "moneyness"];
             Frame.rows :=
               [[("strike", Frame.VNum (F64.of_Z 0));
                 ("index_price", Frame.VNum (F64.of_Z 1));
                 ("underlying_price", Frame.VNum (F64.of_Z 1));
                 ("moneyness", Frame.VNum F64.neg_inf)];
                [("strike", Frame.VNum (F64.of_Z 1));
                 ("index_price", Frame.VNum (F64.of_Z 0));
                 ("underlying_price", Frame.VNum (F64.of_Z 0));
                 ("moneyness", Frame.VNum F64.pos_inf)]] |})
  /\ Frame.isna (Frame.VNum F64.neg_inf) = false
  /\ Frame.isna (Frame.VNum F64.pos_inf) = false.
Proof. split; [intros L; reflexivity|split; reflexivity]. Qed.

(** The guard of [add_moneyness] tests [index_price] and the body
    reads [underlying_price]: a frame with the first and without the
    second raises [KeyError]. *)
Example add_moneyness_missing_underlying_price (L : Libm) :
  @Cleaning.add_moneyness L
    {| Frame.columns := ["strike"; "index_price"];
       Frame.rows := [[("strike", Frame.VNum (F64.of_Z 1));
                       ("index_price", Frame.VNum (F64.of_Z 1))]] |}
  = Raise (KeyError "underlying_price").
Proof. reflexivity. Qed.

Section CanonicalFacts.
Import Frame Cleaning.

Lemma forallb_false {A : Type} (f : A -> bool) (l : list A) :
  forallb f l = false -> exists x, In x l /\ f x = false.
Proof.
  induction l as [|x l IH]; cbn; [discriminate|].
  destruct (f x) eqn:E; cbn.
  - intros H. destruct (IH H) as (y & Hy & Ey). exists y. split; [now right|exact Ey].
  - intros _. exists x. split; [now left|exact E].
Qed.

Lemma set_cells_map2 (c : string) (h : Row -> value) (g : Row -> Row)
  (rs : list Row) :
  set_cells c (map h rs) (map g rs)
  = Ok (map (fun r => set_cell c (h r) (g r)) rs).
Proof.
  induction rs as [|r rs IH]; cbn; [reflexivity|]. now rewrite IH.
Qed.

(** Writing a cell that is present replaces it in place. *)
Lemma set_cell_middle (c : string) (x y : value) (a b : Row) :
  ~ In c (map fst a) ->
  set_cell c x (a ++ (c, y) :: b) = a ++ (c, x) :: b.
Proof.
  induction a as [|[k v] a IH]; cbn; intros Hnot.
  - now rewrite String.eqb_refl.
  - destruct (String.eqb_spec k c) as [->|Hk]; [tauto|].
    rewrite IH; [reflexivity|tauto].
Qed.

Lemma has_column_In (df : DataFrame) (c : string) :
  has_column df c = true <-> In c (columns df).
Proof.
  unfold has_column. rewrite existsb_exists. split.
  - intros (x & Hx & E). apply String.eqb_eq in E. now subst.
  - intros H. exists c. split; [exact H|apply String.eqb_refl].
Qed.

Lemma rename_loop_ok (df : DataFrame) (todo done : list (string * string))
  (out : DataFrame) :
  NoDup (map snd (done ++ todo)) ->
  (forall k, In k (map fst todo) -> has_column df k = true) ->
  columns out = map snd (done ++ todo) ->
  rows out
  = map (fun r => renamed_row done r ++ blank_row (map snd todo)) (rows df) ->
  rename_loop todo df out
  = Ok {| columns := map snd (done ++ todo);
          rows := map (renamed_row (done ++ todo)) (rows df) |}.
Proof.
  revert done out.
  induction todo as [|[k v] todo IH]; intros done out Hnd Hall Hcols Hrows.
  - cbn. rewrite app_nil_r in *. destruct out as [oc orows]. cbn in *.
    subst oc. f_equal. f_equal. rewrite Hrows.
    apply map_ext. intros r. unfold blank_row. cbn. now rewrite app_nil_r.
  - cbn [rename_loop].
    rewrite (Hall k) by (now left). cbn [negb].
    rewrite getitem_present by (apply Hall; now left). cbn [Py.bind].
    unfold setitem. rewrite Hrows, set_cells_map2. cbn [Py.bind].
    assert (Hv : has_column out v = true).
    { apply has_column_In. rewrite Hcols, map_app. apply in_or_app.
      right. now left. }
    rewrite Hv.
    replace (done ++ (k, v) :: todo) with ((done ++ [(k, v)]) ++ todo) in *
      by (now rewrite <- app_assoc).
    apply IH.
    + exact Hnd.
    + intros k' Hk'. apply Hall. now right.
    + exact Hcols.
    + cbn [rows]. apply map_ext. intros r.
      unfold blank_row, renamed_row. cbn [map snd]. rewrite set_cell_middle.
      * rewrite map_app. cbn [map fst snd]. now rewrite <- app_assoc.
      * rewrite map_map. cbn [fst].
        rewrite !map_app in Hnd. cbn [map] in Hnd.
        rewrite <- app_assoc in Hnd.
        apply NoDup_remove_2 in Hnd.
        intros Hin. apply Hnd. apply in_or_app. now left.
Qed.

Lemma rename_loop_missing (df : DataFrame) (todo : list (string * string))
  (out : DataFrame) :
  (exists k, In k (map fst todo) /\ has_column df k = false) ->
  exists e, rename_loop todo df out = Raise e.
Proof.
  revert out. induction todo as [|[k v] todo IH]; intros out (k' & Hin & Hk').
  - destruct Hin.
  - cbn [rename_loop]. destruct (has_column df k) eqn:Hk; cbn [negb].
    + destruct Hin as [E|Hin]; [cbn in E; congruence|].
      unfold getitem. rewrite Hk. cbn [Py.bind].
      destruct (setitem out v _) as [out'|e]; cbn [Py.bind].
      * apply IH. now exists k'.
      * now exists e.
    + eexists. reflexivity.
Qed.

Lemma ONLY_AND_RENAMED_targets_distinct :
  NoDup (map snd ONLY_AND_RENAMED).
Proof.
  cbn. repeat (constructor; [cbn; intuition discriminate|]). constructor.
Qed.

(** C9. [filter_rename_columns] raises if and only if a source column of
    the canonical list is absent from the input; when all are present it
    returns a frame whose columns are exactly the canonical labels in
    their declared order, each row holding the input's cells under the
    canonical labels. *)
Theorem filter_rename_columns_canonical (df : DataFrame) :
  ((exists k, In k (map fst ONLY_AND_RENAMED) /\ has_column df k = false)
   <-> exists e, filter_rename_columns df = Raise e)
  /\ ((forall k, In k (map fst ONLY_AND_RENAMED) -> has_column df k = true) ->
      filter_rename_columns df
      = Ok {| columns := map snd ONLY_AND_RENAMED;
              rows := map (renamed_row ONLY_AND_RENAMED) (rows df) |}).
Proof.
  assert (Hok : (forall k, In k (map fst ONLY_AND_RENAMED) ->
                           has_column df k = true) ->
                filter_rename_columns df
                = Ok {| columns := map snd ONLY_AND_RENAMED;
                        rows := map (renamed_row ONLY_AND_RENAMED) (rows df) |}).
  { intros Hall. unfold filter_rename_columns.
    apply (rename_loop_ok df ONLY_AND_RENAMED []).
    - exact ONLY_AND_RENAMED_targets_distinct.
    - exact Hall.
    - reflexivity.
    - unfold blank_frame. cbn [rows]. apply map_ext. intros r. reflexivity. }
  split; [|exact Hok]. split.
  - apply rename_loop_missing.
  - intros [e He].
    destruct (forallb (has_column df) (map fst ONLY_AND_RENAMED)) eqn:Hall.
    + rewrite forallb_forall in Hall. rewrite (Hok Hall) in He. discriminate.
    + apply forallb_false in Hall as (k & Hin & Hk). now exists k.
Qed.

End CanonicalFacts.

(** A frame that lacks [rho] is refused at that column. *)
Example filter_rename_columns_missing_rho :
  Cleaning.filter_rename_columns
    {| Frame.columns :=
         ["slot_time_utc"; "underlying"; "instrument_name"; "expiry_utc";
          "strike"; "option_type"; "bid"; "ask"; "mid"; "iv"; "delta";
          "gamma"; "vega"; "theta"; "F"; "S"; "spread_rel"; "moneyness";
          "iv_flag_outlier"];
       Frame.rows := [] |}
  = Raise (ValueError "Column rho not found in dataframe").
Proof. reflexivity. Qed.

(* ------------------------------------------------------------------ *)
(** ** Normalization *)
(* ------------------------------------------------------------------ *)

Section NormalizeFacts.
Import Frame Normalize.
Context {P : PandasText}.

Lemma same_column_refl (c : string) (df : DataFrame) : same_column c df df.
Proof. now split. Qed.

Lemma same_column_trans (c : string) (df1 df2 df3 : DataFrame) :
  same_column c df1 df2 -> same_column c df2 df3 -> same_column c df1 df3.
Proof. intros [H1 H2] [H3 H4]. split; congruence. Qed.

Lemma mapM_total {A B : Type} (g : A -> B) (l : list A) :
  Py.mapM (fun x => Ok (g x)) l = Ok (map g l).
Proof. apply mapM_map. reflexivity. Qed.

(** What [set_cells] writes, and what it leaves. *)
Lemma set_cells_column (c : string) (vs : Series) (rs rs' : list Row) :
  set_cells c vs rs = Ok rs' ->
  map (cell c) rs' = vs
  /\ forall c', c <> c' -> map (cell c') rs' = map (cell c') rs.
Proof.
  revert rs rs'. induction vs as [|v vs IH]; intros [|r rs] rs' H; cbn in H;
    try discriminate.
  - injection H as <-. now split.
  - destruct (set_cells c vs rs) as [rest|] eqn:E; cbn in H; [|discriminate].
    injection H as <-. destruct (IH _ _ E) as [H1 H2]. split.
    + cbn. now rewrite cell_set_cell_same, H1.
    + intros c' Hc. cbn. now rewrite cell_set_cell_other, H2.
Qed.

Lemma has_column_set (df : DataFrame) (t c : string) (rs : list Row) :
  has_column {| columns := if has_column df t then columns df
                           else columns df ++ [t];
                rows := rs |} c
  = has_column df c || String.eqb c t.
Proof.
  unfold has_column. cbn [columns].
  destruct (existsb (String.eqb t) (columns df)) eqn:Ht.
  - destruct (String.eqb_spec c t) as [->|_].
    + now rewrite Ht.
    + now rewrite orb_false_r.
  - rewrite existsb_app. cbn. now rewrite orb_false_r.
Qed.

Lemma setitem_columns (df out : DataFrame) (t : string) (vs : Series) :
  setitem df t vs = Ok out ->
  has_column out t = true
  /\ map (cell t) (rows out) = vs
  /\ forall c, t <> c -> same_column c df out.
Proof.
  unfold setitem. destruct (set_cells t vs (rows df)) as [rs|] eqn:E;
    cbn; [|discriminate].
  intros H. injection H as <-.
  destruct (set_cells_column _ _ _ _ E) as [H1 H2].
  split; [|split].
  - rewrite has_column_set, String.eqb_refl. apply orb_true_r.
  - exact H1.
  - intros c Hc. split.
    + rewrite has_column_set.
      destruct (String.eqb_spec c t) as [->|_]; [contradiction|].
      now rewrite orb_false_r.
    + cbn [rows]. symmetry. now apply H2.
Qed.

Lemma assign_map_columns (out out' : DataFrame) (t s : string)
  (f : value -> result value) :
  assign_map out t s f = Ok out' ->
  has_column out' t = true
  /\ Py.mapM f (map (cell s) (rows out)) = Ok (map (cell t) (rows out'))
  /\ forall c, t <> c -> same_column c out out'.
Proof.
  unfold assign_map, getitem.
  destruct (has_column out s); cbn; [|discriminate].
  destruct (Py.mapM f _) as [vs|]; cbn; [|discriminate].
  intros H. destruct (setitem_columns _ _ _ _ H) as (H1 & H2 & H3).
  now rewrite H2.
Qed.

Lemma bind_ok {A B : Type} (m : result A) (k : A -> result B) (y : B) :
  Py.bind m k = Ok y -> exists x, m = Ok x /\ k x = Ok y.
Proof. destruct m as [x|e]; cbn; [|discriminate]. intros H. now exists x. Qed.

Lemma foldM_app {A B : Type} (f : B -> A -> result B) (l1 l2 : list A) (b : B) :
  foldM f (l1 ++ l2) b = (b' <- foldM f l1 b ;; foldM f l2 b').
Proof.
  revert b. induction l1 as [|x l1 IH]; intros b; cbn; [reflexivity|].
  destruct (f b x); cbn; [apply IH|reflexivity].
Qed.

(** A loop whose turns leave a column alone leaves it alone. *)
Lemma foldM_same_column {A : Type} (f : DataFrame -> A -> result DataFrame)
  (c : string) (l : list A) (out out' : DataFrame) :
  (forall x o o', In x l -> f o x = Ok o' -> same_column c o o') ->
  foldM f l out = Ok out' ->
  same_column c out out'.
Proof.
  revert out. induction l as [|x l IH]; intros out Hf H; cbn in H.
  - injection H as <-. apply same_column_refl.
  - destruct (f out x) as [o|] eqn:E; cbn in H; [|discriminate].
    eapply same_column_trans.
    + eapply Hf; [now left|exact E].
    + apply IH; [|exact H]. intros y o1 o2 Hy. apply Hf. now right.
Qed.

Lemma coalesce_alias_other (out out' : DataFrame) (item : string * list string)
  (c : string) :
  fst item <> c ->
  coalesce_alias out item = Ok out' ->
  same_column c out out'.
Proof.
  destruct item as [target cands]. cbn [fst]. intros Hc. unfold coalesce_alias.
  destruct (has_column out target).
  - intros H. injection H as <-. apply same_column_refl.
  - destruct (find _ cands) as [s|].
    + intros H. now apply (assign_map_columns _ _ _ _ _ H).
    + intros H. injection H as <-. apply same_column_refl.
Qed.

Lemma numeric_cast_other (out out' : DataFrame) (col c : string) :
  col <> c ->
  numeric_cast out col = Ok out' ->
  same_column c out out'.
Proof.
  intros Hc. unfold numeric_cast.
  destruct (has_column out col).
  - destruct (assign_map out col col _) as [o1|] eqn:E1; cbn; [|discriminate].
    pose proof (proj2 (proj2 (assign_map_columns _ _ _ _ _ E1)) c Hc) as S1.
    destruct (String.eqb col "iv").
    + intros E2. eapply same_column_trans; [exact S1|].
      now apply (assign_map_columns _ _ _ _ _ E2).
    + intros H. now injection H as <-.
  - intros H. injection H as <-. apply same_column_refl.
Qed.

Lemma iv_source_same (df o : DataFrame) :
  same_column "iv" df o ->
  same_column "mark_iv" df o ->
  same_column "implied_volatility" df o ->
  iv_source o = iv_source df.
Proof.
  intros [H1 _] [H2 _] [H3 _]. unfold iv_source. cbn [find].
  now rewrite H1, H2, H3.
Qed.

Lemma coalesce_alias_iv (out out' : DataFrame) (src : string) :
  coalesce_alias out ("iv", ["mark_iv"; "iv"; "implied_volatility"]) = Ok out' ->
  iv_source out = Some src ->
  has_column out' "iv" = true
  /\ map (cell "iv") (rows out') = map (cell src) (rows out).
Proof.
  unfold coalesce_alias, iv_source.
  destruct (has_column out "iv") eqn:Hiv.
  - intros H1 H2. injection H1 as <-. injection H2 as <-. now split.
  - intros H1 H2. rewrite H2 in H1.
    destruct (assign_map_columns _ _ _ _ _ H1) as (Hhas & Hmap & _).
    split; [exact Hhas|].
    rewrite mapM_total, map_id in Hmap. now injection Hmap.
Qed.

Lemma numeric_cast_iv (out out' : DataFrame) :
  numeric_cast out "iv" = Ok out' ->
  has_column out "iv" = true ->
  has_column out' "iv" = true
  /\ map (cell "iv") (rows out')
     = map (fun v => VNum (F64.div (to_numeric v) (F64.of_Z 100)))
           (map (cell "iv") (rows out)).
Proof.
  unfold numeric_cast. intros H Hiv. rewrite Hiv in H.
  destruct (assign_map out "iv" "iv" _) as [o1|] eqn:E1; cbn [Py.bind] in H;
    [|discriminate].
  rewrite String.eqb_refl in H.
  destruct (assign_map_columns _ _ _ _ _ E1) as (_ & Hmap1 & _).
  destruct (assign_map_columns _ _ _ _ _ H) as (Hhas & Hmap2 & _).
  split; [exact Hhas|].
  rewrite mapM_total in Hmap1. injection Hmap1 as Hmap1.
  rewrite <- Hmap1 in Hmap2.
  rewrite (mapM_map _ (fun v => VNum (F64.div (to_numeric v) (F64.of_Z 100))))
    in Hmap2.
  - rewrite map_map in Hmap2. injection Hmap2 as <-. reflexivity.
  - intros x Hx. apply in_map_iff in Hx as (v & <- & _). reflexivity.
Qed.

Lemma step_when (b : bool) (out out' : DataFrame) (t : string)
  (f : value -> result value) (c : string) :
  t <> c ->
  (if b then assign_map out t t f else Ok out) = Ok out' ->
  same_column c out out'.
Proof.
  intros Hc. destruct b.
  - intros H. now apply (assign_map_columns _ _ _ _ _ H).
  - intros H. injection H as <-. apply same_column_refl.
Qed.

(** The implied volatility after [coalesce_columns]: the source column,
    read as numbers and divided by 100, row by row. *)
Lemma coalesce_columns_iv (df out : DataFrame) (src : string) :
  iv_source df = Some src ->
  coalesce_columns df = Ok out ->
  has_column out "iv" = true
  /\ map (cell "iv") (rows out)
     = map (fun r => VNum (F64.div (to_numeric (cell src r)) (F64.of_Z 100)))
           (rows df).
Proof.
  intros Hsrc. unfold coalesce_columns.
  change ALIASES
    with (firstn 6 ALIASES
          ++ [("iv", ["mark_iv"; "iv"; "implied_volatility"])]
          ++ skipn 7 ALIASES).
  change NUMERIC_TARGETS
    with (firstn 3 NUMERIC_TARGETS ++ ["iv"] ++ skipn 4 NUMERIC_TARGETS).
  intros H.
  apply bind_ok in H as (o3 & Ha & H).
  rewrite foldM_app in Ha. apply bind_ok in Ha as (o1 & E1 & Ha).
  rewrite foldM_app in Ha. apply bind_ok in Ha as (o2 & E2 & E3).
  cbn [foldM] in E2. apply bind_ok in E2 as (o2' & E2 & Eo2).
  injection Eo2 as ->.
  apply bind_ok in H as (o4 & E4 & H).
  apply bind_ok in H as (o5 & E5 & H).
  rewrite foldM_app in H. apply bind_ok in H as (o6 & E6 & H).
  rewrite foldM_app in H. apply bind_ok in H as (o7 & E7 & E8).
  cbn [foldM] in E7. apply bind_ok in E7 as (o7' & E7 & Eo7).
  injection Eo7 as ->.
  (* the aliases before iv leave iv and its sources alone *)
  assert (S1 : forall c, In c ["iv"; "mark_iv"; "implied_volatility"] ->
                         same_column c df o1).
  { intros c Hc. eapply foldM_same_column; [|exact E1].
    intros item o o' Hitem. apply coalesce_alias_other.
    cbn in Hitem, Hc. intuition (subst; cbn; discriminate). }
  assert (Hsrc1 : iv_source o1 = Some src).
  { rewrite (iv_source_same df o1); [exact Hsrc| | |]; apply S1; cbn; tauto. }
  destruct (coalesce_alias_iv _ _ _ E2 Hsrc1) as [Hhas2 Hcol2].
  assert (Hsrc_in : In src ["iv"; "mark_iv"; "implied_volatility"]).
  { unfold iv_source in Hsrc. cbn [find] in Hsrc.
    destruct (has_column df "iv"); [injection Hsrc as <-; cbn; tauto|].
    destruct (has_column df "mark_iv"); [injection Hsrc as <-; cbn; tauto|].
    destruct (has_column df "implied_volatility");
      [injection Hsrc as <-; cbn; tauto|discriminate]. }
  rewrite <- (proj2 (S1 src Hsrc_in)) in Hcol2.
  (* the later steps leave iv alone until its cast *)
  assert (S3 : same_column "iv" o2 o3).
  { eapply foldM_same_column; [|exact E3].
    intros item o o' Hitem. apply coalesce_alias_other.
    cbn in Hitem. intuition (subst; cbn; discriminate). }
  assert (S4 : same_column "iv" o3 o4)
    by (eapply step_when; [|exact E4]; discriminate).
  assert (S5 : same_column "iv" o4 o5)
    by (eapply step_when; [|exact E5]; discriminate).
  assert (S6 : same_column "iv" o5 o6).
  { eapply foldM_same_column; [|exact E6].
    intros col o o' Hcol. apply numeric_cast_other.
    cbn in Hcol. intuition (subst; discriminate). }
  assert (S26 : same_column "iv" o2 o6).
  { repeat (eapply same_column_trans; [eassumption|]). apply same_column_refl. }
  destruct S26 as [Hhas26 Hcol26].
  destruct (numeric_cast_iv _ _ E7) as [Hhas7 Hcol7]; [congruence|].
  assert (S8 : same_column "iv" o7 out).
  { eapply foldM_same_column; [|exact E8].
    intros col o o' Hcol. apply numeric_cast_other.
    cbn in Hcol. intuition (subst; discriminate). }
  destruct S8 as [Hhas8 Hcol8].
  split; [congruence|].
  rewrite <- Hcol8, Hcol7, <- Hcol26, Hcol2, map_map. reflexivity.
Qed.

Lemma add_parsed_columns_iv (out out' : DataFrame) (col : string) :
  add_parsed_columns out col = Ok out' -> same_column "iv" out out'.
Proof.
  unfold add_parsed_columns. destruct (has_column out col); cbn [negb].
  - intros H. apply bind_ok in H as (names & _ & H).
    apply bind_ok in H as (parsed & _ & H).
    eapply foldM_same_column; [|exact H].
    intros [c f] o o' Hin Hset. unfold fill_from in Hset.
    apply (setitem_columns _ _ _ _ Hset).
    cbn in Hin.
    repeat (destruct Hin as [Hin|Hin];
            [injection Hin as <- _; discriminate|]).
    destruct Hin.
  - intros H. injection H as <-. apply same_column_refl.
Qed.

Lemma insert_sorted_In (cols : list string) (r : Row) (sorted l : list Row) :
  insert_sorted cols r sorted = Ok l ->
  forall x, In x l -> x = r \/ In x sorted.
Proof.
  revert l. induction sorted as [|r' rest IH]; intros l H x Hx; cbn in H.
  - injection H as <-. destruct Hx as [<-|[]]. now left.
  - apply bind_ok in H as (c & _ & H).
    destruct c.
    + injection H as <-. destruct Hx as [<-|Hx]; [now left|now right].
    + injection H as <-. destruct Hx as [<-|Hx]; [now left|now right].
    + apply bind_ok in H as (rest' & E & H). injection H as <-.
      destruct Hx as [<-|Hx]; [right; now left|].
      destruct (IH _ E x Hx) as [->|Hin]; [now left|right; now right].
Qed.

Lemma sort_rows_In (cols : list string) (rs rs' : list Row) :
  sort_rows cols rs = Ok rs' -> forall x, In x rs' -> In x rs.
Proof.
  revert rs'. induction rs as [|r rs IH]; intros rs' H x Hx; cbn in H.
  - injection H as <-. exact Hx.
  - apply bind_ok in H as (sorted & E & H).
    destruct (insert_sorted_In _ _ _ _ H x Hx) as [->|Hin]; [now left|].
    right. now apply (IH _ E).
Qed.

Lemma drop_duplicate_rows_In (cols : list string) (rs : list Row) (x : Row) :
  In x (drop_duplicate_rows cols rs) -> In x rs.
Proof.
  induction rs as [|r rs IH]; cbn; [tauto|].
  destruct (existsb _ rs); cbn; intuition.
Qed.

(** The rows of [standardize] are rows of the coalesced frame with the
    parsed columns filled in. *)
Lemma standardize_rows (df out : DataFrame) (col : string) :
  standardize df col = Ok out ->
  exists o1 o2,
    coalesce_columns df = Ok o1
    /\ add_parsed_columns o1 col = Ok o2
    /\ columns out = columns o2
    /\ forall r, In r (rows out) -> In r (rows o2).
Proof.
  unfold standardize. intros H.
  apply bind_ok in H as (o1 & E1 & H).
  apply bind_ok in H as (o2 & E2 & H).
  exists o1, o2. split; [exact E1|]. split; [exact E2|].
  destruct (filter (has_column o2) _) as [|c cs].
  - injection H as <-. now split.
  - apply bind_ok in H as (sorted & E3 & H). injection H as <-.
    unfold sort_values in E3. apply bind_ok in E3 as (rs & E3 & H).
    injection H as <-. cbn. split; [reflexivity|].
    intros r Hr. apply drop_duplicate_rows_In in Hr.
    now apply (sort_rows_In _ _ _ E3).
Qed.

Lemma standardize_iv (df out : DataFrame) (col src : string) :
  iv_source df = Some src ->
  standardize df col = Ok out ->
  has_column out "iv" = true
  /\ forall r', In r' (rows out) ->
       exists r, In r (rows df)
         /\ cell "iv" r'
            = VNum (F64.div (to_numeric (cell src r)) (F64.of_Z 100)).
Proof.
  intros Hsrc H.
  destruct (standardize_rows _ _ _ H) as (o1 & o2 & E1 & E2 & Hcols & Hrows).
  destruct (coalesce_columns_iv _ _ _ Hsrc E1) as [Hhas Hcol].
  destruct (add_parsed_columns_iv _ _ _ E2) as [Hhas2 Hcol2].
  split.
  - unfold has_column in *. rewrite Hcols. congruence.
  - intros r' Hr'. apply Hrows in Hr'.
    assert (Hin : In (cell "iv" r') (map (cell "iv") (rows o2)))
      by (now apply in_map).
    rewrite <- Hcol2, Hcol in Hin.
    apply in_map_iff in Hin as (r & Hr & Hin). now exists r.
Qed.

(** C10. When the frame has an [iv] column or one of its aliases,
    [coalesce_columns] (and hence [standardize]) divides every implied
    volatility by 100, whatever its value: the [iv] column of the result
    is the source column read as numbers and divided by 100, row by row,
    and every row [standardize] keeps carries such a value. Applying
    [standardize] to its own result divides by 100 once more. *)
Theorem standardize_divides_iv_by_100 (df : DataFrame) (col src : string) :
  iv_source df = Some src ->
  (forall out,
     coalesce_columns df = Ok out ->
     has_column out "iv" = true
     /\ map (cell "iv") (rows out)
        = map (fun r =>
                 VNum (F64.div (to_numeric (cell src r)) (F64.of_Z 100)))
              (rows df))
  /\ (forall out,
        standardize df col = Ok out ->
        has_column out "iv" = true
        /\ forall r', In r' (rows out) ->
             exists r, In r (rows df)
               /\ cell "iv" r'
                  = VNum (F64.div (to_numeric (cell src r)) (F64.of_Z 100)))
  /\ (forall out1 out2,
        standardize df col = Ok out1 ->
        standardize out1 col = Ok out2 ->
        forall r2, In r2 (rows out2) ->
          exists r, In r (rows df)
            /\ cell "iv" r2
               = VNum (F64.div
                         (F64.div (to_numeric (cell src r)) (F64.of_Z 100))
                         (F64.of_Z 100))).
Proof.
  intros Hsrc. split; [|split].
  - intros out. now apply coalesce_columns_iv.
  - intros out. now apply standardize_iv.
  - intros out1 out2 H1 H2 r2 Hr2.
    destruct (standardize_iv _ _ _ _ Hsrc H1) as [Hhas1 Hiv1].
    assert (Hsrc1 : iv_source out1 = Some "iv")
      by (unfold iv_source; now rewrite Hhas1).
    destruct (standardize_iv _ _ _ _ Hsrc1 H2) as [_ Hiv2].
    destruct (Hiv2 r2 Hr2) as (r1 & Hr1 & E2).
    destruct (Hiv1 r1 Hr1) as (r & Hr & E1).
    exists r. split; [exact Hr|]. rewrite E2, E1. reflexivity.
Qed.

End NormalizeFacts.

(** A frame as the fetcher builds them, with the implied volatility in
    percent (50 and 60) and two observations of one instrument: both runs
    of [standardize] return, the first leaves 0.6 and the second 0.006. *)
Lemma standardize_divides_iv_by_100_witness :
  let lib := {| to_datetime_text := fun _ => None;
                to_numeric_text := fun _ => None |} in
  let row t iv :=
    [("slot_time_utc", Frame.VTime 63897148800000000);
     ("timestamp_utc", Frame.VTime t);
     ("instrument_name", Frame.VStr "BTC-27OCT25-65000-C");
     ("iv", Frame.VNum (F64.of_Z iv))] in
  let df := {| Frame.columns :=
                 ["slot_time_utc"; "timestamp_utc"; "instrument_name"; "iv"];
               Frame.rows := [row 63897158833500000 50;
                              row 63897158833600000 60] |} in
  Normalize.iv_source df = Some "iv"
  /\ exists out1 out2,
       @Normalize.standardize lib df "instrument_name" = Ok out1
       /\ @Normalize.standardize lib out1 "instrument_name" = Ok out2
       /\ map (Frame.cell "iv") (Frame.rows out1)
          = [Frame.VNum (F64.div (F64.of_Z 60) (F64.of_Z 100))]
       /\ map (Frame.cell "iv") (Frame.rows out2)
          = [Frame.VNum (F64.div (F64.div (F64.of_Z 60) (F64.of_Z 100))
                                 (F64.of_Z 100))]
       /\ forall r2, In r2 (Frame.rows out2) ->
            exists r, In r (Frame.rows df)
              /\ Frame.cell "iv" r2
                 = Frame.VNum
                     (F64.div
                        (F64.div (@Normalize.to_numeric lib (Frame.cell "iv" r))
                                 (F64.of_Z 100))
                        (F64.of_Z 100)).
Proof.
  cbv zeta. split; [reflexivity|].
  set (lib := {| to_datetime_text := fun _ => None;
                 to_numeric_text := fun _ => None |}).
  set (df := {| Frame.columns := _; Frame.rows := _ |}).
  destruct (@Normalize.standardize lib df "instrument_name") as [out1|] eqn:E1;
    [|vm_compute in E1; discriminate].
  destruct (@Normalize.standardize lib out1 "instrument_name") as [out2|] eqn:E2;
    [|vm_compute in E1; injection E1 as <-; vm_compute in E2; discriminate].
  exists out1, out2. split; [reflexivity|]. split; [exact E2|].
  split; [vm_compute in E1; injection E1 as <-; reflexivity|].
  split; [vm_compute in E1; injection E1 as <-;
          vm_compute in E2; injection E2 as <-; reflexivity|].
  exact (proj2 (proj2 (@standardize_divides_iv_by_100 lib df "instrument_name"
                         "iv" eq_refl)) out1 out2 E1 E2).
Defined.

(* ------------------------------------------------------------------ *)
(** ** The fetch of a batch *)
(* ------------------------------------------------------------------ *)

Lemma existsb_false {A : Type} (f : A -> bool) (l : list A) :
  existsb f l = false -> forall x, In x l -> f x = false.
Proof.
  induction l as [|y l IH]; cbn; [tauto|].
  intros H x [<-|Hx]; apply orb_false_iff in H as [H1 H2]; [exact H1|].
  now apply IH.
Qed.

Section BatchFacts.
Import Frame Snapshot.
Context {B : Builtins}.
Variable cfg : Config.
Variable world : World.
Variable slot_time : Z.
Variable instruments : list (string * string).

Local Abbreviation attempt := (attempt world slot_time instruments).
Local Abbreviation step_task := (step_task cfg world slot_time instruments).
Local Abbreviation step := (step cfg world slot_time instruments).
Local Abbreviation reachable := (reachable cfg world slot_time instruments).
Local Abbreviation invariant := (invariant cfg world slot_time instruments).
Local Abbreviation worker_invariant :=
  (worker_invariant cfg world slot_time instruments).
Local Abbreviation failed := (failed world slot_time instruments).
Local Abbreviation measure := (measure cfg).
Local Abbreviation weight := (weight cfg).

Lemma nth_error_set_task (k i : nat) (t : task) (ts : list task) :
  nth_error (set_task k t ts) i
  = if Nat.eqb i k
    then match nth_error ts k with Some _ => Some t | None => None end
    else nth_error ts i.
Proof.
  revert k i. induction ts as [|x ts IH]; intros k i; cbn.
  - destruct (Nat.eqb i k); now destruct i, k.
  - destruct k as [|k], i as [|i]; cbn; try reflexivity. apply IH.
Qed.

Lemma length_set_task (k : nat) (t : task) (ts : list task) :
  List.length (set_task k t ts) = List.length ts.
Proof.
  revert k. induction ts as [|x ts IH]; intros [|k]; cbn; try reflexivity.
  now rewrite IH.
Qed.

Lemma running_set_task (k : nat) (t t0 : task) (ts : list task) :
  nth_error ts k = Some t0 ->
  running (set_task k t ts)
  = running ts - (if is_running t0 then 1 else 0)
    + (if is_running t then 1 else 0).
Proof.
  unfold running. revert k.
  induction ts as [|x ts IH]; intros [|k] H; cbn [nth_error] in H;
    try discriminate.
  - injection H as ->. cbn [set_task filter].
    destruct (is_running t0), (is_running t); cbn [List.length]; lia.
  - specialize (IH k H). cbn [set_task filter].
    destruct (is_running x); cbn [List.length]; lia.
Qed.

Lemma measure_set_task (k : nat) (t t0 : task) (ts : list task) :
  nth_error ts k = Some t0 ->
  (list_sum (map weight (set_task k t ts)) + weight t0
   = list_sum (map weight ts) + weight t)%nat.
Proof.
  revert k. induction ts as [|x ts IH]; intros [|k] H;
    cbn [nth_error] in H; try discriminate;
    cbn [set_task map list_sum fold_right].
  - injection H as ->. lia.
  - specialize (IH k H). unfold list_sum in IH. lia.
Qed.

Lemma count_app_row (i k : nat) (row : Row) (rs : list (nat * Row)) :
  List.length (filter (fun r => Nat.eqb (fst r) i) (rs ++ [(k, row)]))
  = (List.length (filter (fun r => Nat.eqb (fst r) i) rs)
     + (if Nat.eqb k i then 1 else 0))%nat.
Proof.
  rewrite filter_app, length_app. cbn. now destruct (Nat.eqb k i).
Qed.

(** The row of another worker changes nothing for worker [i]. *)
Lemma worker_invariant_other (rs : list (nat * Row)) (i k : nat) (row : Row)
  (t : task) :
  k <> i ->
  worker_invariant rs i t -> worker_invariant (rs ++ [(k, row)]) i t.
Proof.
  intros Hk. unfold Snapshot.worker_invariant. rewrite count_app_row.
  apply Nat.eqb_neq in Hk. rewrite Hk, Nat.add_0_r.
  destruct t; try tauto.
  intros [(rc & r & H1 & H2 & H3 & H4 & H5)|H]; [left|now right].
  exists rc, r. repeat split; try assumption; try lia.
  apply in_or_app. now left.
Qed.

Lemma invariant_init : invariant (init cfg instruments).
Proof.
  unfold Snapshot.invariant, init. cbn. split; [|split].
  - intros i t Hi. apply nth_error_In in Hi. apply in_map_iff in Hi as (_ & <- & _).
    reflexivity.
  - apply length_map.
  - assert (E : running (map (fun _ : string * string => Waiting) instruments) = 0).
    { unfold running. induction instruments as [|x l IH]; cbn; [reflexivity|exact IH]. }
    rewrite E. lia.
Qed.

Lemma invariant_step (st st' : state) :
  invariant st -> step st st' -> invariant st'.
Proof.
  intros (Hw & Hlen & Hsem) Hstep. destruct Hstep as [k st st' Hk].
  unfold Snapshot.step_task in Hk.
  destruct (nth_error (tasks st) k) as [[|rc|]|] eqn:Ek; try discriminate.
  - (* the worker enters the semaphore *)
    destruct (0 <? sem_value st) eqn:Hs; [|discriminate].
    injection Hk as <-. split; [|split]; cbn.
    + intros i t. rewrite nth_error_set_task, Ek.
      destruct (Nat.eqb_spec i k) as [->|_].
      * intros E. injection E as <-. pose proof (Hw k _ Ek) as W. cbn in W.
        cbn. repeat split; [lia|exact W|intros j Hj; lia].
      * apply Hw.
    + now rewrite length_set_task.
    + rewrite (running_set_task _ _ _ _ Ek). cbn. lia.
  - pose proof (Hw k _ Ek) as (Hrc & Hn & Hfail).
    destruct (rc <? max_retries cfg) eqn:Hlt.
    + destruct (attempt k rc) as [row|e] eqn:Ea; injection Hk as <-.
      * (* the attempt succeeds: the row is appended *)
        apply Z.ltb_lt in Hlt. split; [|split]; cbn.
        -- intros i t. rewrite nth_error_set_task, Ek.
           destruct (Nat.eqb_spec i k) as [->|Hne].
           ++ intros E. injection E as <-. left. exists rc, row.
              repeat split; try assumption; try lia.
              ** rewrite count_app_row, Nat.eqb_refl. cbn in Hn. lia.
              ** apply in_or_app. right. now left.
           ++ intros Hi. apply worker_invariant_other; [congruence|].
              now apply Hw.
        -- now rewrite length_set_task.
        -- rewrite (running_set_task _ _ _ _ Ek). cbn. lia.
      * (* the attempt fails: one more retry *)
        split; [|split]; cbn.
        -- intros i t. rewrite nth_error_set_task, Ek.
           destruct (Nat.eqb_spec i k) as [->|_]; [|apply Hw].
           intros E. injection E as <-. cbn. repeat split; [lia|exact Hn|].
           intros j Hj. destruct (Z.eq_dec j rc) as [->|Hne].
           ++ now exists e.
           ++ apply Hfail. lia.
        -- now rewrite length_set_task.
        -- rewrite (running_set_task _ _ _ _ Ek). cbn. lia.
    + (* the retries are exhausted *)
      apply Z.ltb_ge in Hlt. injection Hk as <-. split; [|split]; cbn.
      * intros i t. rewrite nth_error_set_task, Ek.
        destruct (Nat.eqb_spec i k) as [->|_]; [|apply Hw].
        intros E. injection E as <-. right. split; [exact Hn|].
        intros j Hj. apply Hfail. lia.
      * now rewrite length_set_task.
      * rewrite (running_set_task _ _ _ _ Ek). cbn. lia.
Qed.

Lemma reachable_invariant (st : state) : reachable st -> invariant st.
Proof.
  induction 1 as [|st st' _ IH Hstep]; [apply invariant_init|].
  now apply (invariant_step st).
Qed.

(** Every turn uses up one of the turns the workers have left. *)
Lemma step_measure (st st' : state) :
  step st st' -> (measure st' < measure st)%nat.
Proof.
  intros [k st0 st1 Hk]. unfold Snapshot.step_task in Hk.
  unfold Snapshot.measure.
  destruct (nth_error (tasks st0) k) as [[|rc|]|] eqn:Ek; try discriminate.
  - destruct (0 <? sem_value st0); [|discriminate]. injection Hk as <-.
    cbn [tasks].
    pose proof (measure_set_task k (Running 0) _ _ Ek) as M.
    cbn [Snapshot.weight] in M. rewrite Z.sub_0_r in M. lia.
  - destruct (rc <? max_retries cfg) eqn:Hlt.
    + apply Z.ltb_lt in Hlt.
      destruct (attempt k rc); injection Hk as <-; cbn [tasks].
      * pose proof (measure_set_task k Finished _ _ Ek) as M.
        cbn [Snapshot.weight] in M. lia.
      * pose proof (measure_set_task k (Running (rc + 1)) _ _ Ek) as M.
        cbn [Snapshot.weight] in M.
        assert (Z.to_nat (max_retries cfg - (rc + 1))
                < Z.to_nat (max_retries cfg - rc))%nat by lia.
        lia.
    + injection Hk as <-. cbn [tasks].
      pose proof (measure_set_task k Finished _ _ Ek) as M.
      cbn [Snapshot.weight] in M. lia.
Qed.

(** While a worker is pending, some worker can move: the batch cannot
    hang when the semaphore admits at least one worker. *)
Lemma progress (st : state) :
  1 <= max_concurrency cfg ->
  invariant st -> gathered st = false -> exists st', step st st'.
Proof.
  intros Hc (_ & _ & Hsem) Hg. unfold gathered in Hg.
  destruct (existsb is_running (tasks st)) eqn:Hrun.
  - (* a worker inside the semaphore always moves *)
    apply existsb_exists in Hrun as (t & Hin & Ht).
    destruct t as [|rc|]; try discriminate.
    apply In_nth_error in Hin as (k & Ek).
    destruct (Snapshot.step_task cfg world slot_time instruments k st) as [st'|] eqn:E.
    + exists st'. now apply (step_worker _ _ _ _ k).
    + unfold Snapshot.step_task in E. rewrite Ek in E.
      destruct (rc <? max_retries cfg); [destruct (attempt k rc)|]; discriminate.
  - (* no worker inside: the semaphore is free for a waiting one *)
    assert (Hzero : running (tasks st) = 0).
    { unfold running. clear -Hrun. induction (tasks st) as [|t ts IH];
        [reflexivity|]. cbn in *. apply orb_false_iff in Hrun as [Ht Hts].
      rewrite Ht. now apply IH. }
    apply forallb_false in Hg as (t & Hin & Ht).
    apply In_nth_error in Hin as (k & Ek).
    destruct t as [|rc|]; try discriminate.
    + eexists. apply (step_worker _ _ _ _ k).
      unfold Snapshot.step_task. rewrite Ek.
      replace (0 <? sem_value st) with true by (symmetry; apply Z.ltb_lt; lia).
      reflexivity.
    + apply nth_error_In in Ek.
      pose proof (existsb_false _ _ Hrun _ Ek) as C. discriminate.
Qed.

Lemma run_reachable (schedule : list nat) (st : state) :
  reachable st -> reachable (run cfg world slot_time instruments schedule st).
Proof.
  revert st. induction schedule as [|i schedule IH]; intros st Hst; cbn;
    [exact Hst|].
  apply IH.
  destruct (Snapshot.step_task cfg world slot_time instruments i st) as [st'|] eqn:E;
    [|exact Hst].
  apply (reachable_step _ _ _ _ st); [exact Hst|]. now apply (step_worker _ _ _ _ i).
Qed.

(** Some schedule brings every worker to its end. *)
Lemma schedule_exists (n : nat) (st : state) :
  1 <= max_concurrency cfg ->
  reachable st -> (measure st <= n)%nat ->
  exists schedule,
    gathered (run cfg world slot_time instruments schedule st) = true.
Proof.
  intros Hc. revert st. induction n as [|n IH]; intros st Hst Hm.
  - destruct (gathered st) eqn:Hg; [now exists []|].
    destruct (progress st Hc (reachable_invariant _ Hst) Hg) as (st' & Hstep).
    apply step_measure in Hstep. lia.
  - destruct (gathered st) eqn:Hg; [now exists []|].
    destruct (progress st Hc (reachable_invariant _ Hst) Hg) as (st' & Hstep).
    pose proof (step_measure _ _ Hstep) as Hlt.
    destruct (IH st') as (schedule & Hs);
      [apply (reachable_step _ _ _ _ st); assumption|lia|].
    destruct Hstep as [i st0 st1 Hi].
    exists (i :: schedule). cbn. now rewrite Hi.
Qed.

Lemma attempt_of_fetch (i : nat) (rc : Z) (under inst : string) :
  nth_error instruments i = Some (under, inst) ->
  attempt i rc
  = (ob <- fetch_order_book world i rc ;;
     make_row slot_time under inst ob (utc_now world i rc)).
Proof. intros H. unfold Snapshot.attempt. now rewrite H. Qed.

(** The rows of a worker once the batch is gathered. *)
Lemma gathered_rows (st : state) (i : nat) (under inst : string) :
  1 <= max_retries cfg ->
  reachable st -> gathered st = true ->
  nth_error instruments i = Some (under, inst) ->
  (forall row,
      (forall j, 0 <= j < max_retries cfg - 1 -> exists e, attempt i j = Raise e) ->
      attempt i (max_retries cfg - 1) = Ok row ->
      rows_of i st = 1%nat /\ In (i, row) (rows st))
  /\ ((forall j, 0 <= j < max_retries cfg -> exists e, attempt i j = Raise e) ->
      rows_of i st = O).
Proof.
  intros HR Hst Hg Hi.
  destruct (reachable_invariant _ Hst) as (Hw & Hlen & _).
  assert (Ht : nth_error (tasks st) i = Some Finished).
  { destruct (nth_error (tasks st) i) as [t|] eqn:E.
    - unfold gathered in Hg. rewrite forallb_forall in Hg.
      specialize (Hg t (nth_error_In _ _ E)). now destruct t.
    - apply nth_error_None in E.
      assert (i < List.length instruments)%nat
        by (apply nth_error_Some; congruence).
      lia. }
  pose proof (Hw i _ Ht) as W. cbn in W. unfold rows_of.
  split.
  - intros row Hbefore Hok.
    destruct W as [(rc & row' & Hrc & _ & Hok' & Hn & Hin)|[_ Hall]].
    + destruct (Z.eq_dec rc (max_retries cfg - 1)) as [->|Hne].
      * rewrite Hok in Hok'. injection Hok' as <-. now split.
      * destruct (Hbefore rc ltac:(lia)) as (e & He). congruence.
    + destruct (Hall (max_retries cfg - 1) ltac:(lia)) as (e & He). congruence.
  - intros Hall.
    destruct W as [(rc & row' & Hrc & _ & Hok & _)|[Hn _]]; [|exact Hn].
    destruct (Hall rc Hrc) as (e & He). congruence.
Qed.

End BatchFacts.

(** C1 (amended). With at least one retry and a semaphore that admits at
    least one worker, [gather_order_books] returns under some schedule,
    and whenever it returns it returns a list of rows and no exception.
    The attempt of a worker is the body of its [try]: the fetch, then
    [make_row] on the response. In every result, an instrument whose
    attempt fails [max_retries - 1] times and then succeeds has exactly
    one row, the one [make_row] built; an instrument whose attempts all
    fail has none. A failed fetch is a failed attempt. *)
Theorem gather_order_books_retries {B : Builtins} (cfg : Snapshot.Config)
  (world : Snapshot.World) (now : Z) (instruments : list (string * string)) :
  1 <= Snapshot.max_concurrency cfg ->
  1 <= Snapshot.max_retries cfg ->
  let slot_time := Scheduler.replace_second0_microsecond0 now in
  let R := Snapshot.max_retries cfg in
  let attempt := Snapshot.attempt world slot_time instruments in
  (exists schedule rows,
      Snapshot.gather_order_books cfg world now instruments schedule
      = Some (Ok rows))
  /\ forall schedule res,
       Snapshot.gather_order_books cfg world now instruments schedule
       = Some res ->
       exists st,
         Snapshot.reachable cfg world slot_time instruments st
         /\ Snapshot.gathered st = true
         /\ res = Ok (map snd (Snapshot.rows st))
         /\ forall i under inst,
              nth_error instruments i = Some (under, inst) ->
              (forall j,
                  attempt i j
                  = (ob <- Snapshot.fetch_order_book world i j ;;
                     Snapshot.make_row slot_time under inst ob
                       (Snapshot.utc_now world i j))
                  /\ forall e, Snapshot.fetch_order_book world i j = Raise e ->
                               attempt i j = Raise e)
              /\ (forall row,
                     (forall j, 0 <= j < R - 1 ->
                                exists e, attempt i j = Raise e) ->
                     attempt i (R - 1) = Ok row ->
                     Snapshot.rows_of i st = 1%nat
                     /\ In (i, row) (Snapshot.rows st))
              /\ ((forall j, 0 <= j < R -> exists e, attempt i j = Raise e) ->
                  Snapshot.rows_of i st = O).
Proof.
  intros HC HR slot_time R attempt.
  assert (Hneg : (Snapshot.max_concurrency cfg <? 0) = false)
    by (apply Z.ltb_ge; lia).
  pose proof (Snapshot.reachable_init cfg world slot_time instruments) as Hinit.
  split.
  - destruct (schedule_exists cfg world slot_time instruments _ _ HC Hinit
                (Nat.le_refl _)) as (schedule & Hs).
    exists schedule. eexists. unfold Snapshot.gather_order_books.
    rewrite Hneg. fold slot_time. now rewrite Hs.
  - intros schedule res Hres. unfold Snapshot.gather_order_books in Hres.
    rewrite Hneg in Hres. fold slot_time in Hres.
    set (st := Snapshot.run cfg world slot_time instruments schedule _) in Hres.
    assert (Hst : Snapshot.reachable cfg world slot_time instruments st)
      by (now apply run_reachable).
    destruct (Snapshot.gathered st) eqn:Hg; [|discriminate].
    injection Hres as <-. exists st.
    split; [exact Hst|]. split; [exact Hg|]. split; [reflexivity|].
    intros i under inst Hi. split.
    + intros j. unfold attempt.
      rewrite (attempt_of_fetch world slot_time instruments i j under inst Hi).
      split; [reflexivity|]. intros e He. now rewrite He.
    + exact (gathered_rows cfg world slot_time instruments st i under inst
               HR Hst Hg Hi).
Qed.

(** Two workers under a semaphore of one; each fetch fails twice and then
    answers, with three retries: the batch returns two rows. *)
Lemma gather_order_books_retries_witness :
  let builtins := {| float_text := fun s =>
                       match Instrument.float_of_strike s with
                       | Ok x => Some x
                       | Raise _ => None
                       end |} in
  let cfg := {| Snapshot.max_concurrency := 1;
                Snapshot.per_request_delay_ms := 50;
                Snapshot.max_retries := 3;
                Snapshot.retry_delay_ms := 500 |} in
  let ticker := [("best_bid_price", Frame.VNum (F64.of_Z 10));
                 ("best_ask_price", Frame.VNum (F64.of_Z 12));
                 ("mark_iv", Frame.VNum (F64.of_Z 50))] in
  let world := {| Snapshot.fetch_order_book := fun _ retry_count =>
                    if retry_count <? 2
                    then Raise (RuntimeError "timeout") else Ok ticker;
                  Snapshot.utc_now := fun _ _ => 63897158833500000 |} in
  let instruments := [("BTC", "BTC-27OCT25-65000-C");
                      ("BTC", "BTC-27OCT25-70000-P")] in
  1 <= Snapshot.max_concurrency cfg
  /\ 1 <= Snapshot.max_retries cfg
  /\ (exists schedule rows,
        @Snapshot.gather_order_books builtins cfg world 63897158833500000
          instruments schedule = Some (Ok rows))
  /\ option_map (fun res => match res with
                            | Ok rows => Some (List.length rows)
                            | Raise _ => None
                            end)
       (@Snapshot.gather_order_books builtins cfg world 63897158833500000
          instruments (Snapshot.sequential cfg 2))
     = Some (Some 2%nat).
Proof.
  cbv zeta. split; [cbn; lia|]. split; [cbn; lia|]. split.
  - apply (@gather_order_books_retries
             {| float_text := fun s =>
                  match Instrument.float_of_strike s with
                  | Ok x => Some x
                  | Raise _ => None
                  end |}).
    + cbn. lia.
    + cbn. lia.
  - vm_compute. reflexivity.
Defined.

(** The property as first stated fails when the fetch succeeds and the row cannot
    be built: with one retry, a response without [best_bid_price] is
    fetched at the first attempt, [make_row] raises [KeyError] inside the
    [try], and the batch returns no row for the instrument. *)
Lemma gather_order_books_unbuilt_row_counterexample :
  let builtins := {| float_text := fun _ => None |} in
  let cfg := {| Snapshot.max_concurrency := 1;
                Snapshot.per_request_delay_ms := 50;
                Snapshot.max_retries := 1;
                Snapshot.retry_delay_ms := 500 |} in
  let world := {| Snapshot.fetch_order_book := fun _ _ =>
                    Ok [("mark_iv", Frame.VNum (F64.of_Z 50))];
                  Snapshot.utc_now := fun _ _ => 63897158833500000 |} in
  Snapshot.fetch_order_book world 0 (Snapshot.max_retries cfg - 1)
  = Ok [("mark_iv", Frame.VNum (F64.of_Z 50))]
  /\ @Snapshot.gather_order_books builtins cfg world 63897158833500000
       [("BTC", "BTC-27OCT25-65000-C")] [0; 0; 0]%nat
     = Some (Ok []).
Proof. cbv zeta. split; vm_compute; reflexivity. Qed.

(** The same happens to an instrument whose expiry is no calendar
    date: [parse_expiry_code] lets [datetime] raise [ValueError], the
    attempt fails and the instrument has no row. *)
Example gather_order_books_invalid_date :
  let builtins := {| float_text := fun _ => None |} in
  let cfg := {| Snapshot.max_concurrency := 1;
                Snapshot.per_request_delay_ms := 50;
                Snapshot.max_retries := 1;
                Snapshot.retry_delay_ms := 500 |} in
  let ticker := [("best_bid_price", Frame.VNum (F64.of_Z 10));
                 ("best_ask_price", Frame.VNum (F64.of_Z 12))] in
  let world := {| Snapshot.fetch_order_book := fun _ _ => Ok ticker;
                  Snapshot.utc_now := fun _ _ => 63897158833500000 |} in
  @Snapshot.make_row builtins 63897158820000000 "BTC" "BTC-31FEB25-65000-C"
    ticker 63897158833500000
  = Raise (ValueError "day is out of range for month")
  /\ @Snapshot.gather_order_books builtins cfg world 63897158833500000
       [("BTC", "BTC-31FEB25-65000-C")] [0; 0; 0]%nat
     = Some (Ok []).
Proof. cbv zeta. split; vm_compute; reflexivity. Qed.

(* ------------------------------------------------------------------ *)
(** ** The aggregator *)
(* ------------------------------------------------------------------ *)

Section AggregatorFacts.
Import Frame Aggregator.






Lemma first_of_each_key_keeps (rs acc : list Row) (x : Row) :
  In x acc ->
  In x (fold_left
          (fun reps r =>
             if existsb (fun rep => same_key (group_key rep) (group_key r)) reps
             then reps else reps ++ [r]) rs acc).
Proof.
  revert acc. induction rs as [|r rs IH]; intros acc H; cbn; [exact H|].
  apply IH. destruct (existsb _ acc); [exact H|]. apply in_or_app. now left.
Qed.








End AggregatorFacts.


(* ------------------------------------------------------------------ *)
(** ** Further properties *)
(* ------------------------------------------------------------------ *)


(** X2. [drop_duplicates(keep="last")]: a row is kept exactly when no
    later row has its key, so of the rows of one key the last one stays. *)
Theorem drop_duplicates_keeps_last (cols : list string) (rs : list Frame.Row)
  (r : Frame.Row) :
  In r (Normalize.drop_duplicate_rows cols rs)
  <-> exists before after,
        rs = before ++ r :: after
        /\ forallb (fun r' => negb (Frame.same_key (Frame.key cols r)
                                                   (Frame.key cols r')))
                   after = true.
Proof.
  induction rs as [|x rs IH]; cbn.
  - split; [tauto|]. intros (before & after & E & _). now destruct before.
  - destruct (existsb _ rs) eqn:Ex.
    + rewrite IH. split.
      * intros (before & after & -> & H). now exists (x :: before), after.
      * intros (before & after & E & H). destruct before as [|y before].
        -- cbn in E. injection E as -> ->.
           rewrite forallb_forall in H.
           apply existsb_exists in Ex as (r' & Hr' & Hs).
           specialize (H r' Hr'). rewrite Hs in H. discriminate.
        -- cbn in E. injection E as -> ->. now exists before, after.
    + cbn. rewrite IH. split.
      * intros [->|(before & after & -> & H)].
        -- exists [], rs. split; [reflexivity|].
           apply forallb_forall. intros r' Hr'.
           now rewrite (existsb_false _ _ Ex r' Hr').
        -- now exists (x :: before), after.
      * intros (before & after & E & H). destruct before as [|y before].
        -- cbn in E. injection E as -> ->. now left.
        -- cbn in E. injection E as -> ->. right. now exists before, after.
Qed.

(** X3. A batch cannot hang: while a worker is pending some worker can
    move, and every move uses up one of the finitely many turns left. *)
Theorem gather_order_books_cannot_hang {B : Builtins} (cfg : Snapshot.Config)
  (world : Snapshot.World) (slot_time : Z)
  (instruments : list (string * string)) (st : Snapshot.state) :
  1 <= Snapshot.max_concurrency cfg ->
  Snapshot.reachable cfg world slot_time instruments st ->
  Snapshot.gathered st = false ->
  (exists st', Snapshot.step cfg world slot_time instruments st st')
  /\ forall st', Snapshot.step cfg world slot_time instruments st st' ->
                 (Snapshot.measure cfg st' < Snapshot.measure cfg st)%nat.
Proof.
  intros HC Hst Hg. split.
  - apply progress; [exact HC| |exact Hg]. now apply reachable_invariant.
  - intros st'. apply step_measure.
Qed.

Lemma gather_order_books_cannot_hang_witness :
  let builtins := {| float_text := fun _ => None |} in
  let cfg := {| Snapshot.max_concurrency := 1;
                Snapshot.per_request_delay_ms := 50;
                Snapshot.max_retries := 3;
                Snapshot.retry_delay_ms := 500 |} in
  let world := {| Snapshot.fetch_order_book := fun _ _ =>
                    Raise (RuntimeError "timeout");
                  Snapshot.utc_now := fun _ _ => 63897158833500000 |} in
  let instruments := [("BTC", "BTC-27OCT25-65000-C")] in
  let st := Snapshot.init cfg instruments in
  1 <= Snapshot.max_concurrency cfg
  /\ Snapshot.gathered st = false
  /\ exists st',
       @Snapshot.step builtins cfg world 63897158820000000 instruments st st'.
Proof.
  cbv zeta. split; [cbn; lia|]. split; [reflexivity|].
  apply (@gather_order_books_cannot_hang {| float_text := fun _ => None |}).
  - cbn. lia.
  - apply Snapshot.reachable_init.
  - reflexivity.
Defined.

(* ------------------------------------------------------------------ *)
(** ** The scheduler outside the valid intervals *)
(* ------------------------------------------------------------------ *)





(* ------------------------------------------------------------------ *)
(** ** Expiry codes *)
(* ------------------------------------------------------------------ *)

Lemma digit_value_range (c : ascii) :
  Text.is_digit c = true -> 0 <= Text.digit_value c <= 9.
Proof.
  unfold Text.is_digit, Text.digit_value. intros H.
  apply andb_true_iff in H as [H1 H2].
  apply Nat.leb_le in H1, H2. lia.
Qed.

Lemma int_one_digit (c : ascii) :
  Text.is_digit c = true ->
  Text.int (String c "") = Ok (Text.digit_value c).
Proof.
  intros H. unfold Text.int, Text.chars.
  cbn [list_ascii_of_string forallb fold_left]. rewrite H.
  reflexivity.
Qed.

Lemma int_two_digits (c d : ascii) :
  Text.is_digit c = true -> Text.is_digit d = true ->
  Text.int (String c (String d ""))
  = Ok (10 * Text.digit_value c + Text.digit_value d).
Proof.
  intros Hc Hd. unfold Text.int, Text.chars.
  cbn [list_ascii_of_string forallb fold_left]. rewrite Hc, Hd.
  reflexivity.
Qed.

(** What [expiry_code] captures when it matches a whole text: the day of
    one or two digits, three upper-case letters and the two digits of the
    year. *)
Lemma expiry_code_groups (code : string) (m : Regex.captures) :
  Regex.fullmatch Snapshot.expiry_code code = Some m ->
  exists day_s mon_s year_s day yy,
    m = [("3", year_s); ("2", mon_s); ("1", day_s)]
    /\ Text.int day_s = Ok day /\ 0 <= day <= 99
    /\ Text.int year_s = Ok yy /\ 0 <= yy <= 99.
Proof.
  unfold Regex.fullmatch.
  destruct (Text.chars code)
    as [|c1 [|c2 [|c3 [|c4 [|c5 [|c6 [|c7 [|c8 l]]]]]]]]; cbn;
    repeat match goal with
           | |- context [if ?b then _ else _] => destruct b eqn:?
           end; try discriminate;
    intros E; injection E as <-;
    repeat match goal with
           | H : Text.is_digit _ = true |- _ =>
               pose proof (digit_value_range _ H); revert H
           end; intros;
    do 5 eexists;
    (split; [reflexivity|]);
    rewrite ?int_one_digit, ?int_two_digits by assumption;
    (split; [reflexivity|]); (split; [lia|]); (split; [reflexivity|lia]).
Qed.

Lemma MONTHS_range (s : string) (mon : Z) :
  Text.get Snapshot.MONTHS s = Some mon -> 1 <= mon <= 12.
Proof.
  unfold Snapshot.MONTHS. cbn [Text.get].
  repeat (destruct (String.eqb _ s); [intros E; injection E as <-; lia|]).
  discriminate.
Qed.

Lemma datetime_of_valid_month (year month day hour : Z) :
  1 <= year <= 9999 -> 1 <= month <= 12 ->
  Snapshot.datetime year month day hour
  = if (1 <=? day) && (day <=? Snapshot.days_in_month year month)
    then Ok (((Snapshot.days_before_year year
               + Snapshot.days_before_month year month + day - 1) * 86400
              + hour * 3600) * 1000000)
    else Raise (ValueError "day is out of range for month").
Proof.
  intros Hy Hm. unfold Snapshot.datetime.
  destruct (Z.leb_spec 1 year); [|lia].
  destruct (Z.leb_spec year 9999); [|lia].
  destruct (Z.leb_spec 1 month); [|lia].
  destruct (Z.leb_spec month 12); [|lia].
  cbn [andb negb].
  now destruct ((1 <=? day) && (day <=? Snapshot.days_in_month year month)).
Qed.

(** X6. [parse_expiry_code] has three outcomes and no other: [None]; a time at
    08:00:00 UTC of a calendar day of the years 2000 to 2099; or the
    [ValueError] of [datetime] for a day that the month does not have. It
    never raises [KeyError], whatever the text. *)
Theorem parse_expiry_code_outcomes (code : string) :
  Snapshot.parse_expiry_code code = Ok Frame.VNone
  \/ (exists yy mon day t,
        0 <= yy <= 99 /\ 1 <= mon <= 12
        /\ 1 <= day <= Snapshot.days_in_month (2000 + yy) mon
        /\ Snapshot.datetime (2000 + yy) mon day 8 = Ok t
        /\ Snapshot.parse_expiry_code code = Ok (Frame.VTime t)
        /\ t mod 86400000000 = 8 * 3600000000)
  \/ Snapshot.parse_expiry_code code
     = Raise (ValueError "day is out of range for month").
Proof.
  unfold Snapshot.parse_expiry_code.
  destruct (Regex.fullmatch Snapshot.expiry_code code) as [m|] eqn:Em;
    [|now left].
  destruct (expiry_code_groups _ _ Em)
    as (day_s & mon_s & year_s & day & yy & -> & Hd & Hdr & Hy & Hyr).
  change (Text.getitem [("3", year_s); ("2", mon_s); ("1", day_s)] "1")
    with (@Ok string day_s).
  change (Text.getitem [("3", year_s); ("2", mon_s); ("1", day_s)] "2")
    with (@Ok string mon_s).
  change (Text.getitem [("3", year_s); ("2", mon_s); ("1", day_s)] "3")
    with (@Ok string year_s).
  cbn [Py.bind]. rewrite Hd, Hy. cbn [Py.bind].
  destruct (Text.get Snapshot.MONTHS (Text.upper mon_s)) as [mon|] eqn:Emon;
    [|now left].
  pose proof (MONTHS_range _ _ Emon) as Hmon.
  pose proof (datetime_of_valid_month (2000 + yy) mon day 8
                ltac:(lia) Hmon) as Edt.
  destruct ((1 <=? day) && (day <=? Snapshot.days_in_month (2000 + yy) mon))
    eqn:Hday; rewrite Edt; cbn [Py.bind]; [|now right; right].
  apply andb_true_iff in Hday as [Hd1 Hd2].
  apply Z.leb_le in Hd1, Hd2.
  right. left. exists yy, mon, day. eexists.
  split; [exact Hyr|]. split; [exact Hmon|]. split; [lia|].
  split; [exact Edt|]. split; [reflexivity|].
  set (ordinal := _ + _ + day - 1). clearbody ordinal.
  replace ((ordinal * 86400 + 8 * 3600) * 1000000)
    with (8 * 3600000000 + ordinal * 86400000000) by lia.
  rewrite Z.mod_add by lia. reflexivity.
Qed.

(* ------------------------------------------------------------------ *)
(** ** The record of a ticker *)
(* ------------------------------------------------------------------ *)

Lemma mapM_length {A B : Type} (f : A -> result B) (l : list A) (ys : list B) :
  Py.mapM f l = Ok ys -> List.length ys = List.length l.
Proof.
  revert ys. induction l as [|x l IH]; intros ys H; cbn in H.
  - now injection H as <-.
  - apply bind_ok in H as (y & _ & H). apply bind_ok in H as (ys' & E & H).
    injection H as <-. cbn. now rewrite (IH _ E).
Qed.

(** The record [make_row] builds. *)
Lemma make_row_record {B : Builtins} (slot_time : Z) (underlying instrument : string)
  (ob : list (string * Frame.value)) (now : Z) (row : Frame.Row) :
  Snapshot.make_row slot_time underlying instrument ob now = Ok row ->
  exists best_bid best_ask mid expiry_dt strike opt_type delta gamma vega theta rho,
    Text.get ob "best_bid_price" = Some best_bid
    /\ Text.get ob "best_ask_price" = Some best_ask
    /\ (if negb (Snapshot.is_none best_bid) && negb (Snapshot.is_none best_ask)
        then s <- Snapshot.py_add best_bid best_ask ;;
             Snapshot.py_truediv s (F64.of_Z 2)
        else Ok Frame.VNone) = Ok mid
    /\ row = [("slot_time_utc", Frame.VTime slot_time);
              ("timestamp_utc", Frame.VTime now);
              ("underlying", Frame.VStr underlying);
              ("instrument_name", Frame.VStr instrument);
              ("expiry_utc", expiry_dt);
              ("strike", strike);
              ("option_type", opt_type);
              ("bid", best_bid);
              ("ask", best_ask);
              ("mid", mid);
              ("iv", Snapshot.dict_get ob "mark_iv");
              ("delta", delta); ("gamma", gamma); ("vega", vega);
              ("theta", theta); ("rho", rho);
              ("index_price", Snapshot.dict_get ob "index_price");
              ("underlying_price", Snapshot.dict_get ob "underlying_price")].
Proof.
  unfold Snapshot.make_row, Text.getitem. intros H.
  destruct (Text.get ob "best_bid_price") as [best_bid|]; [|discriminate].
  destruct (Text.get ob "best_ask_price") as [best_ask|]; [|discriminate].
  cbn [Py.bind] in H.
  apply bind_ok in H as (mid & Emid & H).
  apply bind_ok in H as ([[expiry_dt strike] opt_type] & _ & H).
  apply bind_ok in H as (gs & Egs & H).
  assert (Hlen : List.length gs = 5%nat).
  { destruct (Snapshot.is_none (Snapshot.dict_get ob "greeks")).
    - now injection Egs as <-.
    - now apply mapM_length in Egs. }
  destruct gs as [|delta [|gamma [|vega [|theta [|rho [|x gs]]]]]];
    try discriminate.
  injection H as <-.
  exists best_bid, best_ask, mid, expiry_dt, strike, opt_type,
    delta, gamma, vega, theta, rho.
  repeat split; try reflexivity. exact Emid.
Qed.

(** X7. Whenever [make_row] returns, the record has the eighteen fields of a
    raw snapshot in their fixed order; it carries the slot time, the clock
    reading, the underlying and the instrument it was given, the best bid
    and ask of the response, and as [mid] half their sum in float
    arithmetic, or [None] when one of them is [None]. *)
Theorem make_row_columns {B : Builtins} (slot_time : Z)
  (underlying instrument : string) (ob : list (string * Frame.value))
  (now : Z) (row : Frame.Row) :
  Snapshot.make_row slot_time underlying instrument ob now = Ok row ->
  map fst row
  = ["slot_time_utc"; "timestamp_utc"; "underlying"; "instrument_name";
     "expiry_utc"; "strike"; "option_type"; "bid"; "ask"; "mid"; "iv";
     "delta"; "gamma"; "vega"; "theta"; "rho"; "index_price";
     "underlying_price"]
  /\ Frame.cell "slot_time_utc" row = Frame.VTime slot_time
  /\ Frame.cell "timestamp_utc" row = Frame.VTime now
  /\ Frame.cell "underlying" row = Frame.VStr underlying
  /\ Frame.cell "instrument_name" row = Frame.VStr instrument
  /\ Text.get ob "best_bid_price" = Some (Frame.cell "bid" row)
  /\ Text.get ob "best_ask_price" = Some (Frame.cell "ask" row)
  /\ (Snapshot.is_none (Frame.cell "bid" row)
      || Snapshot.is_none (Frame.cell "ask" row) = true ->
      Frame.cell "mid" row = Frame.VNone)
  /\ (forall x y,
        Frame.cell "bid" row = Frame.VNum x ->
        Frame.cell "ask" row = Frame.VNum y ->
        Frame.cell "mid" row
        = Frame.VNum (F64.div (F64.add x y) (F64.of_Z 2))).
Proof.
  intros H.
  destruct (make_row_record _ _ _ _ _ _ H)
    as (best_bid & best_ask & mid & expiry_dt & strike & opt_type
        & delta & gamma & vega & theta & rho & Hb & Ha & Hmid & ->).
  change (Frame.cell "bid" _) with best_bid.
  change (Frame.cell "ask" _) with best_ask.
  change (Frame.cell "mid" _) with mid.
  repeat (split; [reflexivity|]).
  split; [exact Hb|]. split; [exact Ha|]. split.
  - intros Hn. destruct (Snapshot.is_none best_bid); cbn in *.
    + now injection Hmid as <-.
    + rewrite Hn in Hmid. cbn in Hmid. now injection Hmid as <-.
  - intros x y -> ->. cbn in Hmid. now injection Hmid as <-.
Qed.

(** The ticker of an option with bid 10 and ask 12: the record has the
    eighteen fields and the mid 11. *)
Lemma make_row_columns_witness :
  let builtins := {| float_text := fun s =>
                       match Instrument.float_of_strike s with
                       | Ok x => Some x
                       | Raise _ => None
                       end |} in
  let ticker := [("best_bid_price", Frame.VNum (F64.of_Z 10));
                 ("best_ask_price", Frame.VNum (F64.of_Z 12));
                 ("mark_iv", Frame.VNum (F64.of_Z 50))] in
  exists row,
    @Snapshot.make_row builtins 63897158820000000 "BTC" "BTC-27OCT25-65000-C"
      ticker 63897158833500000 = Ok row
    /\ map fst row
       = ["slot_time_utc"; "timestamp_utc"; "underlying"; "instrument_name";
          "expiry_utc"; "strike"; "option_type"; "bid"; "ask"; "mid"; "iv";
          "delta"; "gamma"; "vega"; "theta"; "rho"; "index_price";
          "underlying_price"]
    /\ Frame.cell "mid" row = Frame.VNum (F64.of_Z 11).
Proof.
  cbv zeta.
  set (builtins := {| float_text := _ |}).
  set (ticker := [_; _; _]).
  destruct (@Snapshot.make_row builtins 63897158820000000 "BTC"
              "BTC-27OCT25-65000-C" ticker 63897158833500000)
    as [row|] eqn:E; [|vm_compute in E; discriminate].
  exists row. split; [reflexivity|].
  destruct (@make_row_columns builtins _ _ _ _ _ _ E)
    as (Hcols & _ & _ & _ & _ & _ & _ & _ & Hmid).
  split; [exact Hcols|].
  rewrite (Hmid (F64.of_Z 10) (F64.of_Z 12)).
  - vm_compute. reflexivity.
  - vm_compute in E. injection E as <-. reflexivity.
  - vm_compute in E. injection E as <-. reflexivity.
Defined.

(* ------------------------------------------------------------------ *)
(** ** The batch: semaphore, retries and rows *)
(* ------------------------------------------------------------------ *)

Section BatchBounds.
Import Frame Snapshot.
Context {B : Builtins}.
Variable cfg : Config.
Variable world : World.
Variable slot_time : Z.
Variable instruments : list (string * string).

Local Abbreviation attempt := (attempt world slot_time instruments).
Local Abbreviation step_task := (step_task cfg world slot_time instruments).
Local Abbreviation step := (step cfg world slot_time instruments).
Local Abbreviation reachable := (reachable cfg world slot_time instruments).

(** The semaphore never goes below zero. *)
Lemma sem_value_nonneg (st : state) :
  0 <= max_concurrency cfg -> reachable st -> 0 <= sem_value st.
Proof.
  intros Hc. induction 1 as [|st st' _ IH Hstep]; [exact Hc|].
  destruct Hstep as [k st st' Hk]. unfold Snapshot.step_task in Hk.
  destruct (nth_error (tasks st) k) as [[|rc|]|]; try discriminate.
  - destruct (0 <? sem_value st) eqn:Hs; [|discriminate].
    apply Z.ltb_lt in Hs. injection Hk as <-. cbn. lia.
  - destruct (rc <? max_retries cfg); [destruct (attempt k rc)|];
      injection Hk as <-; cbn; lia.
Qed.

(** With a semaphore of zero no worker ever moves. *)
Lemma run_blocked (schedule : list nat) :
  max_concurrency cfg = 0 ->
  run cfg world slot_time instruments schedule (init cfg instruments)
  = init cfg instruments.
Proof.
  intros Hc. induction schedule as [|i schedule IH]; [reflexivity|].
  cbn [run fold_left].
  assert (E : step_task i (init cfg instruments) = None).
  { unfold Snapshot.step_task, init. cbn [tasks sem_value]. rewrite Hc.
    destruct (nth_error _ i) as [t|] eqn:Et; [|reflexivity].
    apply nth_error_In, in_map_iff in Et as (_ & <- & _). reflexivity. }
  rewrite E. exact IH.
Qed.

(** No row is appended when no attempt is allowed. *)
Lemma rows_without_retries (st : state) :
  max_retries cfg <= 0 -> reachable st -> rows st = [].
Proof.
  intros HR. induction 1 as [|st st' Hst IH Hstep]; [reflexivity|].
  destruct (reachable_invariant _ _ _ _ _ Hst) as (Hw & _ & _).
  destruct Hstep as [k st st' Hk]. unfold Snapshot.step_task in Hk.
  destruct (nth_error (tasks st) k) as [[|rc|]|] eqn:Ek; try discriminate.
  - destruct (0 <? sem_value st); [|discriminate]. now injection Hk as <-.
  - destruct (Hw k _ Ek) as (Hrc & _).
    destruct (Z.ltb_spec rc (max_retries cfg)); [lia|].
    now injection Hk as <-.
Qed.

(** Every row was built by an attempt of the worker that appended it. *)
Lemma rows_built (st : state) :
  reachable st ->
  forall i row, In (i, row) (rows st) -> exists rc, attempt i rc = Ok row.
Proof.
  induction 1 as [|st st' _ IH Hstep]; [intros i row []|].
  destruct Hstep as [k st st' Hk]. unfold Snapshot.step_task in Hk.
  destruct (nth_error (tasks st) k) as [[|rc|]|]; try discriminate.
  - destruct (0 <? sem_value st); [|discriminate]. now injection Hk as <-.
  - destruct (rc <? max_retries cfg);
      [destruct (attempt k rc) as [row'|e] eqn:Ea|];
      injection Hk as <-; cbn [rows]; try exact IH.
    intros i row Hin. apply in_app_or in Hin as [Hin|[E|[]]].
    + now apply IH.
    + injection E as <- <-. now exists rc.
Qed.




(** The first attempt of worker [i] that succeeds, within the retries. *)
Local Abbreviation first_success i row :=
  (exists rc,
      0 <= rc < max_retries cfg
      /\ (forall j, 0 <= j < rc -> exists e, attempt i j = Raise e)
      /\ attempt i rc = Ok row).






End BatchBounds.

(** What a gathered batch returns: the rows of a reachable state in which
    every worker has finished. *)
Lemma gather_order_books_state {B : Builtins} (cfg : Snapshot.Config)
  (world : Snapshot.World) (now : Z) (instruments : list (string * string))
  (schedule : list nat) (rows : list Frame.Row) :
  Snapshot.gather_order_books cfg world now instruments schedule = Some (Ok rows) ->
  exists st,
    Snapshot.reachable cfg world
      (Scheduler.replace_second0_microsecond0 now) instruments st
    /\ Snapshot.gathered st = true
    /\ rows = map snd (Snapshot.rows st).
Proof.
  unfold Snapshot.gather_order_books.
  destruct (Snapshot.max_concurrency cfg <? 0); [discriminate|].
  set (st := Snapshot.run _ _ _ _ _ _).
  destruct (Snapshot.gathered st) eqn:Hg; [|discriminate].
  intros H. injection H as <-. exists st.
  split; [|now split]. apply run_reachable. apply Snapshot.reachable_init.
Qed.

(** X8. The semaphore bounds the requests in flight: with a semaphore of
    [max_concurrency >= 0], in every state a batch can reach the semaphore
    is not negative and at most [max_concurrency] workers are inside it. *)
Theorem gather_order_books_concurrency_bound {B : Builtins}
  (cfg : Snapshot.Config) (world : Snapshot.World) (slot_time : Z)
  (instruments : list (string * string)) (st : Snapshot.state) :
  0 <= Snapshot.max_concurrency cfg ->
  Snapshot.reachable cfg world slot_time instruments st ->
  0 <= Snapshot.sem_value st
  /\ Snapshot.running (Snapshot.tasks st) <= Snapshot.max_concurrency cfg
  /\ Snapshot.sem_value st + Snapshot.running (Snapshot.tasks st)
     = Snapshot.max_concurrency cfg.
Proof.
  intros Hc Hst.
  pose proof (sem_value_nonneg cfg world slot_time instruments st Hc Hst) as Hs.
  destruct (reachable_invariant _ _ _ _ _ Hst) as (_ & _ & Hsem).
  repeat split; [exact Hs|lia|exact Hsem].
Qed.

(** Three workers under a semaphore of two, each resumed once: two are
    inside the semaphore and the third waits. *)
Lemma gather_order_books_concurrency_bound_witness :
  let builtins := {| float_text := fun _ => None |} in
  let cfg := {| Snapshot.max_concurrency := 2;
                Snapshot.per_request_delay_ms := 50;
                Snapshot.max_retries := 3;
                Snapshot.retry_delay_ms := 500 |} in
  let world := {| Snapshot.fetch_order_book := fun _ _ =>
                    Raise (RuntimeError "timeout");
                  Snapshot.utc_now := fun _ _ => 63897158833500000 |} in
  let instruments := [("BTC", "BTC-27OCT25-65000-C");
                      ("BTC", "BTC-27OCT25-70000-C");
                      ("ETH", "ETH-27OCT25-4000-P")] in
  let st := @Snapshot.run builtins cfg world 63897158820000000 instruments
              [0; 1; 2]%nat (Snapshot.init cfg instruments) in
  Snapshot.tasks st
  = [Snapshot.Running 0; Snapshot.Running 0; Snapshot.Waiting]
  /\ 0 <= Snapshot.sem_value st
  /\ Snapshot.running (Snapshot.tasks st) <= Snapshot.max_concurrency cfg
  /\ Snapshot.sem_value st + Snapshot.running (Snapshot.tasks st)
     = Snapshot.max_concurrency cfg.
Proof.
  cbv zeta. split; [reflexivity|].
  eapply (@gather_order_books_concurrency_bound {| float_text := fun _ => None |}).
  - cbn. lia.
  - apply run_reachable. apply Snapshot.reachable_init.
Defined.

(** X9. A semaphore of zero blocks the batch for ever: with
    [max_concurrency = 0] and at least one instrument no worker ever
    enters the semaphore, and [gather_order_books] returns under no
    schedule. *)
Theorem gather_order_books_no_permit {B : Builtins} (cfg : Snapshot.Config)
  (world : Snapshot.World) (now : Z) (instruments : list (string * string))
  (schedule : list nat) :
  Snapshot.max_concurrency cfg = 0 ->
  instruments <> [] ->
  Snapshot.gather_order_books cfg world now instruments schedule = None.
Proof.
  intros Hc Hne. unfold Snapshot.gather_order_books.
  rewrite Hc. cbn [Z.ltb Z.compare].
  rewrite run_blocked by exact Hc.
  destruct instruments as [|x l]; [contradiction|reflexivity].
Qed.

Lemma gather_order_books_no_permit_witness :
  let builtins := {| float_text := fun _ => None |} in
  let cfg := {| Snapshot.max_concurrency := 0;
                Snapshot.per_request_delay_ms := 50;
                Snapshot.max_retries := 3;
                Snapshot.retry_delay_ms := 500 |} in
  let world := {| Snapshot.fetch_order_book := fun _ _ => Ok [];
                  Snapshot.utc_now := fun _ _ => 63897158833500000 |} in
  Snapshot.max_concurrency cfg = 0
  /\ [("BTC", "BTC-27OCT25-65000-C")] <> []
  /\ @Snapshot.gather_order_books builtins cfg world 63897158833500000
       [("BTC", "BTC-27OCT25-65000-C")] [0; 0; 0; 0]%nat = None.
Proof.
  cbv zeta. split; [reflexivity|]. split; [discriminate|].
  apply (@gather_order_books_no_permit {| float_text := fun _ => None |});
    [reflexivity|discriminate].
Defined.

(** X10. Without retries there is no attempt: with [max_retries <= 0] every
    worker leaves its loop at once, and the batch returns the empty list
    whatever the exchange would have answered. *)
Theorem gather_order_books_no_retries {B : Builtins} (cfg : Snapshot.Config)
  (world : Snapshot.World) (now : Z) (instruments : list (string * string)) :
  1 <= Snapshot.max_concurrency cfg ->
  Snapshot.max_retries cfg <= 0 ->
  (exists schedule,
      Snapshot.gather_order_books cfg world now instruments schedule
      = Some (Ok []))
  /\ forall schedule res,
       Snapshot.gather_order_books cfg world now instruments schedule = Some res ->
       res = Ok [].
Proof.
  intros HC HR.
  assert (Hneg : (Snapshot.max_concurrency cfg <? 0) = false)
    by (apply Z.ltb_ge; lia).
  assert (Hall : forall schedule res,
             Snapshot.gather_order_books cfg world now instruments schedule
             = Some res -> res = Ok []).
  { intros schedule res. unfold Snapshot.gather_order_books. rewrite Hneg.
    set (st := Snapshot.run _ _ _ _ _ _).
    destruct (Snapshot.gathered st); [|discriminate].
    intros H. injection H as <-.
    rewrite (rows_without_retries cfg world
               (Scheduler.replace_second0_microsecond0 now) instruments st HR);
      [reflexivity|].
    apply run_reachable. apply Snapshot.reachable_init. }
  split; [|exact Hall].
  destruct (schedule_exists cfg world
              (Scheduler.replace_second0_microsecond0 now) instruments _ _ HC
              (Snapshot.reachable_init _ _ _ _) (Nat.le_refl _))
    as (schedule & Hs).
  exists schedule.
  destruct (Snapshot.gather_order_books cfg world now instruments schedule)
    as [res|] eqn:E.
  - now rewrite (Hall _ _ E).
  - unfold Snapshot.gather_order_books in E. rewrite Hneg, Hs in E.
    discriminate.
Qed.

Lemma gather_order_books_no_retries_witness :
  let builtins := {| float_text := fun _ => None |} in
  let cfg := {| Snapshot.max_concurrency := 1;
                Snapshot.per_request_delay_ms := 50;
                Snapshot.max_retries := 0;
                Snapshot.retry_delay_ms := 500 |} in
  let world := {| Snapshot.fetch_order_book := fun _ _ =>
                    Ok [("best_bid_price", Frame.VNum (F64.of_Z 10));
                        ("best_ask_price", Frame.VNum (F64.of_Z 12))];
                  Snapshot.utc_now := fun _ _ => 63897158833500000 |} in
  1 <= Snapshot.max_concurrency cfg
  /\ Snapshot.max_retries cfg <= 0
  /\ @Snapshot.gather_order_books builtins cfg world 63897158833500000
       [("BTC", "BTC-27OCT25-65000-C")] [0; 0]%nat = Some (Ok []).
Proof.
  cbv zeta. split; [cbn; lia|]. split; [cbn; lia|].
  set (builtins := {| float_text := _ |}).
  set (cfg := {| Snapshot.max_concurrency := _ |}).
  set (world := {| Snapshot.fetch_order_book := _ |}).
  destruct (@Snapshot.gather_order_books builtins cfg world 63897158833500000
              [("BTC", "BTC-27OCT25-65000-C")] [0; 0]%nat) as [res|] eqn:E;
    [|vm_compute in E; discriminate].
  f_equal.
  exact (proj2 (@gather_order_books_no_retries builtins cfg world
                  63897158833500000 [("BTC", "BTC-27OCT25-65000-C")]
                  ltac:(cbn; lia) ltac:(cbn; lia)) _ _ E).
Defined.





(** A name whose expiry code [datetime] refuses cannot be made a row. *)
Lemma make_row_invalid_expiry {B : Builtins} (slot_time : Z)
  (underlying instrument : string) (ob : list (string * Frame.value))
  (now : Z) (p0 p1 p2 p3 : string) (rest : list string) (e : exn) :
  Text.split "-"%char instrument = p0 :: p1 :: p2 :: p3 :: rest ->
  Snapshot.parse_expiry_code p1 = Raise e ->
  exists e', Snapshot.make_row slot_time underlying instrument ob now = Raise e'.
Proof.
  intros Hsplit Hcode. unfold Snapshot.make_row.
  destruct (Text.getitem ob "best_bid_price") as [bid|e1]; [|now exists e1].
  destruct (Text.getitem ob "best_ask_price") as [ask|e2]; [|now exists e2].
  cbn [Py.bind].
  destruct (if negb (Snapshot.is_none bid) && negb (Snapshot.is_none ask)
            then _ else _) as [mid|e3]; [|now exists e3].
  cbn [Py.bind]. rewrite Hsplit, Hcode. now exists e.
Qed.

(** X13. An instrument whose name has four parts and an expiry code that
    [parse_expiry_code] refuses with an exception (a day the month does not
    have) never has a row: no row of any batch carries its name, whatever
    the exchange answers and however often it is retried. *)
Theorem gather_order_books_invalid_expiry {B : Builtins} (cfg : Snapshot.Config)
  (world : Snapshot.World) (now : Z) (instruments : list (string * string))
  (schedule : list nat) (rows : list Frame.Row)
  (inst p0 p1 p2 p3 : string) (rest : list string) (e : exn) :
  Text.split "-"%char inst = p0 :: p1 :: p2 :: p3 :: rest ->
  Snapshot.parse_expiry_code p1 = Raise e ->
  Snapshot.gather_order_books cfg world now instruments schedule = Some (Ok rows) ->
  forall row, In row rows -> Frame.cell "instrument_name" row <> Frame.VStr inst.
Proof.
  intros Hsplit Hcode H row Hin Hname.
  destruct (gather_order_books_state _ _ _ _ _ _ H) as (st & Hst & Hg & ->).
  apply in_map_iff in Hin as ([i row'] & <- & Hin). cbn [snd] in Hname.
  destruct (rows_built cfg world _ instruments st Hst _ _ Hin) as (rc & Ha).
  unfold Snapshot.attempt in Ha.
  destruct (nth_error instruments i) as [[under inst']|]; [|discriminate].
  apply bind_ok in Ha as (ob & _ & Ha).
  pose proof Ha as Hrec.
  destruct (make_row_record _ _ _ _ _ _ Hrec)
    as (? & ? & ? & ? & ? & ? & ? & ? & ? & ? & ? & _ & _ & _ & ->).
  cbn in Hname. injection Hname as ->.
  destruct (make_row_invalid_expiry
              (Scheduler.replace_second0_microsecond0 now) under inst ob
              (Snapshot.utc_now world i rc) _ _ _ _ _ _ Hsplit Hcode)
    as (e' & He').
  congruence.
Qed.

(** The thirty-first of February: the ticker is fetched, and the batch
    returns without a row. *)
Lemma gather_order_books_invalid_expiry_witness :
  let builtins := {| float_text := fun _ => None |} in
  let cfg := {| Snapshot.max_concurrency := 1;
                Snapshot.per_request_delay_ms := 50;
                Snapshot.max_retries := 2;
                Snapshot.retry_delay_ms := 500 |} in
  let world := {| Snapshot.fetch_order_book := fun _ _ =>
                    Ok [("best_bid_price", Frame.VNum (F64.of_Z 10));
                        ("best_ask_price", Frame.VNum (F64.of_Z 12))];
                  Snapshot.utc_now := fun _ _ => 63897158833500000 |} in
  let instruments := [("BTC", "BTC-31FEB25-65000-C"); ("BTC", "BTC-PERPETUAL")] in
  Snapshot.parse_expiry_code "31FEB25"
  = Raise (ValueError "day is out of range for month")
  /\ exists rows,
       @Snapshot.gather_order_books builtins cfg world 63897158833500000
         instruments (Snapshot.sequential cfg 2) = Some (Ok rows)
       /\ List.length rows = 1%nat
       /\ forall row, In row rows ->
            Frame.cell "instrument_name" row <> Frame.VStr "BTC-31FEB25-65000-C".
Proof.
  cbv zeta. split; [vm_compute; reflexivity|].
  set (builtins := {| float_text := _ |}).
  set (cfg := {| Snapshot.max_concurrency := _ |}).
  set (world := {| Snapshot.fetch_order_book := _ |}).
  set (instruments := [_; _]).
  destruct (@Snapshot.gather_order_books builtins cfg world 63897158833500000
              instruments (Snapshot.sequential cfg 2)) as [[rows|e]|] eqn:E;
    [|vm_compute in E; discriminate|vm_compute in E; discriminate].
  exists rows. split; [reflexivity|].
  split; [vm_compute in E; injection E as <-; reflexivity|].
  apply (@gather_order_books_invalid_expiry builtins cfg world
           63897158833500000 instruments _ rows "BTC-31FEB25-65000-C"
           "BTC" "31FEB25" "65000" "C" [] _ eq_refl
           ltac:(vm_compute; reflexivity) E).
Defined.

(* ------------------------------------------------------------------ *)
(** ** The rows of a smile frame *)
(* ------------------------------------------------------------------ *)

Section SmileFacts.
Import Frame Aggregator.

(** Sorting permutes the rows. *)
Lemma insert_sorted_Permutation (cols : list string) (r : Row)
  (sorted l : list Row) :
  insert_sorted cols r sorted = Ok l -> Permutation (r :: sorted) l.
Proof.
  revert l. induction sorted as [|r' rest IH]; intros l H; cbn in H.
  - now injection H as <-.
  - apply bind_ok in H as (c & _ & H). destruct c.
    + now injection H as <-.
    + now injection H as <-.
    + apply bind_ok in H as (rest' & E & H). injection H as <-.
      rewrite perm_swap. apply perm_skip. now apply IH.
Qed.

Lemma sort_rows_Permutation (cols : list string) (rs l : list Row) :
  sort_rows cols rs = Ok l -> Permutation rs l.
Proof.
  revert l. induction rs as [|r rs IH]; intros l H; cbn in H.
  - now injection H as <-.
  - apply bind_ok in H as (sorted & E & H).
    rewrite (IH _ E). now apply (insert_sorted_Permutation cols).
Qed.

(** Being the same key does not depend on the side. *)
Lemma same_value_sym (a b : value) : same_value a b = same_value b a.
Proof.
  unfold same_value.
  destruct (isna a) eqn:Ha, (isna b) eqn:Hb; try reflexivity.
  assert (Hf : forall x y, F64.eqb x y = F64.eqb y x).
  { intros x y. unfold F64.eqb, SFeqb.
    destruct (SFcompare x y) as [c|] eqn:E.
    - rewrite (SFcompare_antisym _ _ _ E). now destruct c.
    - destruct (SFcompare y x) as [c|] eqn:E'; [|reflexivity].
      rewrite (SFcompare_antisym _ _ _ E') in E. discriminate. }
  destruct a as [|x|x|s|x|t|d], b as [|y|y|s'|y|t'|d']; cbn; try reflexivity;
    try apply Hf.
  - apply Z.eqb_sym.
  - apply String.eqb_sym.
  - now destruct x, y.
  - apply Z.eqb_sym.
Qed.

Lemma same_key_sym (a b : list value) : same_key a b = same_key b a.
Proof.
  revert b. induction a as [|x a IH]; intros [|y b]; cbn; try reflexivity.
  now rewrite same_value_sym, IH.
Qed.

(** No two rows of the list have the same group key. *)
Local Abbreviation distinct_keys l :=
  (ForallOrdPairs
     (fun a b : Row => same_key (group_key a) (group_key b) = false) l).

Lemma distinct_keys_app (l : list Row) (r : Row) :
  distinct_keys l ->
  existsb (fun rep => same_key (group_key rep) (group_key r)) l = false ->
  distinct_keys (l ++ [r]).
Proof.
  intros Hl Hr. induction Hl as [|a l Ha Hl IH]; cbn.
  - constructor; constructor.
  - cbn in Hr. apply orb_false_iff in Hr as [Har Hr]. constructor.
    + apply Forall_app. split; [exact Ha|]. now constructor.
    + now apply IH.
Qed.

Lemma first_of_each_key_distinct (rs : list Row) :
  distinct_keys (first_of_each_key rs).
Proof.
  unfold first_of_each_key.
  assert (H : forall acc, distinct_keys acc ->
            distinct_keys
              (fold_left
                 (fun reps r =>
                    if existsb (fun rep => same_key (group_key rep) (group_key r))
                         reps
                    then reps else reps ++ [r]) rs acc)).
  { induction rs as [|r rs IH]; intros acc Hacc; cbn; [exact Hacc|].
    apply IH.
    destruct (existsb _ acc) eqn:E; [exact Hacc|].
    now apply distinct_keys_app. }
  apply H. constructor.
Qed.

Lemma distinct_keys_Permutation (l l' : list Row) :
  Permutation l l' -> distinct_keys l -> distinct_keys l'.
Proof.
  induction 1 as [|x l l' Hp IH|x y l|l l' l'' _ IH1 _ IH2]; intros H.
  - exact H.
  - inversion H as [|? ? Hx Hl]; subst. constructor.
    + rewrite Forall_forall in *. intros b Hb. apply Hx.
      exact (Permutation_in b (Permutation_sym Hp) Hb).
    + now apply IH.
  - inversion H as [|? ? Hy Hl]; subst.
    inversion Hl as [|? ? Hx Hl']; subst.
    inversion Hy as [|? ? Hyx Hy']; subst.
    constructor; [constructor|constructor]; try assumption.
    now rewrite same_key_sym.
  - auto.
Qed.

Lemma distinct_keys_map (f : Row -> Row) (l : list Row) :
  (forall r, group_key (f r) = group_key r) ->
  distinct_keys l -> distinct_keys (map f l).
Proof.
  intros Hf. induction 1 as [|a l Ha Hl IH]; cbn [map]; constructor.
  - rewrite Forall_forall in *. intros b Hb.
    apply in_map_iff in Hb as (b' & <- & Hb'). rewrite !Hf.
    now apply Ha.
  - exact IH.
Qed.

(** The representatives: at least one for a frame with rows, never more
    than there are rows. *)
Lemma first_of_each_key_length (rs : list Row) :
  (List.length (first_of_each_key rs) <= List.length rs)%nat
  /\ (rs <> [] -> first_of_each_key rs <> []).
Proof.
  unfold first_of_each_key.
  set (f := fun (reps : list Row) (r : Row) =>
              if existsb (fun rep => same_key (group_key rep) (group_key r)) reps
              then reps else reps ++ [r]).
  assert (H : forall acc,
            (List.length (fold_left f rs acc)
             <= List.length acc + List.length rs)%nat).
  { induction rs as [|r rs IH]; intros acc; cbn [fold_left List.length]; [lia|].
    specialize (IH (f acc r)).
    assert (List.length (f acc r) <= S (List.length acc))%nat.
    { unfold f. destruct (existsb _ acc); [lia|].
      rewrite length_app. cbn. lia. }
    lia. }
  split.
  - specialize (H []). cbn in H. lia.
  - destruct rs as [|r rs]; [contradiction|]. intros _.
    cbn [fold_left]. change (f [] r) with [r].
    pose proof (first_of_each_key_keeps rs [r] r (or_introl eq_refl)) as Hin.
    fold f in Hin. intros E. rewrite E in Hin. destruct Hin.
Qed.

(** The frame [build_smiles] returns for a frame with rows. *)
Lemma build_smiles_frame (df out : DataFrame) :
  empty df = false ->
  build_smiles df = Ok out ->
  exists reps agg slot0,
    sort_rows group_keys (first_of_each_key (rows df)) = Ok reps
    /\ Py.mapM (aggregate (rows df)) reps = Ok agg
    /\ out = {| columns := "slot_time_utc" :: group_keys ++ map fst aggregations;
                rows := map (fun r => ("slot_time_utc", slot0) :: r) agg |}.
Proof.
  intros He H. unfold build_smiles in H. rewrite He in H.
  apply bind_ok in H as (_ & _ & H).
  apply bind_ok in H as (_ & _ & H).
  apply bind_ok in H as (reps & E1 & H).
  apply bind_ok in H as (agg & E2 & H).
  apply bind_ok in H as ([|slot0 slot] & _ & H); [discriminate|].
  injection H as <-. now exists reps, agg, slot0.
Qed.

Lemma mapM_Forall2 {A B : Type} (f : A -> result B) (l : list A) (ys : list B) :
  Py.mapM f l = Ok ys -> Forall2 (fun x y => f x = Ok y) l ys.
Proof.
  revert ys. induction l as [|x l IH]; intros ys H; cbn in H.
  - injection H as <-. constructor.
  - apply bind_ok in H as (y & Ey & H). apply bind_ok in H as (ys' & E & H).
    injection H as <-. constructor; [exact Ey|now apply IH].
Qed.

(** The key of an output record is the key of its group. *)
Lemma aggregate_key (rs : list Row) (rep r : Row) (slot0 : value) :
  aggregate rs rep = Ok r ->
  group_key (("slot_time_utc", slot0) :: r) = group_key rep.
Proof.
  unfold aggregate. intros H. apply bind_ok in H as (cells & _ & H).
  injection H as <-. reflexivity.
Qed.

Lemma distinct_keys_aggregate (rs : list Row) (slot0 : value)
  (reps agg : list Row) :
  Forall2 (fun rep r => aggregate rs rep = Ok r) reps agg ->
  distinct_keys reps ->
  distinct_keys (map (fun r => ("slot_time_utc", slot0) :: r) agg).
Proof.
  assert (Hhead : forall k reps agg,
            Forall2 (fun rep r => aggregate rs rep = Ok r) reps agg ->
            Forall (fun b => same_key k (group_key b) = false) reps ->
            Forall (fun b => same_key k (group_key b) = false)
                   (map (fun r => ("slot_time_utc", slot0) :: r) agg)).
  { intros k reps0 agg0 H2. induction H2 as [|rep r reps0 agg0 Hr _ IH];
      intros Hall; cbn [map]; constructor.
    - rewrite (aggregate_key _ _ _ _ Hr). now inversion Hall.
    - apply IH. now inversion Hall. }
  induction 1 as [|rep r reps agg Hr Htl IH]; intros Hd; cbn [map];
    [constructor|].
  inversion Hd as [|? ? Hh Ht]; subst. constructor.
  - rewrite (aggregate_key _ _ _ _ Hr). now apply (Hhead _ reps).
  - now apply IH.
Qed.

End SmileFacts.

(** X14. [build_smiles] returns one row per key and no more: on a frame with
    rows it returns a frame with rows (so the branch of [write_outputs]
    for an empty smile frame is never taken after a snapshot with rows),
    never more rows than it was given, and no two rows of the result have
    the same (underlying, expiry, option type, strike). *)
Theorem build_smiles_one_row_per_key (df out : Frame.DataFrame) :
  Frame.empty df = false ->
  Aggregator.build_smiles df = Ok out ->
  Frame.empty out = false
  /\ (1 <= List.length (Frame.rows out) <= List.length (Frame.rows df))%nat
  /\ ForallOrdPairs
       (fun a b : Frame.Row =>
          Frame.same_key (Aggregator.group_key a) (Aggregator.group_key b)
          = false)
       (Frame.rows out).
Proof.
  intros He H.
  destruct (build_smiles_frame df out He H) as (reps & agg & slot0 & E1 & E2 & ->).
  pose proof (sort_rows_Permutation _ _ _ E1) as Hperm.
  pose proof (Permutation_length Hperm) as Hlen.
  pose proof (mapM_length _ _ _ E2) as Hagg.
  destruct (first_of_each_key_length (Frame.rows df)) as [Hle Hne].
  assert (Hrows : Frame.rows df <> []).
  { unfold Frame.empty in He. destruct (Frame.rows df); [|discriminate].
    now destruct (Frame.columns df). }
  specialize (Hne Hrows).
  assert (Hpos : (1 <= List.length reps)%nat).
  { rewrite <- Hlen. destruct (Aggregator.first_of_each_key _);
      [contradiction|cbn; lia]. }
  cbn [Frame.rows]. rewrite length_map.
  split; [|split].
  2:{ split.
      - eapply Nat.le_trans; [exact Hpos|].
        apply Nat.eq_le_incl. symmetry. exact Hagg.
      - eapply Nat.le_trans; [apply Nat.eq_le_incl; exact Hagg|].
        eapply Nat.le_trans; [apply Nat.eq_le_incl; symmetry; exact Hlen|].
        exact Hle. }
  - unfold Frame.empty. cbn [Frame.columns Frame.rows].
    destruct agg; [cbn in Hagg; lia|reflexivity].
  - assert (Hd : ForallOrdPairs
                   (fun a b : Frame.Row =>
                      Frame.same_key (Aggregator.group_key a)
                                     (Aggregator.group_key b) = false) reps).
    { apply (distinct_keys_Permutation _ _ Hperm).
      apply first_of_each_key_distinct. }
    apply mapM_Forall2 in E2.
    exact (distinct_keys_aggregate _ _ _ _ E2 Hd).
Qed.

(** Three observations of one option and one of another: two smile rows
    with different keys. *)
Lemma build_smiles_one_row_per_key_witness :
  let obs (u : string) (bid : Z) : Frame.Row :=
    [("slot_time_utc", Frame.VTime 63897158820000000);
     ("underlying", Frame.VStr u);
     ("expiry_utc", Frame.VTime 63897148800000000);
     ("option_type", Frame.VStr "C");
     ("strike", Frame.VNum (F64.of_Z 65000));
     ("bid", Frame.VNum (F64.of_Z bid)); ("ask", Frame.VNum (F64.of_Z 13));
     ("mid", Frame.VNum F64.nan); ("iv", Frame.VNum (F64.of_Z 50));
     ("delta", Frame.VNum F64.nan); ("gamma", Frame.VNum F64.nan);
     ("vega", Frame.VNum F64.nan); ("theta", Frame.VNum F64.nan);
     ("rho", Frame.VNum F64.nan);
     ("index_price", Frame.VNum (F64.of_Z 64000));
     ("underlying_price", Frame.VNum (F64.of_Z 64100))] in
  let df :=
    {| Frame.columns :=
         ["slot_time_utc"; "underlying"; "expiry_utc"; "option_type";
          "strike"; "bid"; "ask"; "mid"; "iv"; "delta"; "gamma"; "vega";
          "theta"; "rho"; "index_price"; "underlying_price"];
       Frame.rows := [obs "ETH" 3; obs "BTC" 10; obs "BTC" 12; obs "ETH" 4] |} in
  Frame.empty df = false
  /\ exists out,
       Aggregator.build_smiles df = Ok out
       /\ map (Frame.cell "underlying") (Frame.rows out)
          = [Frame.VStr "BTC"; Frame.VStr "ETH"]
       /\ Frame.empty out = false
       /\ (1 <= List.length (Frame.rows out) <= 4)%nat
       /\ ForallOrdPairs
            (fun a b : Frame.Row =>
               Frame.same_key (Aggregator.group_key a) (Aggregator.group_key b)
               = false)
            (Frame.rows out).
Proof.
  cbv zeta. split; [reflexivity|].
  set (df := {| Frame.columns := _; Frame.rows := _ |}).
  destruct (Aggregator.build_smiles df) as [out|] eqn:E;
    [|vm_compute in E; discriminate].
  exists out. split; [reflexivity|].
  split; [vm_compute in E; injection E as <-; reflexivity|].
  exact (build_smiles_one_row_per_key df out eq_refl E).
Defined.

(* ------------------------------------------------------------------ *)
(** ** The canonical columns of [coalesce_columns] *)
(* ------------------------------------------------------------------ *)

(** X15. The seconds-or-milliseconds guess of [to_utc_ms] on an int: a value
    above 10^12 is taken as milliseconds, any other as seconds. The result
    is stable under a second conversion only for a time after
    2001-09-09T01:46:40Z (more than 10^9 seconds); an earlier positive
    time is multiplied by 1000 once more. *)
Theorem to_utc_ms_int_stability {P : PandasText} (z : Z) :
  Normalize.to_utc_ms (Frame.VInt z)
  = Ok (Frame.VInt (if z >? 10 ^ 12 then z else z * 1000))
  /\ (10 ^ 9 < z ->
      (ms <- Normalize.to_utc_ms (Frame.VInt z) ;; Normalize.to_utc_ms ms)
      = Normalize.to_utc_ms (Frame.VInt z))
  /\ (0 < z <= 10 ^ 9 ->
      (ms <- Normalize.to_utc_ms (Frame.VInt z) ;; Normalize.to_utc_ms ms)
      = Ok (Frame.VInt (z * 1000000))).
Proof.
  split; [reflexivity|]. cbn [Normalize.to_utc_ms Py.bind].
  split; intros Hz.
  - destruct (Z.gtb_spec z (10 ^ 12)) as [H|H].
    + destruct (Z.gtb_spec z (10 ^ 12)); [reflexivity|lia].
    + destruct (Z.gtb_spec (z * 1000) (10 ^ 12)); [reflexivity|lia].
  - destruct (Z.gtb_spec z (10 ^ 12)) as [H|H]; [lia|].
    destruct (Z.gtb_spec (z * 1000) (10 ^ 12)); [lia|].
    do 2 f_equal. lia.
Qed.

(** X16. [_norm_opt] maps every cell to ["C"], ["P"] or [None], and maps its
    own results to themselves. A float is never a call or a put: 1.0
    becomes [None], unlike the int 1 and the bool [True]. *)
Theorem norm_opt_range_and_idempotence (x : Frame.value) :
  (Normalize._norm_opt x = Frame.VStr "C"
   \/ Normalize._norm_opt x = Frame.VStr "P"
   \/ Normalize._norm_opt x = Frame.VNone)
  /\ Normalize._norm_opt (Normalize._norm_opt x) = Normalize._norm_opt x
  /\ (forall f, x = Frame.VNum f -> Normalize._norm_opt x = Frame.VNone)
  /\ Normalize._norm_opt (Frame.VInt 1) = Frame.VStr "C"
  /\ Normalize._norm_opt (Frame.VBool true) = Frame.VStr "C".
Proof.
  assert (H : Normalize._norm_opt x = Frame.VStr "C"
              \/ Normalize._norm_opt x = Frame.VStr "P"
              \/ Normalize._norm_opt x = Frame.VNone).
  { unfold Normalize._norm_opt.
    destruct (Frame.isna x); [tauto|].
    destruct (Normalize.py_str x) as [t|]; [|tauto].
    destruct (Normalize.mem _ ["C"; "CALL"; "1"; "TRUE"]); [tauto|].
    destruct (Normalize.mem _ ["P"; "PUT"; "0"; "FALSE"]); tauto. }
  split; [exact H|]. split; [|split; [|split; reflexivity]].
  - destruct H as [->|[->| ->]]; reflexivity.
  - intros f ->. unfold Normalize._norm_opt. cbn [Frame.isna Normalize.py_str].
    now destruct (F64.is_nan f).
Qed.

Section CoalesceFacts.
Import Frame Normalize.
Context {P : PandasText}.

Lemma same_column_sym (c : string) (df1 df2 : DataFrame) :
  same_column c df1 df2 -> same_column c df2 df1.
Proof. intros [H1 H2]. now split. Qed.

Lemma is_float64_same_column (c : string) (df1 df2 : DataFrame) :
  same_column c df1 df2 -> is_float64 df1 c = is_float64 df2 c.
Proof.
  intros [H1 H2]. unfold is_float64. rewrite H1. f_equal.
  assert (E : forall rs, forallb (fun r => float64_cell (cell c r)) rs
                         = forallb float64_cell (map (cell c) rs)).
  { induction rs as [|r rs IH]; cbn; [reflexivity|now rewrite IH]. }
  now rewrite !E, H2.
Qed.

(** The value a numeric target takes: the cell read as a number, and for
    [iv] divided by 100. *)
Local Abbreviation cast col v :=
  (VNum (if String.eqb col "iv"
         then F64.div (to_numeric v) (F64.of_Z 100)
         else to_numeric v)).

Lemma numeric_cast_cells (out out' : DataFrame) (col : string) :
  numeric_cast out col = Ok out' ->
  has_column out col = true ->
  has_column out' col = true
  /\ map (cell col) (rows out')
     = map (fun v => cast col v) (map (cell col) (rows out)).
Proof.
  unfold numeric_cast. intros H Hcol. rewrite Hcol in H.
  destruct (assign_map out col col _) as [o1|] eqn:E1; cbn [Py.bind] in H;
    [|discriminate].
  destruct (assign_map_columns _ _ _ _ _ E1) as (Hhas1 & Hmap1 & _).
  rewrite mapM_total in Hmap1. injection Hmap1 as Hmap1.
  destruct (String.eqb col "iv").
  - destruct (assign_map_columns _ _ _ _ _ H) as (Hhas & Hmap2 & _).
    split; [exact Hhas|].
    rewrite <- Hmap1 in Hmap2.
    rewrite (mapM_map _ (fun v => VNum (F64.div (to_numeric v) (F64.of_Z 100))))
      in Hmap2.
    + rewrite map_map in Hmap2. injection Hmap2 as <-. reflexivity.
    + intros x Hx. apply in_map_iff in Hx as (v & <- & _). reflexivity.
  - injection H as <-. split; [exact Hhas1|]. now rewrite <- Hmap1.
Qed.

Lemma numeric_cast_has_column (out out' : DataFrame) (col c : string) :
  numeric_cast out col = Ok out' -> has_column out' c = has_column out c.
Proof.
  intros H. destruct (String.eqb_spec col c) as [<-|Hne].
  - destruct (has_column out col) eqn:Hcol.
    + now destruct (numeric_cast_cells _ _ _ H Hcol).
    + unfold numeric_cast in H. rewrite Hcol in H. now injection H as <-.
  - symmetry. now apply (numeric_cast_other _ _ _ _ Hne H).
Qed.

Lemma float64_of_cells (df : DataFrame) (c : string) (xs : list F64.float) :
  has_column df c = true ->
  map (cell c) (rows df) = map VNum xs ->
  is_float64 df c = true.
Proof.
  intros Hc Hm. unfold is_float64. rewrite Hc. cbn [andb].
  assert (E : forall rs, forallb (fun r => float64_cell (cell c r)) rs
                         = forallb float64_cell (map (cell c) rs)).
  { induction rs as [|r rs IH]; cbn; [reflexivity|now rewrite IH]. }
  rewrite E, Hm. clear. induction xs; cbn; auto.
Qed.

Lemma numeric_cast_float64 (out out' : DataFrame) (col : string) :
  numeric_cast out col = Ok out' ->
  has_column out col = true ->
  is_float64 out' col = true.
Proof.
  intros H Hcol. destruct (numeric_cast_cells _ _ _ H Hcol) as [Hhas Hm].
  rewrite map_map in Hm.
  apply (float64_of_cells _ _
           (map (fun r => if String.eqb col "iv"
                          then F64.div (to_numeric (cell col r)) (F64.of_Z 100)
                          else to_numeric (cell col r)) (rows out)));
    [exact Hhas|].
  now rewrite map_map.
Qed.

(** The loop of the numeric casts. *)
Lemma foldM_numeric_cast (l : list string) (o out : DataFrame) :
  foldM numeric_cast l o = Ok out ->
  NoDup l ->
  (forall c, has_column out c = has_column o c)
  /\ (forall c, ~ In c l -> same_column c o out)
  /\ (forall c, In c l -> has_column o c = true ->
        is_float64 out c = true
        /\ map (cell c) (rows out)
           = map (fun v => cast c v) (map (cell c) (rows o))).
Proof.
  revert o. induction l as [|col l IH]; intros o H Hnd; cbn in H.
  - injection H as <-. split; [reflexivity|]. split.
    + intros c _. apply same_column_refl.
    + intros c [].
  - apply bind_ok in H as (o1 & E1 & H).
    inversion Hnd as [|? ? Hnotin Hnd']; subst.
    destruct (IH _ H Hnd') as (Hhas & Hother & Hcast).
    split; [|split].
    + intros c. now rewrite Hhas, (numeric_cast_has_column _ _ _ _ E1).
    + intros c Hc. apply (same_column_trans _ _ o1).
      * apply (numeric_cast_other _ _ col); [|exact E1].
        intros ->. apply Hc. now left.
      * apply Hother. intros Hin. apply Hc. now right.
    + intros c [->|Hin] Hcol.
      * pose proof (Hother c Hnotin) as S.
        destruct (numeric_cast_cells _ _ _ E1 Hcol) as [Hhas1 Hm].
        split.
        -- rewrite <- (is_float64_same_column _ _ _ S).
           now apply (numeric_cast_float64 o).
        -- destruct S as [_ <-]. exact Hm.
      * assert (Hne : col <> c) by (intros ->; contradiction).
        pose proof (numeric_cast_other _ _ _ _ Hne E1) as [Sh Sc].
        rewrite Sc. apply Hcast; [exact Hin|congruence].
Qed.

Lemma NUMERIC_TARGETS_NoDup : NoDup NUMERIC_TARGETS.
Proof.
  unfold NUMERIC_TARGETS.
  repeat (constructor; [cbn; intuition discriminate|]). constructor.
Qed.

Lemma find_ext {A : Type} (f g : A -> bool) (l : list A) :
  (forall x, In x l -> f x = g x) -> find f l = find g l.
Proof.
  induction l as [|x l IH]; intros H; cbn; [reflexivity|].
  rewrite (H x (or_introl eq_refl)).
  destruct (g x); [reflexivity|]. apply IH. intros y Hy. apply H. now right.
Qed.

(** One turn of the loop over the aliases: the target is left as it is
    when the frame has it, and is else the copy of the first candidate
    the frame has. *)
Lemma coalesce_alias_step (o o1 : DataFrame) (t : string) (cs : list string) :
  coalesce_alias o (t, cs) = Ok o1 ->
  (forall c, t <> c -> same_column c o o1)
  /\ match (if has_column o t then Some t else find (has_column o) cs) with
     | Some c => has_column o1 t = true
                 /\ map (cell t) (rows o1) = map (cell c) (rows o)
     | None => has_column o1 t = false
     end.
Proof.
  intros H. split.
  - intros c Hc. now apply (coalesce_alias_other _ _ (t, cs)).
  - unfold coalesce_alias in H. destruct (has_column o t) eqn:Ht.
    + injection H as <-. now split.
    + destruct (find (has_column o) cs) as [c|].
      * destruct (assign_map_columns _ _ _ _ _ H) as (Hhas & Hmap & _).
        split; [exact Hhas|].
        rewrite mapM_total, map_id in Hmap. now injection Hmap.
      * now injection H as <-.
Qed.

Lemma foldM_coalesce_alias (l : list (string * list string))
  (df out : DataFrame) :
  foldM coalesce_alias l df = Ok out ->
  NoDup (map fst l) ->
  (forall t cs c, In (t, cs) l -> In c cs -> c = t \/ ~ In c (map fst l)) ->
  (forall c, ~ In c (map fst l) -> same_column c df out)
  /\ forall t cs, In (t, cs) l ->
       match (if has_column df t then Some t else find (has_column df) cs) with
       | Some c => has_column out t = true
                   /\ map (cell t) (rows out) = map (cell c) (rows df)
       | None => has_column out t = false
       end.
Proof.
  revert df. induction l as [|[t0 cs0] l IH]; intros df H Hnd Hsep; cbn in H.
  - injection H as <-. split; [intros c _; apply same_column_refl|intros t cs []].
  - apply bind_ok in H as (o1 & E1 & H).
    cbn [map fst] in Hnd. inversion Hnd as [|? ? Hnotin Hnd']; subst.
    destruct (coalesce_alias_step _ _ _ _ E1) as [Hother1 Hstep].
    destruct (IH _ H Hnd') as [Hother Htargets].
    { intros t cs c Hin Hc. destruct (Hsep t cs c (or_intror Hin) Hc) as [->|Hn];
        [now left|right]. intros Hin'. apply Hn. now right. }
    split.
    + intros c Hc. apply (same_column_trans _ _ o1).
      * apply Hother1. intros ->. apply Hc. now left.
      * apply Hother. intros Hin. apply Hc. now right.
    + intros t cs [E|Hin].
      * injection E as -> ->.
        destruct (Hother t Hnotin) as [Sh Sc].
        destruct (if has_column df t then Some t else find (has_column df) cs)
          as [c|]; [|congruence].
        destruct Hstep as [Hhas Hcells]. split; congruence.
      * assert (Hne : t0 <> t).
        { intros ->. apply Hnotin. apply in_map_iff. now exists (t, cs). }
        assert (Hc0 : forall c, In c cs -> t0 <> c).
        { intros c Hc ->. destruct (Hsep t cs c (or_intror Hin) Hc) as [->|Hn];
            [now apply Hne|]. apply Hn. now left. }
        specialize (Htargets t cs Hin).
        rewrite <- (proj1 (Hother1 t Hne)) in Htargets.
        rewrite <- (find_ext (has_column df) (has_column o1) cs) in Htargets
          by (intros c Hc; apply (Hother1 c (Hc0 c Hc))).
        destruct (has_column df t) eqn:Ht.
        -- destruct Htargets as [Hhas Hcells]. split; [exact Hhas|].
           now rewrite Hcells, (proj2 (Hother1 t Hne)).
        -- destruct (find (has_column df) cs) as [c|] eqn:Ef; [|exact Htargets].
           destruct Htargets as [Hhas Hcells]. split; [exact Hhas|].
           apply find_some in Ef as [Hc _].
           now rewrite Hcells, (proj2 (Hother1 c (Hc0 c Hc))).
Qed.

Lemma ALIASES_NoDup : NoDup (map fst ALIASES).
Proof.
  cbn. repeat (constructor; [cbn; intuition discriminate|]). constructor.
Qed.

(** No alias of a canonical name is another canonical name. *)
Lemma ALIASES_separate (t : string) (cs : list string) (c : string) :
  In (t, cs) ALIASES -> In c cs -> c = t \/ ~ In c (map fst ALIASES).
Proof.
  intros Hin Hc.
  assert (H : forallb
                (fun item =>
                   forallb (fun c => String.eqb c (fst item)
                                     || negb (existsb (String.eqb c)
                                                      (map fst ALIASES)))
                           (snd item)) ALIASES = true) by reflexivity.
  rewrite forallb_forall in H. specialize (H _ Hin). cbn [fst snd] in H.
  rewrite forallb_forall in H. specialize (H _ Hc).
  apply orb_true_iff in H as [H|H].
  - left. now apply String.eqb_eq.
  - right. intros Hin'. apply negb_true_iff in H.
    pose proof (existsb_false _ _ H c Hin') as C.
    now rewrite String.eqb_refl in C.
Qed.

Lemma coalesce_columns_stages (df out : DataFrame) :
  coalesce_columns df = Ok out ->
  exists o3 o4 o5,
    foldM coalesce_alias ALIASES df = Ok o3
    /\ (if has_column o3 "timestamp"
        then assign_map o3 "timestamp" "timestamp" to_utc_ms
        else Ok o3) = Ok o4
    /\ (if has_column o4 "option_type"
        then assign_map o4 "option_type" "option_type"
               (fun v => Ok (_norm_opt v))
        else Ok o4) = Ok o5
    /\ foldM numeric_cast NUMERIC_TARGETS o5 = Ok out.
Proof.
  unfold coalesce_columns. intros H.
  apply bind_ok in H as (o3 & E3 & H).
  apply bind_ok in H as (o4 & E4 & H).
  apply bind_ok in H as (o5 & E5 & H).
  now exists o3, o4, o5.
Qed.

(** A frame that keeps the rows and the columns of another, with columns
    added after them. *)
Local Abbreviation extends o o' :=
  (List.length (rows o') = List.length (rows o)
   /\ exists added, columns o' = columns o ++ added).

Lemma extends_refl (o : DataFrame) : extends o o.
Proof. split; [reflexivity|]. exists []. now rewrite app_nil_r. Qed.

Lemma extends_trans (o1 o2 o3 : DataFrame) :
  extends o1 o2 -> extends o2 o3 -> extends o1 o3.
Proof.
  intros [L1 (a1 & C1)] [L2 (a2 & C2)]. split; [congruence|].
  exists (a1 ++ a2). now rewrite C2, C1, app_assoc.
Qed.

Lemma set_cells_length (c : string) (vs : Series) (rs rs' : list Row) :
  set_cells c vs rs = Ok rs' -> List.length rs' = List.length rs.
Proof.
  revert rs rs'. induction vs as [|v vs IH]; intros [|r rs] rs' H; cbn in H;
    try discriminate.
  - now injection H as <-.
  - apply bind_ok in H as (rest & E & H). injection H as <-.
    cbn. now rewrite (IH _ _ E).
Qed.

Lemma setitem_extends (df out : DataFrame) (c : string) (vs : Series) :
  setitem df c vs = Ok out -> extends df out.
Proof.
  unfold setitem. intros H. apply bind_ok in H as (rs & E & H).
  injection H as <-. cbn [rows columns]. split.
  - now apply set_cells_length in E.
  - destruct (has_column df c); [exists []; now rewrite app_nil_r|now exists [c]].
Qed.

Lemma assign_map_extends (o o' : DataFrame) (t s : string)
  (f : value -> result value) :
  assign_map o t s f = Ok o' -> extends o o'.
Proof.
  unfold assign_map. intros H. apply bind_ok in H as (vs & _ & H).
  apply bind_ok in H as (vs' & _ & H). now apply setitem_extends in H.
Qed.

Lemma foldM_extends {A : Type} (f : DataFrame -> A -> result DataFrame)
  (l : list A) (o out : DataFrame) :
  (forall o1 o2 x, f o1 x = Ok o2 -> extends o1 o2) ->
  foldM f l o = Ok out -> extends o out.
Proof.
  intros Hf. revert o. induction l as [|x l IH]; intros o H; cbn in H.
  - injection H as <-. apply extends_refl.
  - apply bind_ok in H as (o1 & E & H).
    apply (extends_trans _ o1); [now apply (Hf _ _ x)|now apply IH].
Qed.

Lemma coalesce_alias_extends (o o' : DataFrame) (item : string * list string) :
  coalesce_alias o item = Ok o' -> extends o o'.
Proof.
  destruct item as [t cs]. unfold coalesce_alias.
  destruct (has_column o t); [intros H; injection H as <-; apply extends_refl|].
  destruct (find _ cs).
  - apply assign_map_extends.
  - intros H; injection H as <-; apply extends_refl.
Qed.

Lemma numeric_cast_extends (o o' : DataFrame) (col : string) :
  numeric_cast o col = Ok o' -> extends o o'.
Proof.
  unfold numeric_cast.
  destruct (has_column o col); [|intros H; injection H as <-; apply extends_refl].
  intros H. apply bind_ok in H as (o1 & E1 & H).
  apply assign_map_extends in E1.
  destruct (String.eqb col "iv").
  - apply assign_map_extends in H. now apply (extends_trans _ o1).
  - now injection H as <-.
Qed.

Lemma step_when_extends (b : bool) (o o' : DataFrame) (t : string)
  (f : value -> result value) :
  (if b then assign_map o t t f else Ok o) = Ok o' -> extends o o'.
Proof.
  destruct b; [apply assign_map_extends|].
  intros H; injection H as <-; apply extends_refl.
Qed.

End CoalesceFacts.


(** X18. [coalesce_columns] adds and converts, and drops nothing: the result
    has the rows of the input and its columns in their order, with the
    canonical columns it lacked added after them; a column that is no
    canonical name is present exactly when the input has it, and unless
    it is a numeric target its cells are left as they are. *)
Theorem coalesce_columns_keeps {P : PandasText} (df out : Frame.DataFrame) :
  Normalize.coalesce_columns df = Ok out ->
  List.length (Frame.rows out) = List.length (Frame.rows df)
  /\ (exists added, Frame.columns out = Frame.columns df ++ added)
  /\ (forall c, ~ In c (map fst Normalize.ALIASES) ->
        Frame.has_column out c = Frame.has_column df c)
  /\ (forall c, ~ In c (map fst Normalize.ALIASES ++ Normalize.NUMERIC_TARGETS) ->
        Frame.same_column c df out).
Proof.
  intros H.
  destruct (coalesce_columns_stages _ _ H) as (o3 & o4 & o5 & E3 & E4 & E5 & E6).
  destruct (foldM_coalesce_alias _ _ _ E3 ALIASES_NoDup ALIASES_separate)
    as [Hother3 _].
  destruct (foldM_numeric_cast _ _ _ E6 NUMERIC_TARGETS_NoDup)
    as (Hhas6 & Hother6 & _).
  assert (Hext : List.length (Frame.rows out) = List.length (Frame.rows df)
                 /\ exists added, Frame.columns out = Frame.columns df ++ added).
  { apply (extends_trans _ o3);
      [exact (foldM_extends _ _ _ _ coalesce_alias_extends E3)|].
    apply (extends_trans _ o4); [exact (step_when_extends _ _ _ _ _ E4)|].
    apply (extends_trans _ o5); [exact (step_when_extends _ _ _ _ _ E5)|].
    exact (foldM_extends _ _ _ _ numeric_cast_extends E6). }
  assert (Hmid : forall c, ~ In c (map fst Normalize.ALIASES) ->
                           Frame.same_column c df o5).
  { intros c Hc. apply (same_column_trans _ _ o3); [now apply Hother3|].
    apply (same_column_trans _ _ o4).
    - apply (step_when _ _ _ _ _ c) in E4; [exact E4|].
      intros <-. apply Hc. cbn. tauto.
    - apply (step_when _ _ _ _ _ c) in E5; [exact E5|].
      intros <-. apply Hc. cbn. tauto. }
  destruct Hext as [Hlen Hcols].
  split; [exact Hlen|]. split; [exact Hcols|]. split.
  - intros c Hc. rewrite Hhas6. symmetry. apply (Hmid c Hc).
  - intros c Hc. apply (same_column_trans _ _ o5).
    + apply Hmid. intros Hin. apply Hc. apply in_or_app. now left.
    + apply Hother6. intros Hin. apply Hc. apply in_or_app. now right.
Qed.




Lemma coalesce_columns_keeps_witness :
  let lib := {| to_datetime_text := fun _ => None;
                to_numeric_text := fun _ => None |} in
  let df := {| Frame.columns := ["symbol"; "best_bid_price"; "note"];
               Frame.rows := [[("symbol", Frame.VStr "BTC-27OCT25-65000-C");
                               ("best_bid_price", Frame.VInt 10);
                               ("note", Frame.VStr "x")]] |} in
  exists out,
    @Normalize.coalesce_columns lib df = Ok out
    /\ Frame.columns out
       = ["symbol"; "best_bid_price"; "note"; "instrument_name"; "bid"]
    /\ List.length (Frame.rows out) = List.length (Frame.rows df)
    /\ (exists added, Frame.columns out = Frame.columns df ++ added)
    /\ (forall c, ~ In c (map fst Normalize.ALIASES) ->
          Frame.has_column out c = Frame.has_column df c)
    /\ (forall c, ~ In c (map fst Normalize.ALIASES ++ Normalize.NUMERIC_TARGETS) ->
          Frame.same_column c df out).
Proof.
  cbv zeta.
  set (lib := {| to_datetime_text := _ |}).
  set (df := {| Frame.columns := _; Frame.rows := _ |}).
  destruct (@Normalize.coalesce_columns lib df) as [out|] eqn:E;
    [|vm_compute in E; discriminate].
  exists out. split; [reflexivity|].
  split; [vm_compute in E; injection E as <-; reflexivity|].
  exact (@coalesce_columns_keeps lib df out E).
Defined.


(* ------------------------------------------------------------------ *)
(** ** The parsed columns *)
(* ------------------------------------------------------------------ *)

Section ParsedColumnsFacts.
Import Frame Normalize.





End ParsedColumnsFacts.



Lemma mapM_raise {A B : Type} (f : A -> result B) (l : list A) (x : A) (e : exn) :
  In x l -> f x = Raise e -> exists e', Py.mapM f l = Raise e'.
Proof.
  induction l as [|y l IH]; intros Hin Hx; [destruct Hin|].
  destruct Hin as [->|Hin]; cbn.
  - rewrite Hx. now exists e.
  - destruct (f y) as [b|e0]; cbn; [|now exists e0].
    destruct (IH Hin Hx) as (e' & ->). now exists e'.
Qed.

(** X21. One name that cannot be parsed stops the whole normalization: on a
    frame with an [instrument_name] column, if [parse_instrument_name]
    raises on the name of some row (a name in the shape of an option or
    of a future with three letters that are no month, or a strike with
    two dots), then [standardize] raises. *)
Theorem standardize_unparsable_name {P : PandasText} (df : Frame.DataFrame)
  (r : Frame.Row) (name : string) (e : exn) :
  Frame.has_column df "instrument_name" = true ->
  In r (Frame.rows df) ->
  Frame.cell "instrument_name" r = Frame.VStr name ->
  Instrument.parse_instrument_name name = Raise e ->
  exists e', Normalize.standardize df "instrument_name" = Raise e'.
Proof.
  intros Hcol Hr Hname Hparse. unfold Normalize.standardize.
  destruct (Normalize.coalesce_columns df) as [o1|e1] eqn:E1;
    [|now exists e1].
  cbn [Py.bind].
  destruct (coalesce_columns_stages _ _ E1) as (o3 & o4 & o5 & E3 & E4 & E5 & E6).
  destruct (foldM_coalesce_alias _ _ _ E3 ALIASES_NoDup ALIASES_separate)
    as [_ Hal].
  specialize (Hal "instrument_name" ["instrument_name"; "symbol"; "inst"]
                ltac:(cbn; tauto)).
  rewrite Hcol in Hal. destruct Hal as [Hhas3 Hcells3].
  destruct (foldM_numeric_cast _ _ _ E6 NUMERIC_TARGETS_NoDup)
    as (_ & Hother6 & _).
  assert (S : Frame.same_column "instrument_name" o3 o1).
  { apply (same_column_trans _ _ o4);
      [apply (step_when _ _ _ "timestamp" _ "instrument_name"
                ltac:(discriminate) E4)|].
    apply (same_column_trans _ _ o5);
      [apply (step_when _ _ _ "option_type" _ "instrument_name"
                ltac:(discriminate) E5)|].
    apply Hother6. cbn. intuition discriminate. }
  destruct S as [Sh Sc].
  unfold Normalize.add_parsed_columns.
  rewrite <- Sh, Hhas3. cbn [negb].
  rewrite getitem_present by (now rewrite <- Sh).
  cbn [Py.bind]. rewrite <- Sc, Hcells3.
  destruct (mapM_raise Normalize.parse_cell
              (map (Frame.cell "instrument_name") (Frame.rows df))
              (Frame.VStr name) e) as (e' & ->).
  - rewrite <- Hname. now apply in_map.
  - exact Hparse.
  - now exists e'.
Qed.

(** A frame of two rows, one of them named after a month that does not
    exist. *)
Lemma standardize_unparsable_name_witness :
  let lib := {| to_datetime_text := fun _ => None;
                to_numeric_text := fun _ => None |} in
  let bad := [("instrument_name", Frame.VStr "BTC-27XXX25-65000-C")] in
  let df := {| Frame.columns := ["instrument_name"];
               Frame.rows := [[("instrument_name", Frame.VStr "BTC-27OCT25-65000-C")];
                              bad] |} in
  Frame.has_column df "instrument_name" = true
  /\ In bad (Frame.rows df)
  /\ Instrument.parse_instrument_name "BTC-27XXX25-65000-C" = Raise (KeyError "XXX")
  /\ exists e', @Normalize.standardize lib df "instrument_name" = Raise e'.
Proof.
  cbv zeta.
  assert (H1 : Instrument.parse_instrument_name "BTC-27XXX25-65000-C"
               = Raise (KeyError "XXX")) by (vm_compute; reflexivity).
  split; [reflexivity|]. split; [cbn; tauto|]. split; [exact H1|].
  apply (@standardize_unparsable_name
           {| to_datetime_text := fun _ => None; to_numeric_text := fun _ => None |}
           _ [("instrument_name", Frame.VStr "BTC-27XXX25-65000-C")]
           "BTC-27XXX25-65000-C" (KeyError "XXX"));
    [reflexivity|cbn; tauto|reflexivity|exact H1].
Defined.

(* ------------------------------------------------------------------ *)
(** ** Columns the quality control reads *)
(* ------------------------------------------------------------------ *)

(** X22. [compute_mid_and_spread] computes no mid: it reads the column [mid]
    and, on a frame that has [bid] and [ask] and no [mid], raises; when
    [bid] and [ask] are float64 the exception is [KeyError] for [mid]. *)
Theorem compute_mid_and_spread_requires_mid (df : Frame.DataFrame) :
  Frame.has_column df "bid" = true ->
  Frame.has_column df "ask" = true ->
  Frame.has_column df "mid" = false ->
  exists e,
    Cleaning.compute_mid_and_spread df = Raise e
    /\ (Frame.is_float64 df "bid" = true -> Frame.is_float64 df "ask" = true ->
        e = KeyError "mid").
Proof.
  intros Hb Ha Hm. unfold Cleaning.compute_mid_and_spread, Frame.issubset.
  cbn [forallb]. rewrite Hb, Ha. cbn [andb].
  rewrite (getitem_present _ _ Hb), (getitem_present _ _ Ha). cbn [Py.bind].
  destruct (Frame.sub _ _) as [d|e] eqn:Ed; cbn [Py.bind].
  - unfold Frame.getitem. rewrite Hm. cbn [Py.bind].
    eexists. split; reflexivity.
  - exists e. split; [reflexivity|]. intros Hfb Hfa. exfalso.
    unfold Frame.sub in Ed.
    rewrite (map2_map _ (Frame.cell "ask") (Frame.cell "bid")
               (fun r => Frame.VNum (F64.sub (Frame.num "ask" r)
                                             (Frame.num "bid" r)))) in Ed;
      [discriminate|].
    intros r Hr. now rewrite (is_float64_cell _ _ _ Hfa Hr),
                             (is_float64_cell _ _ _ Hfb Hr).
Qed.

Lemma compute_mid_and_spread_requires_mid_witness :
  let df := {| Frame.columns := ["bid"; "ask"];
               Frame.rows := [[("bid", Frame.VNum (F64.of_Z 10));
                               ("ask", Frame.VNum (F64.of_Z 12))]] |} in
  Frame.has_column df "bid" = true
  /\ Frame.has_column df "ask" = true
  /\ Frame.has_column df "mid" = false
  /\ Cleaning.compute_mid_and_spread df = Raise (KeyError "mid").
Proof.
  cbv zeta. repeat (split; [reflexivity|]).
  destruct (compute_mid_and_spread_requires_mid
              {| Frame.columns := ["bid"; "ask"];
                 Frame.rows := [[("bid", Frame.VNum (F64.of_Z 10));
                                 ("ask", Frame.VNum (F64.of_Z 12))]] |}
              eq_refl eq_refl eq_refl) as (e & E & He).
  rewrite E. f_equal. apply He; reflexivity.
Defined.

(** X23. [add_moneyness] tests for one column and reads another: on a frame
    with a [strike], the guard asks for [index_price] and the body reads
    [underlying_price]. With [index_price] and without [underlying_price]
    it raises [KeyError]; with [underlying_price] and without
    [index_price] it returns the frame as it is, without a moneyness. *)
Theorem add_moneyness_guard_mismatch {L : Libm} (df : Frame.DataFrame) :
  Frame.has_column df "strike" = true ->
  (Frame.has_column df "index_price" = true ->
   Frame.has_column df "underlying_price" = false ->
   Cleaning.add_moneyness df = Raise (KeyError "underlying_price"))
  /\ (Frame.has_column df "index_price" = false ->
      Cleaning.add_moneyness df = Ok df).
Proof.
  intros Hs. unfold Cleaning.add_moneyness, Frame.issubset. cbn [forallb].
  rewrite Hs. cbn [andb]. split.
  - intros Hi Hu. rewrite Hi. cbn [andb].
    rewrite (getitem_present _ _ Hs). cbn [Py.bind].
    unfold Frame.getitem. now rewrite Hu.
  - intros Hi. now rewrite Hi.
Qed.

Lemma add_moneyness_guard_mismatch_witness :
  let lib := {| log_finite := fun _ _ => S754_zero false |} in
  let spot := {| Frame.columns := ["strike"; "index_price"];
                 Frame.rows := [[("strike", Frame.VNum (F64.of_Z 65000));
                                 ("index_price", Frame.VNum (F64.of_Z 64000))]] |} in
  let future := {| Frame.columns := ["strike"; "underlying_price"];
                   Frame.rows :=
                     [[("strike", Frame.VNum (F64.of_Z 65000));
                       ("underlying_price", Frame.VNum (F64.of_Z 64100))]] |} in
  @Cleaning.add_moneyness lib spot = Raise (KeyError "underlying_price")
  /\ @Cleaning.add_moneyness lib future = Ok future.
Proof.
  cbv zeta.
  set (lib := {| log_finite := _ |}).
  set (spot := {| Frame.columns := ["strike"; "index_price"]; Frame.rows := _ |}).
  set (future := {| Frame.columns := ["strike"; "underlying_price"];
                    Frame.rows := _ |}).
  split.
  - exact (proj1 (@add_moneyness_guard_mismatch lib spot eq_refl)
             eq_refl eq_refl).
  - exact (proj2 (@add_moneyness_guard_mismatch lib future eq_refl) eq_refl).
Defined.

(* ------------------------------------------------------------------ *)
(** ** The listing of a snapshot *)
(* ------------------------------------------------------------------ *)

Section ListingFacts.
Import Frame Listing.
Variable fetch : string -> result (list (list (string * value))).
Variable max_instruments : Z.

(** The records of a currency the loop reads. *)
Local Abbreviation listed cur :=
  (slice_to max_instruments
     (match fetch cur with Ok res => res | Raise _ => [] end)).

Local Abbreviation turn :=
  (fun (instruments : list (string * value)) (cur : string) =>
     names <- mapM (fun r => Text.getitem r "instrument_name") (listed cur) ;;
     Ok (instruments ++ map (fun name => (cur, name)) names)).

Lemma names_of_records (l : list (list (string * value))) :
  (forall r, In r l -> exists name, Text.get r "instrument_name" = Some name) ->
  Py.mapM (fun r => Text.getitem r "instrument_name") l
  = Ok (map (fun r => Snapshot.dict_get r "instrument_name") l).
Proof.
  intros H. apply mapM_map. intros r Hr. destruct (H r Hr) as (name & E).
  unfold Text.getitem, Snapshot.dict_get. now rewrite E.
Qed.

Lemma names_of_records_missing (l : list (list (string * value)))
  (r : list (string * value)) :
  In r l -> Text.get r "instrument_name" = None ->
  Py.mapM (fun r => Text.getitem r "instrument_name") l
  = Raise (KeyError "instrument_name").
Proof.
  induction l as [|x l IH]; intros Hin Hr; [destruct Hin|].
  cbn [Py.mapM]. unfold Text.getitem at 1.
  destruct (Text.get x "instrument_name") as [name|] eqn:Ex; [|reflexivity].
  destruct Hin as [->|Hin]; [congruence|].
  cbn [Py.bind]. now rewrite (IH Hin Hr).
Qed.

Lemma snapshot_instruments_ok (currencies : list string)
  (acc : list (string * value)) :
  (forall cur r, In cur currencies -> In r (listed cur) ->
                 exists name, Text.get r "instrument_name" = Some name) ->
  Normalize.foldM turn currencies acc
  = Ok (acc ++ flat_map
                 (fun cur => map (fun r => (cur, Snapshot.dict_get r "instrument_name"))
                                 (listed cur))
                 currencies).
Proof.
  revert acc. induction currencies as [|cur cs IH]; intros acc H.
  - cbn. now rewrite app_nil_r.
  - cbn [Normalize.foldM flat_map].
    rewrite names_of_records by (intros r Hr; apply (H cur r); [now left|exact Hr]).
    cbn [Py.bind]. rewrite IH by (intros c r Hc; apply H; now right).
    now rewrite map_map, app_assoc.
Qed.

Lemma snapshot_instruments_missing (currencies : list string)
  (acc : list (string * value)) :
  (exists cur r, In cur currencies /\ In r (listed cur)
                 /\ Text.get r "instrument_name" = None) ->
  Normalize.foldM turn currencies acc = Raise (KeyError "instrument_name").
Proof.
  revert acc. induction currencies as [|cur cs IH];
    intros acc (c & r & Hc & Hr & Hnone); [destruct Hc|].
  cbn [Normalize.foldM].
  destruct (Py.mapM (fun r => Text.getitem r "instrument_name") (listed cur))
    as [names|e] eqn:E.
  - cbn [Py.bind]. apply IH. exists c, r. split; [|now split].
    destruct Hc as [->|Hc]; [|exact Hc].
    rewrite (names_of_records_missing _ r Hr Hnone) in E. discriminate.
  - cbn [Py.bind]. f_equal.
    assert (Hk : forall (l : list (list (string * value))) e',
               Py.mapM (fun r => @Text.getitem value r "instrument_name") l
               = Raise e' -> e' = KeyError "instrument_name").
    { clear. induction l as [|x l IH]; intros e' H; cbn in H; [discriminate|].
      unfold Text.getitem in H at 1.
      destruct (Text.get x "instrument_name"); cbn in H.
      - destruct (Py.mapM _ l) as [ys|e0]; cbn in H; [discriminate|].
        injection H as <-. now apply IH.
      - now injection H as <-. }
    exact (Hk _ _ E).
Qed.

Lemma slice_to_length {A : Type} (n : Z) (l : list A) :
  List.length (slice_to n l)
  = if 0 <=? n then Nat.min (Z.to_nat n) (List.length l)
    else (List.length l - Z.to_nat (- n))%nat.
Proof.
  unfold slice_to. destruct (0 <=? n); rewrite length_firstn; lia.
Qed.

End ListingFacts.

(** X24. The listing of a snapshot. A currency whose listing raises is
    passed over, and the other currencies are listed all the same; each
    currency gives the names of the first [max_instruments] records of its
    listing, in the order of the listing and of the currencies (all but
    the last [-max_instruments] records when the bound is negative); but
    one record without a name among those read makes the whole snapshot
    raise [KeyError]. *)
Theorem snapshot_instruments_listing
  (fetch : string -> result (list (list (string * Frame.value))))
  (currencies : list string) (max_instruments : Z) :
  let listed cur :=
    Listing.slice_to max_instruments
      (match fetch cur with Ok res => res | Raise _ => [] end) in
  ((forall cur r, In cur currencies -> In r (listed cur) ->
                  exists name, Text.get r "instrument_name" = Some name) ->
   Listing.snapshot_instruments fetch currencies max_instruments
   = Ok (flat_map
           (fun cur => map (fun r => (cur, Snapshot.dict_get r "instrument_name"))
                           (listed cur))
           currencies))
  /\ ((exists cur r, In cur currencies /\ In r (listed cur)
                     /\ Text.get r "instrument_name" = None) ->
      Listing.snapshot_instruments fetch currencies max_instruments
      = Raise (KeyError "instrument_name"))
  /\ (forall cur,
        (forall e, fetch cur = Raise e -> listed cur = [])
        /\ (forall res, fetch cur = Ok res ->
              List.length (listed cur)
              = if 0 <=? max_instruments
                then Nat.min (Z.to_nat max_instruments) (List.length res)
                else (List.length res - Z.to_nat (- max_instruments))%nat)).
Proof.
  intros listed. split; [|split].
  - intros H. unfold Listing.snapshot_instruments.
    exact (snapshot_instruments_ok fetch max_instruments currencies [] H).
  - intros H. unfold Listing.snapshot_instruments.
    exact (snapshot_instruments_missing fetch max_instruments currencies [] H).
  - intros cur. unfold listed. split.
    + intros e ->. unfold Listing.slice_to.
      destruct (0 <=? max_instruments); apply firstn_nil.
    + intros res ->. apply slice_to_length.
Qed.

(* ------------------------------------------------------------------ *)
(** ** The limits of the quality control *)
(* ------------------------------------------------------------------ *)

Section LimitsFacts.
Import Frame Cleaning Limits.
Context {B : Builtins}.

(** A turn of either loop for a name that is no field of [QCLimits]
    changes nothing; a turn for [iv_min] or [iv_max] sets that field when
    the value is a number. *)
Lemma limit_from_mapping_turn (m : list (string * value)) (base : QCLimits)
  (field : string) :
  limit_from_mapping m base field
  = match Text.get m field with
    | Some v =>
        match float_of v with
        | Some x =>
            if String.eqb field "iv_min"
            then {| iv_min := x; iv_max := iv_max base |}
            else if String.eqb field "iv_max"
                 then {| iv_min := iv_min base; iv_max := x |}
                 else base
        | None => base
        end
    | None => base
    end.
Proof.
  unfold limit_from_mapping, replace.
  destruct (Text.get m field) as [v|]; [|reflexivity].
  destruct v; cbn [Snapshot.is_none float_of]; try reflexivity;
    repeat match goal with
           | |- context [match ?o with Some _ => _ | None => _ end] =>
               destruct o
           | |- context [if ?b then _ else _] => destruct b
           end; reflexivity.
Qed.

Lemma apply_env_override_turn (host : Host) (res : QCLimits)
  (field env_name : string) :
  apply_env_override host res (field, env_name)
  = match getenv host env_name with
    | Some val =>
        if String.eqb val "" then res
        else
          match float_text val with
          | Some x =>
              if String.eqb field "iv_min"
              then {| iv_min := x; iv_max := iv_max res |}
              else if String.eqb field "iv_max"
                   then {| iv_min := iv_min res; iv_max := x |}
                   else res
          | None => res
          end
    | None => res
    end.
Proof.
  unfold apply_env_override, replace.
  repeat match goal with
         | |- context [match ?o with Some _ => _ | None => _ end] => destruct o
         | |- context [if ?b then _ else _] => destruct b
         end; reflexivity.
Qed.

Lemma limits_from_mapping_fields (m : list (string * value)) :
  _limits_from_mapping m
  = {| iv_min := match Text.get m "iv_min" with
                 | Some v => match float_of v with
                             | Some x => x
                             | None => F64.of_ratio 1 100
                             end
                 | None => F64.of_ratio 1 100
                 end;
       iv_max := match Text.get m "iv_max" with
                 | Some v => match float_of v with
                             | Some x => x
                             | None => F64.of_Z 5
                             end
                 | None => F64.of_Z 5
                 end |}.
Proof.
  unfold _limits_from_mapping, _ENV_MAP.
  cbn [map fst fold_left]. rewrite !limit_from_mapping_turn.
  change (String.eqb "spread_rel_max" "iv_min") with false.
  change (String.eqb "spread_rel_max" "iv_max") with false.
  change (String.eqb "volume_min" "iv_min") with false.
  change (String.eqb "volume_min" "iv_max") with false.
  change (String.eqb "iv_min" "iv_min") with true.
  change (String.eqb "iv_max" "iv_min") with false.
  change (String.eqb "iv_max" "iv_max") with true.
  cbv beta iota.
  repeat match goal with
         | |- context [match ?o with Some _ => _ | None => _ end] =>
             destruct o
         end; reflexivity.
Qed.

Lemma apply_env_overrides_fields (host : Host) (lim : QCLimits) :
  _apply_env_overrides host lim
  = {| iv_min := match getenv host "QC_IV_MIN" with
                 | Some val =>
                     if String.eqb val "" then iv_min lim
                     else match float_text val with
                          | Some x => x
                          | None => iv_min lim
                          end
                 | None => iv_min lim
                 end;
       iv_max := match getenv host "QC_IV_MAX" with
                 | Some val =>
                     if String.eqb val "" then iv_max lim
                     else match float_text val with
                          | Some x => x
                          | None => iv_max lim
                          end
                 | None => iv_max lim
                 end |}.
Proof.
  unfold _apply_env_overrides, _ENV_MAP.
  cbn [fold_left]. rewrite !apply_env_override_turn.
  change (String.eqb "spread_rel_max" "iv_min") with false.
  change (String.eqb "spread_rel_max" "iv_max") with false.
  change (String.eqb "volume_min" "iv_min") with false.
  change (String.eqb "volume_min" "iv_max") with false.
  change (String.eqb "iv_min" "iv_min") with true.
  change (String.eqb "iv_max" "iv_min") with false.
  change (String.eqb "iv_max" "iv_max") with true.
  cbv beta iota. destruct lim as [lo hi]. cbn [iv_min iv_max].
  repeat match goal with
         | |- context [match ?o with Some _ => _ | None => _ end] =>
             destruct o
         | |- context [if ?b then _ else _] => destruct b
         end; reflexivity.
Qed.


End LimitsFacts.

(** X25. Of the four limits the configuration names, two exist. The keys
    [spread_rel_max] and [volume_min] of a mapping, and the variables
    [QC_SPREAD_REL_MAX] and [QC_VOLUME_MIN], are read and have no effect:
    [_limits_from_mapping] returns the defaults 0.01 and 5.0 with [iv_min]
    and [iv_max] replaced by the values of these two keys that are
    numbers, and [_apply_env_overrides] replaces them by the values of
    [QC_IV_MIN] and [QC_IV_MAX] that are not empty and spell a float. A
    value that is no number is passed over without an error. *)
Theorem limits_read_iv_only {B : Builtins} (host : Limits.Host)
  (m : list (string * Frame.value)) (lim : Cleaning.QCLimits) :
  let of_key key default :=
    match Text.get m key with
    | Some v => match Limits.float_of v with Some x => x | None => default end
    | None => default
    end in
  let of_env name default :=
    match Limits.getenv host name with
    | Some val =>
        if String.eqb val "" then default
        else match float_text val with Some x => x | None => default end
    | None => default
    end in
  Limits._limits_from_mapping m
  = {| Cleaning.iv_min := of_key "iv_min" (F64.of_ratio 1 100);
       Cleaning.iv_max := of_key "iv_max" (F64.of_Z 5) |}
  /\ Limits._apply_env_overrides host lim
     = {| Cleaning.iv_min := of_env "QC_IV_MIN" (Cleaning.iv_min lim);
          Cleaning.iv_max := of_env "QC_IV_MAX" (Cleaning.iv_max lim) |}.
Proof.
  intros of_key of_env. split.
  - apply limits_from_mapping_fields.
  - apply apply_env_overrides_fields.
Qed.


(** A configuration file with a comment, two limits and a key that is no
    field, under an environment that sets the upper limit: the lower
    limit is the file's, the upper one the variable's. *)
Example get_qc_limits_file_and_environment :
  let builtins := {| float_text := fun s =>
                       match Instrument.float_of_strike s with
                       | Ok x => Some x
                       | Raise _ => None
                       end |} in
  let ints := {| int_text := fun s =>
                   match Text.int s with Ok z => Some z | Raise _ => None end |} in
  let newline := String "010"%char "" in
  let text := ("# limits" ++ newline ++ "qc:" ++ newline
               ++ "  iv_min: 0.02" ++ newline
               ++ "  iv_max: 4" ++ newline
               ++ "  spread_rel_max: 0.5" ++ newline)%string in
  let host := {| Limits.getenv := fun name =>
                   if String.eqb name "QC_IV_MAX" then Some "3" else None;
                 Limits.read_text := fun p =>
                   if String.eqb p "qc.yaml" then Some text else None |} in
  @Limits._load_yaml_dict builtins ints text
  = [("qc", [("iv_min", Frame.VNum (F64.of_ratio 2 100));
             ("iv_max", Frame.VInt 4);
             ("spread_rel_max", Frame.VNum (F64.of_ratio 5 10))])]
  /\ @Limits.get_qc_limits builtins ints host None
     = {| Cleaning.iv_min := F64.of_ratio 2 100; Cleaning.iv_max := F64.of_Z 3 |}.
Proof. cbv zeta. split; vm_compute; reflexivity. Qed.

(* ------------------------------------------------------------------ *)
(** ** The cleaning pipeline *)
(* ------------------------------------------------------------------ *)

Section PipelineFacts.
Import Frame Cleaning.








End PipelineFacts.

Section PipelineStages.
Import Frame Cleaning.
Context {P : PandasText}.









End PipelineStages.

Section PipelineEnd.
Import Frame Cleaning.








End PipelineEnd.

Section PipelineRows.
Import Frame Cleaning.



End PipelineRows.
